(** * pyosmo360: the protocol engine of the Osmo360 camera client

    A shallow embedding of [src/pyosmo360/osmo360.py]: the two table-driven
    checksums, the frame codec ([build_dji_frame], [parse_dji_frame]), the
    enumerations and the fixed-offset decoder of the camera status payload,
    the notification handler, the command channel ([send_dji_command]), the
    public commands, the subscriber registry, the pairing handshake
    ([connect]), [disconnect] with the context-manager methods, and [main]
    of [src/pyosmo360/__main__.py].

    Conventions.
    - A Python [int] is a [Z]; [&], [|], [^], [>>] and [<<] are [Z.land],
      [Z.lor], [Z.lxor], [Z.shiftr] and [Z.shiftl], which agree with Python
      on negative numbers as well.
    - A [bytes] or [bytearray] value is a [list Z] whose elements lie in
      [0, 256) (predicate [is_bytes]).
    - A Python exception is a value of [exn] in the error side of [result].
    - Console output ([print], with or without [verbose]) is not modelled.
    - A [str] is a [string]; a character outside ASCII is one above 127.
    - The BLE transport is the environment: what it delivers while a
      coroutine is suspended is an explicit argument, and what is written
      to it is logged in the object state. Every inbound buffer is handled
      by one run of [_notification_handler], which does not suspend.
      Setting an [asyncio.Event] only schedules the coroutine that waits
      on it: the handlers that are already queued run before it resumes.
      What arrives during a wait is therefore a list of bursts, a burst
      being the buffers handled between two looks of the waiter.
    - Not embedded: [GPSData] and [setGPSData] (floating-point fields). *)

From Stdlib Require Import Ascii String.
From Stdlib Require Import ZArith List Lia Bool.
From stdpp Require Import base numbers list.
Import ListNotations.
Local Open Scope Z_scope.

(** ** Python values shared by all components *)

(** The exceptions the modelled code can raise. [ValueError] carries the
    reason given in the message of the [raise] statement. *)
Inductive value_error : Type :=
  | TooShort          (* "Frame data is too short" *)
  | BadSof            (* "Invalid frame header (SOF)" *)
  | LengthMismatch    (* "Frame length mismatch, declared: .., actual: .." *)
  | Crc16Mismatch     (* "CRC16 check failed, .." *)
  | Crc32Mismatch     (* "CRC32 check failed, .." *)
  | PayloadTooShort   (* "DATA section too short" *)
  | BytesOutOfRange   (* bytes([..]) with an element outside range(256) *)
  | NotAMember        (* Enum(value) when _missing_ gives None *)
  | NotInList         (* list.remove(x): x not in list *)
  | NonHex.           (* bytes.fromhex: "non-hexadecimal number found .." *)

Inductive exn : Type :=
  | ValueError (e : value_error)
  | IndexError                    (* data[i], i out of range *)
  | StructError                   (* struct.pack / struct.unpack *)
  | OverflowError                 (* int.to_bytes *)
  | AttributeError                (* attribute read before it is set *)
  | NotConnected                  (* Exception("Bluetooth not connected") *)
  | DeviceNotFound.               (* Exception("DJI Osmo Action device not found") *)

Inductive result (A : Type) : Type :=
  | Ok (a : A)
  | Raise (e : exn).
Arguments Ok {A} a.
Arguments Raise {A} e.

#[global] Instance result_ret : MRet result := fun A a => Ok a.
#[global] Instance result_bind : MBind result := fun A B k r =>
  match r with
  | Ok a => k a
  | Raise e => Raise e
  end.

Definition is_byte (b : Z) : Prop := 0 <= b < 256.
Definition is_bytes (l : list Z) : Prop := Forall is_byte l.

Definition is_byteb (b : Z) : bool := (0 <=? b) && (b <? 256).

(** [len(x)] as a Python int. *)
Definition len {A} (l : list A) : Z := Z.of_nat (length l).

(** [data[a:b]] for [0 <= a] and [0 <= b]: Python clips both ends to the
    length and gives the empty sequence when [b <= a]. *)
Definition slice {A} (l : list A) (a b : nat) : list A :=
  take (b - a) (drop a l).

(** [data[a:]]. *)
Definition slice_from {A} (l : list A) (a : nat) : list A := drop a l.

(** [data[i]] for [0 <= i]: [IndexError] out of range. *)
Definition index (l : list Z) (i : nat) : result Z :=
  match l !! i with
  | Some b => Ok b
  | None => Raise IndexError
  end.

(** [int.from_bytes(bs, 'little')]. *)
Fixpoint from_bytes_little (bs : list Z) : Z :=
  match bs with
  | [] => 0
  | b :: rest => b + 256 * from_bytes_little rest
  end.

(** The [n] low bytes of [x], least significant first. *)
Fixpoint little_bytes (n : nat) (x : Z) : list Z :=
  match n with
  | O => []
  | S n' => Z.land x 0xFF :: little_bytes n' (Z.shiftr x 8)
  end.

(** [x.to_bytes(n, 'little')]: [OverflowError] when [x] is negative or does
    not fit in [n] bytes. *)
Definition to_bytes_little (x : Z) (n : nat) : result (list Z) :=
  if (0 <=? x) && (x <? 2 ^ (8 * Z.of_nat n)) then Ok (little_bytes n x)
  else Raise OverflowError.

(** ** Checksum engine *)

Definition DJI_CRC16_TABLE : list Z :=
  [
   0x0000; 0xc0c1; 0xc181; 0x0140; 0xc301; 0x03c0; 0x0280; 0xc241;
   0xc601; 0x06c0; 0x0780; 0xc741; 0x0500; 0xc5c1; 0xc481; 0x0440;
   0xcc01; 0x0cc0; 0x0d80; 0xcd41; 0x0f00; 0xcfc1; 0xce81; 0x0e40;
   0x0a00; 0xcac1; 0xcb81; 0x0b40; 0xc901; 0x09c0; 0x0880; 0xc841;
   0xd801; 0x18c0; 0x1980; 0xd941; 0x1b00; 0xdbc1; 0xda81; 0x1a40;
   0x1e00; 0xdec1; 0xdf81; 0x1f40; 0xdd01; 0x1dc0; 0x1c80; 0xdc41;
   0x1400; 0xd4c1; 0xd581; 0x1540; 0xd701; 0x17c0; 0x1680; 0xd641;
   0xd201; 0x12c0; 0x1380; 0xd341; 0x1100; 0xd1c1; 0xd081; 0x1040;
   0xf001; 0x30c0; 0x3180; 0xf141; 0x3300; 0xf3c1; 0xf281; 0x3240;
   0x3600; 0xf6c1; 0xf781; 0x3740; 0xf501; 0x35c0; 0x3480; 0xf441;
   0x3c00; 0xfcc1; 0xfd81; 0x3d40; 0xff01; 0x3fc0; 0x3e80; 0xfe41;
   0xfa01; 0x3ac0; 0x3b80; 0xfb41; 0x3900; 0xf9c1; 0xf881; 0x3840;
   0x2800; 0xe8c1; 0xe981; 0x2940; 0xeb01; 0x2bc0; 0x2a80; 0xea41;
   0xee01; 0x2ec0; 0x2f80; 0xef41; 0x2d00; 0xedc1; 0xec81; 0x2c40;
   0xe401; 0x24c0; 0x2580; 0xe541; 0x2700; 0xe7c1; 0xe681; 0x2640;
   0x2200; 0xe2c1; 0xe381; 0x2340; 0xe101; 0x21c0; 0x2080; 0xe041;
   0xa001; 0x60c0; 0x6180; 0xa141; 0x6300; 0xa3c1; 0xa281; 0x6240;
   0x6600; 0xa6c1; 0xa781; 0x6740; 0xa501; 0x65c0; 0x6480; 0xa441;
   0x6c00; 0xacc1; 0xad81; 0x6d40; 0xaf01; 0x6fc0; 0x6e80; 0xae41;
   0xaa01; 0x6ac0; 0x6b80; 0xab41; 0x6900; 0xa9c1; 0xa881; 0x6840;
   0x7800; 0xb8c1; 0xb981; 0x7940; 0xbb01; 0x7bc0; 0x7a80; 0xba41;
   0xbe01; 0x7ec0; 0x7f80; 0xbf41; 0x7d00; 0xbdc1; 0xbc81; 0x7c40;
   0xb401; 0x74c0; 0x7580; 0xb541; 0x7700; 0xb7c1; 0xb681; 0x7640;
   0x7200; 0xb2c1; 0xb381; 0x7340; 0xb101; 0x71c0; 0x7080; 0xb041;
   0x5000; 0x90c1; 0x9181; 0x5140; 0x9301; 0x53c0; 0x5280; 0x9241;
   0x9601; 0x56c0; 0x5780; 0x9741; 0x5500; 0x95c1; 0x9481; 0x5440;
   0x9c01; 0x5cc0; 0x5d80; 0x9d41; 0x5f00; 0x9fc1; 0x9e81; 0x5e40;
   0x5a00; 0x9ac1; 0x9b81; 0x5b40; 0x9901; 0x59c0; 0x5880; 0x9841;
   0x8801; 0x48c0; 0x4980; 0x8941; 0x4b00; 0x8bc1; 0x8a81; 0x4a40;
   0x4e00; 0x8ec1; 0x8f81; 0x4f40; 0x8d01; 0x4dc0; 0x4c80; 0x8c41;
   0x4400; 0x84c1; 0x8581; 0x4540; 0x8701; 0x47c0; 0x4680; 0x8641;
   0x8201; 0x42c0; 0x4380; 0x8341; 0x4100; 0x81c1; 0x8081; 0x4040
  ].

Definition DJI_CRC32_TABLE : list Z :=
  [
   0x00000000; 0x77073096; 0xee0e612c; 0x990951ba; 0x076dc419; 0x706af48f; 0xe963a535; 0x9e6495a3;
   0x0edb8832; 0x79dcb8a4; 0xe0d5e91e; 0x97d2d988; 0x09b64c2b; 0x7eb17cbd; 0xe7b82d07; 0x90bf1d91;
   0x1db71064; 0x6ab020f2; 0xf3b97148; 0x84be41de; 0x1adad47d; 0x6ddde4eb; 0xf4d4b551; 0x83d385c7;
   0x136c9856; 0x646ba8c0; 0xfd62f97a; 0x8a65c9ec; 0x14015c4f; 0x63066cd9; 0xfa0f3d63; 0x8d080df5;
   0x3b6e20c8; 0x4c69105e; 0xd56041e4; 0xa2677172; 0x3c03e4d1; 0x4b04d447; 0xd20d85fd; 0xa50ab56b;
   0x35b5a8fa; 0x42b2986c; 0xdbbbc9d6; 0xacbcf940; 0x32d86ce3; 0x45df5c75; 0xdcd60dcf; 0xabd13d59;
   0x26d930ac; 0x51de003a; 0xc8d75180; 0xbfd06116; 0x21b4f4b5; 0x56b3c423; 0xcfba9599; 0xb8bda50f;
   0x2802b89e; 0x5f058808; 0xc60cd9b2; 0xb10be924; 0x2f6f7c87; 0x58684c11; 0xc1611dab; 0xb6662d3d;
   0x76dc4190; 0x01db7106; 0x98d220bc; 0xefd5102a; 0x71b18589; 0x06b6b51f; 0x9fbfe4a5; 0xe8b8d433;
   0x7807c9a2; 0x0f00f934; 0x9609a88e; 0xe10e9818; 0x7f6a0dbb; 0x086d3d2d; 0x91646c97; 0xe6635c01;
   0x6b6b51f4; 0x1c6c6162; 0x856530d8; 0xf262004e; 0x6c0695ed; 0x1b01a57b; 0x8208f4c1; 0xf50fc457;
   0x65b0d9c6; 0x12b7e950; 0x8bbeb8ea; 0xfcb9887c; 0x62dd1ddf; 0x15da2d49; 0x8cd37cf3; 0xfbd44c65;
   0x4db26158; 0x3ab551ce; 0xa3bc0074; 0xd4bb30e2; 0x4adfa541; 0x3dd895d7; 0xa4d1c46d; 0xd3d6f4fb;
   0x4369e96a; 0x346ed9fc; 0xad678846; 0xda60b8d0; 0x44042d73; 0x33031de5; 0xaa0a4c5f; 0xdd0d7cc9;
   0x5005713c; 0x270241aa; 0xbe0b1010; 0xc90c2086; 0x5768b525; 0x206f85b3; 0xb966d409; 0xce61e49f;
   0x5edef90e; 0x29d9c998; 0xb0d09822; 0xc7d7a8b4; 0x59b33d17; 0x2eb40d81; 0xb7bd5c3b; 0xc0ba6cad;
   0xedb88320; 0x9abfb3b6; 0x03b6e20c; 0x74b1d29a; 0xead54739; 0x9dd277af; 0x04db2615; 0x73dc1683;
   0xe3630b12; 0x94643b84; 0x0d6d6a3e; 0x7a6a5aa8; 0xe40ecf0b; 0x9309ff9d; 0x0a00ae27; 0x7d079eb1;
   0xf00f9344; 0x8708a3d2; 0x1e01f268; 0x6906c2fe; 0xf762575d; 0x806567cb; 0x196c3671; 0x6e6b06e7;
   0xfed41b76; 0x89d32be0; 0x10da7a5a; 0x67dd4acc; 0xf9b9df6f; 0x8ebeeff9; 0x17b7be43; 0x60b08ed5;
   0xd6d6a3e8; 0xa1d1937e; 0x38d8c2c4; 0x4fdff252; 0xd1bb67f1; 0xa6bc5767; 0x3fb506dd; 0x48b2364b;
   0xd80d2bda; 0xaf0a1b4c; 0x36034af6; 0x41047a60; 0xdf60efc3; 0xa867df55; 0x316e8eef; 0x4669be79;
   0xcb61b38c; 0xbc66831a; 0x256fd2a0; 0x5268e236; 0xcc0c7795; 0xbb0b4703; 0x220216b9; 0x5505262f;
   0xc5ba3bbe; 0xb2bd0b28; 0x2bb45a92; 0x5cb36a04; 0xc2d7ffa7; 0xb5d0cf31; 0x2cd99e8b; 0x5bdeae1d;
   0x9b64c2b0; 0xec63f226; 0x756aa39c; 0x026d930a; 0x9c0906a9; 0xeb0e363f; 0x72076785; 0x05005713;
   0x95bf4a82; 0xe2b87a14; 0x7bb12bae; 0x0cb61b38; 0x92d28e9b; 0xe5d5be0d; 0x7cdcefb7; 0x0bdbdf21;
   0x86d3d2d4; 0xf1d4e242; 0x68ddb3f8; 0x1fda836e; 0x81be16cd; 0xf6b9265b; 0x6fb077e1; 0x18b74777;
   0x88085ae6; 0xff0f6a70; 0x66063bca; 0x11010b5c; 0x8f659eff; 0xf862ae69; 0x616bffd3; 0x166ccf45;
   0xa00ae278; 0xd70dd2ee; 0x4e048354; 0x3903b3c2; 0xa7672661; 0xd06016f7; 0x4969474d; 0x3e6e77db;
   0xaed16a4a; 0xd9d65adc; 0x40df0b66; 0x37d83bf0; 0xa9bcae53; 0xdebb9ec5; 0x47b2cf7f; 0x30b5ffe9;
   0xbdbdf21c; 0xcabac28a; 0x53b39330; 0x24b4a3a6; 0xbad03605; 0xcdd70693; 0x54de5729; 0x23d967bf;
   0xb3667a2e; 0xc4614ab8; 0x5d681b02; 0x2a6f2b94; 0xb40bbe37; 0xc30c8ea1; 0x5a05df1b; 0x2d02ef8d
  ].

(** [table[i]] for an index the caller has masked with [& 0xFF]. *)
Definition table_get (table : list Z) (i : Z) : Z :=
  nth (Z.to_nat i) table 0.

(** The body of [for b in data] in [_ccrc16], with [crc] as the loop
    variable. *)
Fixpoint _ccrc16_loop (data : list Z) (crc : Z) : Z :=
  match data with
  | [] => crc
  | b :: rest =>
      let tbl_idx := Z.land (Z.lxor crc b) 0xFF in
      let crc := Z.land (Z.lxor (table_get DJI_CRC16_TABLE tbl_idx)
                                (Z.shiftr crc 8)) 0xFFFF in
      _ccrc16_loop rest crc
  end.

Definition _ccrc16_init : Z := 0x3AA3.

Definition _ccrc16 (data : list Z) (init : Z) : Z := _ccrc16_loop data init.

Fixpoint _ccrc32_loop (data : list Z) (crc : Z) : Z :=
  match data with
  | [] => crc
  | b :: rest =>
      let tbl_idx := Z.land (Z.lxor crc b) 0xFF in
      let crc := Z.land (Z.lxor (table_get DJI_CRC32_TABLE tbl_idx)
                                (Z.shiftr crc 8)) 0xFFFFFFFF in
      _ccrc32_loop rest crc
  end.

Definition _ccrc32_init : Z := 0x00003AA3.

Definition _ccrc32 (data : list Z) (init : Z) : Z := _ccrc32_loop data init.

(** The checksum engine as the specification words it: one step
    [crc = table[(crc ^ byte) & 0xFF] ^ (crc >> 8)], kept to [width] bits,
    folded over the input from the seed. *)
Definition crc_step (table : list Z) (width : Z) (crc byte : Z) : Z :=
  Z.land (Z.lxor (table_get table (Z.land (Z.lxor crc byte) 0xFF))
                 (Z.shiftr crc 8))
         (Z.ones width).

Definition crc_fold (table : list Z) (width : Z) (bytes : list Z) (seed : Z) : Z :=
  fold_left (crc_step table width) bytes seed.

(** ** Frame codec *)

(** [bytes([..])]: [ValueError] unless every element is in [range(256)]. *)
Definition py_bytes (l : list Z) : result (list Z) :=
  if forallb is_byteb l then Ok l else Raise (ValueError BytesOutOfRange).

Definition build_dji_frame (cmd_set cmd_id : Z) (payload : list Z)
    (is_response : bool) (ack_type : Z) : result (list Z) :=
  (* Create DATA part *)
  ids ← py_bytes [cmd_set; cmd_id];
  let data := ids ++ payload in
  (* Create CmdType byte *)
  let cmd_type_byte := 0x00 in
  let cmd_type_byte := Z.lor cmd_type_byte (Z.land ack_type 0x1F) in
  let cmd_type_byte :=
    if is_response then Z.lor cmd_type_byte 0x20 else cmd_type_byte in
  (* Create frame header *)
  let length := 12 + len data + 4 in
  let ver_length := Z.lor (Z.shiftl 0 10) (Z.land length 0x03FF) in
  ver_length_bytes ← to_bytes_little ver_length 2;
  frame_header ← py_bytes
    [ 0xAA;
      nth 0 ver_length_bytes 0; nth 1 ver_length_bytes 0;
      cmd_type_byte;
      0x00;
      0x00; 0x00; 0x00;
      0x01; 0x00 ];
  (* Calculate CRC16 (SOF to SEQ) *)
  let crc16 := _ccrc16 frame_header _ccrc16_init in
  crc16_bytes ← to_bytes_little crc16 2;
  let frame_header := frame_header ++ crc16_bytes in
  (* Complete frame (SOF to DATA) *)
  let full_frame := frame_header ++ data in
  (* Calculate CRC32 (SOF to DATA) *)
  let crc32 := _ccrc32 full_frame _ccrc32_init in
  crc32_bytes ← to_bytes_little crc32 4;
  Ok (full_frame ++ crc32_bytes).

(** The dictionary [parse_dji_frame] returns, one field per key. *)
Record frame : Type := Frame {
  fr_version : Z;
  fr_length : Z;
  fr_frame_type : Z;
  fr_ack_type : Z;
  fr_enc : Z;
  fr_seq : Z;
  fr_crc16 : Z;
  fr_crc32 : Z;
  fr_cmd_set : Z;
  fr_cmd_id : Z;
  fr_data : list Z
}.

(** [data[i]] at an index that the length test at the head of
    [parse_dji_frame] has put in range. *)
Definition at_ (data : list Z) (i : nat) : Z := nth i data 0.

Definition parse_dji_frame (data : list Z) : result frame :=
  if len data <? 16 then Raise (ValueError TooShort) else
  (* Check SOF *)
  if negb (at_ data 0 =? 0xAA) then Raise (ValueError BadSof) else
  (* Analyze length field (Ver/Length) *)
  let ver_length := from_bytes_little (slice data 1 3) in
  let version := Z.land (Z.shiftr ver_length 10) 0x3F in
  let length := Z.land ver_length 0x3FF in
  (* Check if length matches *)
  if negb (len data =? length) then Raise (ValueError LengthMismatch) else
  (* Analyze CmdType *)
  let cmd_type := at_ data 3 in
  let frame_type := Z.land (Z.shiftr cmd_type 5) 0x01 in
  let ack_type := Z.land cmd_type 0x1F in
  (* Analyze ENC *)
  let enc := at_ data 4 in
  (* Analyze SEQ *)
  let seq := from_bytes_little (slice data 8 10) in
  (* Check CRC16 (SOF to SEQ) *)
  let crc16_calculated := _ccrc16 (slice data 0 10) _ccrc16_init in
  let crc16_received := from_bytes_little (slice data 10 12) in
  if negb (crc16_calculated =? crc16_received)
  then Raise (ValueError Crc16Mismatch) else
  (* Extract DATA area *)
  let data_start := 12%nat in
  let data_end := Z.to_nat (length - 4) in
  let data_payload := slice data data_start data_end in
  (* Check CRC32 (SOF to DATA) *)
  let crc32_calculated := _ccrc32 (slice data 0 data_end) _ccrc32_init in
  let crc32_received := from_bytes_little (slice data data_end (Z.to_nat length)) in
  if negb (crc32_calculated =? crc32_received)
  then Raise (ValueError Crc32Mismatch) else
  (* Analyze DATA area CmdSet and CmdID *)
  if len data_payload <? 2 then Raise (ValueError PayloadTooShort) else
  let cmd_set := at_ data_payload 0 in
  let cmd_id := at_ data_payload 1 in
  let actual_data := slice_from data_payload 2 in
  Ok {| fr_version := version; fr_length := length;
        fr_frame_type := frame_type; fr_ack_type := ack_type;
        fr_enc := enc; fr_seq := seq;
        fr_crc16 := crc16_received; fr_crc32 := crc32_received;
        fr_cmd_set := cmd_set; fr_cmd_id := cmd_id;
        fr_data := actual_data |}.

(** *** The shape of a built frame

    What [build_dji_frame] assembles, named part by part, and
    [parse_dji_frame] read on a buffer already cut into header, CRC16 field,
    data section and CRC32 field. Both are proved equal to the code below. *)

Definition cmd_type_of (is_response : bool) (ack_type : Z) : Z :=
  let c := Z.lor 0x00 (Z.land ack_type 0x1F) in
  if is_response then Z.lor c 0x20 else c.

Definition header_of (length : Z) (is_response : bool) (ack_type : Z) : list Z :=
  [ 0xAA; Z.land length 0xFF; Z.land (Z.shiftr length 8) 0xFF;
    cmd_type_of is_response ack_type; 0x00; 0x00; 0x00; 0x00; 0x01; 0x00 ].

Definition crc16_field (header : list Z) : list Z :=
  little_bytes 2 (_ccrc16 header _ccrc16_init).

Definition crc32_field (header crc16 body : list Z) : list Z :=
  little_bytes 4 (_ccrc32 (header ++ crc16 ++ body) _ccrc32_init).

Definition frame_of (cmd_set cmd_id : Z) (payload : list Z)
    (is_response : bool) (ack_type : Z) : list Z :=
  let body := cmd_set :: cmd_id :: payload in
  let length := 12 + len body + 4 in
  let header := header_of (Z.land length 0x03FF) is_response ack_type in
  let crc16 := crc16_field header in
  header ++ crc16 ++ body ++ crc32_field header crc16 body.

Definition parse_parts (header crc16 body crc32 : list Z) : result frame :=
  if negb (at_ header 0 =? 0xAA) then Raise (ValueError BadSof) else
  let ver_length := from_bytes_little (slice header 1 3) in
  let length := Z.land ver_length 0x3FF in
  if negb (len (header ++ crc16 ++ body ++ crc32) =? length)
  then Raise (ValueError LengthMismatch) else
  if negb (_ccrc16 header _ccrc16_init =? from_bytes_little crc16)
  then Raise (ValueError Crc16Mismatch) else
  if negb (_ccrc32 (header ++ crc16 ++ body) _ccrc32_init =? from_bytes_little crc32)
  then Raise (ValueError Crc32Mismatch) else
  if len body <? 2 then Raise (ValueError PayloadTooShort) else
  Ok {| fr_version := Z.land (Z.shiftr ver_length 10) 0x3F;
        fr_length := length;
        fr_frame_type := Z.land (Z.shiftr (at_ header 3) 5) 0x01;
        fr_ack_type := Z.land (at_ header 3) 0x1F;
        fr_enc := at_ header 4;
        fr_seq := from_bytes_little (slice header 8 10);
        fr_crc16 := from_bytes_little crc16;
        fr_crc32 := from_bytes_little crc32;
        fr_cmd_set := at_ body 0;
        fr_cmd_id := at_ body 1;
        fr_data := slice_from body 2 |}.

(** The tuples [build_dji_frame] encodes into a well-formed frame: the two
    identifiers are bytes, the payload is a byte sequence, and the total
    length fits the 10-bit length field. *)
Definition valid_args (cmd_set cmd_id : Z) (payload : list Z) : Prop :=
  is_byte cmd_set /\ is_byte cmd_id /\ is_bytes payload /\
  12 + (2 + len payload) + 4 <= 0x3FF.


(** The length that a 10-byte header declares. *)
Definition declared_length (header : list Z) : Z :=
  Z.land (from_bytes_little (slice header 1 3)) 0x3FF.

(** A buffer cut in four parts that [parse_dji_frame] accepts up to the
    length test: byte sequences of the right sizes, the start byte, and the
    two checksum fields holding the checksums of what precedes them. *)
Definition sealed (header crc16 body crc32 : list Z) : Prop :=
  length header = 10%nat /\ length crc16 = 2%nat /\ length crc32 = 4%nat /\
  is_bytes header /\ is_bytes crc16 /\ is_bytes body /\ is_bytes crc32 /\
  at_ header 0 = 0xAA /\
  from_bytes_little crc16 = _ccrc16 header _ccrc16_init /\
  from_bytes_little crc32 = _ccrc32 (header ++ crc16 ++ body) _ccrc32_init.

(** What [parse_dji_frame] answers when byte [i] of a sealed buffer of
    [total] bytes has been replaced, [header'] being the header after the
    replacement. *)
Definition tamper_verdict (i : nat) (total : Z) (header' : list Z) : result frame :=
  match i with
  | O => Raise (ValueError BadSof)
  | S _ =>
      if total =? declared_length header' then
        if (i <? 12)%nat then Raise (ValueError Crc16Mismatch)
        else Raise (ValueError Crc32Mismatch)
      else Raise (ValueError LengthMismatch)
  end.


(** The frame of the set-mode command with a five-byte payload, used as a
    concrete input below. *)
Definition sample_frame : list Z :=
  [170; 23; 0; 1; 0; 0; 0; 0; 1; 0; 0; 46; 29; 4; 1; 2; 3; 4; 5; 194; 5; 5; 239].


(** ** Enumerations of the camera status *)

(** A Python [Enum] class with integer values: its members in definition
    order, the value of each, and the class method [_missing_], which a
    lookup calls for a value no member has. The [_missing_] that [Enum]
    itself provides returns [None]. *)
Class PyEnum (E : Type) : Type := {
  members : list E;
  value : E -> Z;
  _missing_ : Z -> option E
}.

(** [cls(value)]: the first member with that value; otherwise what
    [_missing_] gives, and [ValueError] when it gives [None]. *)
Definition enum_call {E} `{PyEnum E} (v : Z) : result E :=
  match find (fun m => value m =? v) members with
  | Some m => Ok m
  | None =>
      match _missing_ v with
      | Some m => Ok m
      | None => Raise (ValueError NotAMember)
      end
  end.

Module CameraMode.
Inductive t : Type :=
  | PANO_VIDEO
  | HYPERLAPSE
  | SELFIE
  | PANO_PHOTO
  | BOOST_VIDEO
  | VORTEX
  | PANO_SUPER_NIGHT
  | SINGLE_LENS_SUPER_NIGHT
  | UNKNOWN.

Definition members : list t :=
  [PANO_VIDEO; HYPERLAPSE; SELFIE; PANO_PHOTO; BOOST_VIDEO; VORTEX; PANO_SUPER_NIGHT; SINGLE_LENS_SUPER_NIGHT; UNKNOWN].

Definition value (m : t) : Z :=
  match m with
  | PANO_VIDEO => 0x38
  | HYPERLAPSE => 0x3A
  | SELFIE => 0x3C
  | PANO_PHOTO => 0x3F
  | BOOST_VIDEO => 0x41
  | VORTEX => 0x43
  | PANO_SUPER_NIGHT => 0x44
  | SINGLE_LENS_SUPER_NIGHT => 0x4A
  | UNKNOWN => (-1)
  end.

(** [_missing_(cls, value)]: [return cls.UNKNOWN]. *)
Definition _missing_ (value : Z) : option t := Some UNKNOWN.
End CameraMode.

#[global] Instance CameraMode_enum : PyEnum CameraMode.t :=
  {| members := CameraMode.members; value := CameraMode.value;
     _missing_ := CameraMode._missing_ |}.

Module ViewStatus.
Inductive t : Type :=
  | SCREEN_OFF
  | LIVE_STREAMING
  | PLAYBACK
  | PHOTO_OR_RECORDING
  | PRE_RECORDING
  | UNKNOWN.

Definition members : list t :=
  [SCREEN_OFF; LIVE_STREAMING; PLAYBACK; PHOTO_OR_RECORDING; PRE_RECORDING; UNKNOWN].

Definition value (m : t) : Z :=
  match m with
  | SCREEN_OFF => 0x00
  | LIVE_STREAMING => 0x01
  | PLAYBACK => 0x02
  | PHOTO_OR_RECORDING => 0x03
  | PRE_RECORDING => 0x05
  | UNKNOWN => (-1)
  end.

(** [_missing_(cls, value)]: [return cls.UNKNOWN]. *)
Definition _missing_ (value : Z) : option t := Some UNKNOWN.
End ViewStatus.

#[global] Instance ViewStatus_enum : PyEnum ViewStatus.t :=
  {| members := ViewStatus.members; value := ViewStatus.value;
     _missing_ := ViewStatus._missing_ |}.

Module VideoResolution.
Inductive t : Type :=
  | RES_1080P
  | RES_4K
  | RES_27K
  | RES_1080P_9_16
  | RES_27K_4_3
  | RES_4K_4_3
  | RES_4K_9_16
  | RES_UW_30MP
  | RES_W_20MP
  | RES_STD_12MP
  | UNKNOWN.

Definition members : list t :=
  [RES_1080P; RES_4K; RES_27K; RES_1080P_9_16; RES_27K_4_3; RES_4K_4_3; RES_4K_9_16; RES_UW_30MP; RES_W_20MP; RES_STD_12MP; UNKNOWN].

Definition value (m : t) : Z :=
  match m with
  | RES_1080P => 10
  | RES_4K => 16
  | RES_27K => 45
  | RES_1080P_9_16 => 66
  | RES_27K_4_3 => 95
  | RES_4K_4_3 => 103
  | RES_4K_9_16 => 109
  | RES_UW_30MP => 4
  | RES_W_20MP => 3
  | RES_STD_12MP => 2
  | UNKNOWN => (-1)
  end.

(** [_missing_(cls, value)]: [return cls.UNKNOWN]. *)
Definition _missing_ (value : Z) : option t := Some UNKNOWN.
End VideoResolution.

#[global] Instance VideoResolution_enum : PyEnum VideoResolution.t :=
  {| members := VideoResolution.members; value := VideoResolution.value;
     _missing_ := VideoResolution._missing_ |}.

Module FPSIdx.
Inductive t : Type :=
  | FPS_24
  | FPS_25
  | FPS_30
  | FPS_48
  | FPS_50
  | FPS_60
  | FPS_100
  | FPS_120
  | FPS_200
  | FPS_240
  | UNKNOWN.

Definition members : list t :=
  [FPS_24; FPS_25; FPS_30; FPS_48; FPS_50; FPS_60; FPS_100; FPS_120; FPS_200; FPS_240; UNKNOWN].

Definition value (m : t) : Z :=
  match m with
  | FPS_24 => 1
  | FPS_25 => 2
  | FPS_30 => 3
  | FPS_48 => 4
  | FPS_50 => 5
  | FPS_60 => 6
  | FPS_100 => 10
  | FPS_120 => 7
  | FPS_200 => 19
  | FPS_240 => 8
  | UNKNOWN => (-1)
  end.

(** [_missing_(cls, value)]: [return cls.UNKNOWN]. *)
Definition _missing_ (value : Z) : option t := Some UNKNOWN.
End FPSIdx.

#[global] Instance FPSIdx_enum : PyEnum FPSIdx.t :=
  {| members := FPSIdx.members; value := FPSIdx.value;
     _missing_ := FPSIdx._missing_ |}.

Module EISMode.
Inductive t : Type :=
  | OFF
  | RS
  | HS
  | RS_P
  | HB
  | UNKNOWN.

Definition members : list t :=
  [OFF; RS; HS; RS_P; HB; UNKNOWN].

Definition value (m : t) : Z :=
  match m with
  | OFF => 0
  | RS => 1
  | HS => 2
  | RS_P => 3
  | HB => 4
  | UNKNOWN => (-1)
  end.

(** [_missing_(cls, value)]: [return cls.UNKNOWN]. *)
Definition _missing_ (value : Z) : option t := Some UNKNOWN.
End EISMode.

#[global] Instance EISMode_enum : PyEnum EISMode.t :=
  {| members := EISMode.members; value := EISMode.value;
     _missing_ := EISMode._missing_ |}.

Module PhotoRatio.
Inductive t : Type :=
  | RATIO_4_3
  | RATIO_16_9
  | UNKNOWN.

Definition members : list t :=
  [RATIO_4_3; RATIO_16_9; UNKNOWN].

Definition value (m : t) : Z :=
  match m with
  | RATIO_4_3 => 0
  | RATIO_16_9 => 1
  | UNKNOWN => (-1)
  end.

(** [_missing_(cls, value)]: [return cls.UNKNOWN]. *)
Definition _missing_ (value : Z) : option t := Some UNKNOWN.
End PhotoRatio.

#[global] Instance PhotoRatio_enum : PyEnum PhotoRatio.t :=
  {| members := PhotoRatio.members; value := PhotoRatio.value;
     _missing_ := PhotoRatio._missing_ |}.

Module UserMode.
Inductive t : Type :=
  | GENERAL
  | CUSTOM_1
  | CUSTOM_2
  | CUSTOM_3
  | CUSTOM_4
  | CUSTOM_5
  | UNKNOWN.

Definition members : list t :=
  [GENERAL; CUSTOM_1; CUSTOM_2; CUSTOM_3; CUSTOM_4; CUSTOM_5; UNKNOWN].

Definition value (m : t) : Z :=
  match m with
  | GENERAL => 0
  | CUSTOM_1 => 1
  | CUSTOM_2 => 2
  | CUSTOM_3 => 3
  | CUSTOM_4 => 4
  | CUSTOM_5 => 5
  | UNKNOWN => (-1)
  end.

(** [_missing_(cls, value)]: [return cls.UNKNOWN]. *)
Definition _missing_ (value : Z) : option t := Some UNKNOWN.
End UserMode.

#[global] Instance UserMode_enum : PyEnum UserMode.t :=
  {| members := UserMode.members; value := UserMode.value;
     _missing_ := UserMode._missing_ |}.

Module PowerMode.
Inductive t : Type :=
  | NORMAL
  | SLEEP
  | UNKNOWN.

Definition members : list t :=
  [NORMAL; SLEEP; UNKNOWN].

Definition value (m : t) : Z :=
  match m with
  | NORMAL => 0
  | SLEEP => 3
  | UNKNOWN => (-1)
  end.

(** [_missing_(cls, value)]: [return cls.UNKNOWN]. *)
Definition _missing_ (value : Z) : option t := Some UNKNOWN.
End PowerMode.

#[global] Instance PowerMode_enum : PyEnum PowerMode.t :=
  {| members := PowerMode.members; value := PowerMode.value;
     _missing_ := PowerMode._missing_ |}.

Module TempOver.
Inductive t : Type :=
  | NORMAL
  | WARNING
  | TOO_HIGH
  | OVERHEAT
  | UNKNOWN.

Definition members : list t :=
  [NORMAL; WARNING; TOO_HIGH; OVERHEAT; UNKNOWN].

Definition value (m : t) : Z :=
  match m with
  | NORMAL => 0
  | WARNING => 1
  | TOO_HIGH => 2
  | OVERHEAT => 3
  | UNKNOWN => (-1)
  end.

(** [_missing_(cls, value)]: [return cls.UNKNOWN]. *)
Definition _missing_ (value : Z) : option t := Some UNKNOWN.
End TempOver.

#[global] Instance TempOver_enum : PyEnum TempOver.t :=
  {| members := TempOver.members; value := TempOver.value;
     _missing_ := TempOver._missing_ |}.


(** ** Camera status *)

Record CameraStatus : Type := {
  camera_mode : CameraMode.t;
  view_status : ViewStatus.t;
  video_resolution : VideoResolution.t;
  fps_idx : FPSIdx.t;
  eis_mode : EISMode.t;
  record_time : Z;
  fov_type : Z;
  photo_ratio : PhotoRatio.t;
  real_time_countdown : Z;
  timelaps_interval : Z;
  timelaps_duration : Z;
  remain_capacity : Z;
  remain_photo_num : Z;
  remain_time : Z;
  user_mode : UserMode.t;
  power_mode : PowerMode.t;
  temp_over : TempOver.t;
  photo_countdown_ms : Z;
  loop_record_sends : Z;
  camera_bat_percentage : Z;
  data : option (list Z)        (* declared, and unset until parsed *)
}.

(** [CameraStatus()]: the class attributes. *)
Definition CameraStatus_new : CameraStatus := {|
  camera_mode := CameraMode.PANO_VIDEO;
  view_status := ViewStatus.LIVE_STREAMING;
  video_resolution := VideoResolution.RES_1080P;
  fps_idx := FPSIdx.FPS_24;
  eis_mode := EISMode.HB;
  record_time := -1;
  fov_type := -1;
  photo_ratio := PhotoRatio.RATIO_4_3;
  real_time_countdown := -1;
  timelaps_interval := -1;
  timelaps_duration := -1;
  remain_capacity := -1;
  remain_photo_num := -1;
  remain_time := -1;
  user_mode := UserMode.GENERAL;
  power_mode := PowerMode.NORMAL;
  temp_over := TempOver.NORMAL;
  photo_countdown_ms := -1;
  loop_record_sends := -1;
  camera_bat_percentage := -1;
  data := None
|}.

(** [struct.unpack('<H', bs)[0]] with [n = 2] and
    [struct.unpack('<I', bs)[0]] with [n = 4]: [struct.error] unless the
    buffer has exactly [n] bytes. *)
Definition unpack_little (n : nat) (bs : list Z) : result Z :=
  if (length bs =? n)%nat then Ok (from_bytes_little bs) else Raise StructError.

(** [cls(data[i])]. *)
Definition enum_at {E} `{PyEnum E} (data : list Z) (i : nat) : result E :=
  v ← index data i; enum_call v.

(** The attribute an assignment leaves: the new value when the statement
    was reached and did not raise, the old one otherwise. *)
Definition assigned {A} (r : result A) (old : A) : A :=
  match r with
  | Ok a => a
  | Raise _ => old
  end.

(** [parseFromData]: the statements of the body in order, each run only
    when the ones before it did not raise; the object after the call (with
    the attributes assigned so far when a statement raised) and the outcome
    of the call. *)
Definition parseFromData (self : CameraStatus) (data_ : list Z)
    : CameraStatus * result unit :=
  let s0 : result CameraMode.t := enum_at data_ 0 in
  let s1 : result ViewStatus.t := s0 ≫= fun _ => enum_at data_ 1 in
  let s2 : result VideoResolution.t := s1 ≫= fun _ => enum_at data_ 2 in
  let s3 : result FPSIdx.t := s2 ≫= fun _ => enum_at data_ 3 in
  let s4 : result EISMode.t := s3 ≫= fun _ => enum_at data_ 4 in
  let s5 := s4 ≫= fun _ => unpack_little 2 (slice data_ 5 7) in
  let s6 : result PhotoRatio.t := s5 ≫= fun _ => enum_at data_ 8 in
  let s7 := s6 ≫= fun _ => unpack_little 2 (slice data_ 9 11) in
  let s8 := s7 ≫= fun _ => unpack_little 2 (slice data_ 11 13) in
  let s9 := s8 ≫= fun _ => unpack_little 2 (slice data_ 13 15) in
  let s10 := s9 ≫= fun _ => unpack_little 4 (slice data_ 15 19) in
  let s11 := s10 ≫= fun _ => unpack_little 4 (slice data_ 19 23) in
  let s12 := s11 ≫= fun _ => unpack_little 4 (slice data_ 23 27) in
  let s13 : result UserMode.t := s12 ≫= fun _ => enum_at data_ 28 in
  let s14 : result PowerMode.t := s13 ≫= fun _ => enum_at data_ 29 in
  let s15 : result TempOver.t := s14 ≫= fun _ => enum_at data_ 30 in
  let s16 := s15 ≫= fun _ => unpack_little 4 (slice data_ 31 35) in
  let s17 := s16 ≫= fun _ => unpack_little 2 (slice data_ 35 37) in
  let s18 := s17 ≫= fun _ => index data_ 37 in
  let s19 := s18 ≫= fun _ => Ok (Some data_) in
  ({| camera_mode := assigned s0 (camera_mode self);
      view_status := assigned s1 (view_status self);
      video_resolution := assigned s2 (video_resolution self);
      fps_idx := assigned s3 (fps_idx self);
      eis_mode := assigned s4 (eis_mode self);
      record_time := assigned s5 (record_time self);
      fov_type := fov_type self;
      photo_ratio := assigned s6 (photo_ratio self);
      real_time_countdown := assigned s7 (real_time_countdown self);
      timelaps_interval := assigned s8 (timelaps_interval self);
      timelaps_duration := assigned s9 (timelaps_duration self);
      remain_capacity := assigned s10 (remain_capacity self);
      remain_photo_num := assigned s11 (remain_photo_num self);
      remain_time := assigned s12 (remain_time self);
      user_mode := assigned s13 (user_mode self);
      power_mode := assigned s14 (power_mode self);
      temp_over := assigned s15 (temp_over self);
      photo_countdown_ms := assigned s16 (photo_countdown_ms self);
      loop_record_sends := assigned s17 (loop_record_sends self);
      camera_bat_percentage := assigned s18 (camera_bat_percentage self);
      data := assigned s19 (data self) |},
   s19 ≫= fun _ => Ok tt).

(** What [cls(v)] gives for the nine classes above, whose [_missing_]
    answers [UNKNOWN]: the first member with value [v], or [unknown]. *)
Definition enum_decode {E} `{PyEnum E} (unknown : E) (v : Z) : E :=
  match find (fun m => value m =? v) members with
  | Some m => m
  | None => unknown
  end.


(** What [parseFromData] leaves in an attribute whose statement needs the
    first [needed] bytes of a payload of [n] bytes: the decoded value when
    the payload reaches that far, the value it had otherwise. *)
Definition updated_if {A} (n needed : nat) (decoded old now : A) : Prop :=
  now = if (needed <=? n)%nat then decoded else old.


(** A computation that, when it raises, raises one of the two errors of a
    payload that is too short. *)
Definition raises_short {A} (r : result A) : Prop :=
  forall e, r = Raise e -> e = IndexError \/ e = StructError.


(** ** The client object *)

(** A subscriber: a Python callable, known by its identity (what
    [list.remove] compares) and by whether calling it on a status raises. *)
Record callback : Type := {
  cb_id : nat;
  cb_raises : CameraStatus -> bool
}.

(** *** The local address *)

(** [s.replace(c, '')] for a one-character [c]: every occurrence goes. *)
Fixpoint remove_char (c : ascii) (s : string) : string :=
  match s with
  | EmptyString => EmptyString
  | String x rest =>
      if Ascii.eqb x c then remove_char c rest
      else String x (remove_char c rest)
  end.

Definition code_point (c : ascii) : Z := Z.of_N (N_of_ascii c).

(** The value of a hexadecimal digit, in either case. *)
Definition hex_digit (c : ascii) : option Z :=
  let n := code_point c in
  if (48 <=? n) && (n <=? 57) then Some (n - 48)
  else if (97 <=? n) && (n <=? 102) then Some (n - 87)
  else if (65 <=? n) && (n <=? 70) then Some (n - 55)
  else None.

(** ASCII whitespace: space, tab, line feed, vertical tab, form feed and
    carriage return. *)
Definition is_space (c : ascii) : bool :=
  let n := code_point c in
  (n =? 32) || ((9 <=? n) && (n <=? 13)).

(** [bytes.fromhex(s)]: two hexadecimal digits per byte; whitespace is
    skipped before a byte and nowhere else. A character that is neither, a
    digit without its partner, and a character outside ASCII raise
    [ValueError]. *)
Fixpoint bytes_fromhex (s : string) : result (list Z) :=
  match s with
  | EmptyString => Ok []
  | String c rest =>
      if is_space c then bytes_fromhex rest else
      match hex_digit c with
      | None => Raise (ValueError NonHex)
      | Some top =>
          match rest with
          | EmptyString => Raise (ValueError NonHex)
          | String c' rest' =>
              match hex_digit c' with
              | None => Raise (ValueError NonHex)
              | Some bot =>
                  bs ← bytes_fromhex rest';
                  mret (top * 16 + bot :: bs)
              end
          end
      end
  end.

(** [_parse_mac_address]:
    [bytes.fromhex(mac_str.replace(':', '').replace('-', ''))]. *)
Definition _parse_mac_address (mac_str : string) : result (list Z) :=
  bytes_fromhex (remove_char "-" (remove_char ":" mac_str)).

(** The attributes of an [Osmo360] object that the protocol engine reads
    and writes, followed by three logs of what the object did to its
    collaborators. The two events and the subscriber list are class
    attributes in the source, shared by all instances; one instance is
    modelled. *)
Record Osmo360 : Type := {
  connected : bool;   (* [self.client and self.client.is_connected] *)
  notification_received : bool;   (* the flag of the [asyncio.Event] *)
  response_received : bool;   (* the flag of the [asyncio.Event] *)
  last_notification_data : option frame;
  last_response_frame : option frame;   (* [None] also stands for not yet set *)
  cameraStatus : option CameraStatus;   (* declared, unset until a broadcast *)
  cameraStatusCallbacks : list callback;
  device_id : option Z;   (* set by [connect]; [None]: no such attribute yet *)
  local_mac : string;   (* the address as given to [__init__] *)
  written : list (list Z);   (* frames given to [write_gatt_char], oldest first *)
  delivered : list (nat * CameraStatus);   (* callbacks called, oldest first *)
  disconnects : nat   (* calls of [client.disconnect()] *)
}.

Definition set_connected (x : bool) (self : Osmo360) : Osmo360 :=
  {| connected := x; notification_received := notification_received self;
     response_received := response_received self;
     last_notification_data := last_notification_data self;
     last_response_frame := last_response_frame self;
     cameraStatus := cameraStatus self;
     cameraStatusCallbacks := cameraStatusCallbacks self;
     device_id := device_id self; local_mac := local_mac self;
     written := written self; delivered := delivered self;
     disconnects := disconnects self |}.

Definition set_notification_received (x : bool) (self : Osmo360) : Osmo360 :=
  {| connected := connected self; notification_received := x;
     response_received := response_received self;
     last_notification_data := last_notification_data self;
     last_response_frame := last_response_frame self;
     cameraStatus := cameraStatus self;
     cameraStatusCallbacks := cameraStatusCallbacks self;
     device_id := device_id self; local_mac := local_mac self;
     written := written self; delivered := delivered self;
     disconnects := disconnects self |}.

Definition set_response_received (x : bool) (self : Osmo360) : Osmo360 :=
  {| connected := connected self;
     notification_received := notification_received self;
     response_received := x;
     last_notification_data := last_notification_data self;
     last_response_frame := last_response_frame self;
     cameraStatus := cameraStatus self;
     cameraStatusCallbacks := cameraStatusCallbacks self;
     device_id := device_id self; local_mac := local_mac self;
     written := written self; delivered := delivered self;
     disconnects := disconnects self |}.

Definition set_last_notification_data (x : option frame) (self : Osmo360) : Osmo360 :=
  {| connected := connected self;
     notification_received := notification_received self;
     response_received := response_received self;
     last_notification_data := x;
     last_response_frame := last_response_frame self;
     cameraStatus := cameraStatus self;
     cameraStatusCallbacks := cameraStatusCallbacks self;
     device_id := device_id self; local_mac := local_mac self;
     written := written self; delivered := delivered self;
     disconnects := disconnects self |}.

Definition set_last_response_frame (x : option frame) (self : Osmo360) : Osmo360 :=
  {| connected := connected self;
     notification_received := notification_received self;
     response_received := response_received self;
     last_notification_data := last_notification_data self;
     last_response_frame := x; cameraStatus := cameraStatus self;
     cameraStatusCallbacks := cameraStatusCallbacks self;
     device_id := device_id self; local_mac := local_mac self;
     written := written self; delivered := delivered self;
     disconnects := disconnects self |}.

Definition set_cameraStatus (x : option CameraStatus) (self : Osmo360) : Osmo360 :=
  {| connected := connected self;
     notification_received := notification_received self;
     response_received := response_received self;
     last_notification_data := last_notification_data self;
     last_response_frame := last_response_frame self; cameraStatus := x;
     cameraStatusCallbacks := cameraStatusCallbacks self;
     device_id := device_id self; local_mac := local_mac self;
     written := written self; delivered := delivered self;
     disconnects := disconnects self |}.

Definition set_cameraStatusCallbacks (x : list callback) (self : Osmo360) : Osmo360 :=
  {| connected := connected self;
     notification_received := notification_received self;
     response_received := response_received self;
     last_notification_data := last_notification_data self;
     last_response_frame := last_response_frame self;
     cameraStatus := cameraStatus self; cameraStatusCallbacks := x;
     device_id := device_id self; local_mac := local_mac self;
     written := written self; delivered := delivered self;
     disconnects := disconnects self |}.

Definition set_device_id (x : option Z) (self : Osmo360) : Osmo360 :=
  {| connected := connected self;
     notification_received := notification_received self;
     response_received := response_received self;
     last_notification_data := last_notification_data self;
     last_response_frame := last_response_frame self;
     cameraStatus := cameraStatus self;
     cameraStatusCallbacks := cameraStatusCallbacks self; device_id := x;
     local_mac := local_mac self; written := written self;
     delivered := delivered self; disconnects := disconnects self |}.

Definition set_written (x : list (list Z)) (self : Osmo360) : Osmo360 :=
  {| connected := connected self;
     notification_received := notification_received self;
     response_received := response_received self;
     last_notification_data := last_notification_data self;
     last_response_frame := last_response_frame self;
     cameraStatus := cameraStatus self;
     cameraStatusCallbacks := cameraStatusCallbacks self;
     device_id := device_id self; local_mac := local_mac self; written := x;
     delivered := delivered self; disconnects := disconnects self |}.

Definition set_delivered (x : list (nat * CameraStatus)) (self : Osmo360) : Osmo360 :=
  {| connected := connected self;
     notification_received := notification_received self;
     response_received := response_received self;
     last_notification_data := last_notification_data self;
     last_response_frame := last_response_frame self;
     cameraStatus := cameraStatus self;
     cameraStatusCallbacks := cameraStatusCallbacks self;
     device_id := device_id self; local_mac := local_mac self;
     written := written self; delivered := x;
     disconnects := disconnects self |}.

Definition set_disconnects (x : nat) (self : Osmo360) : Osmo360 :=
  {| connected := connected self;
     notification_received := notification_received self;
     response_received := response_received self;
     last_notification_data := last_notification_data self;
     last_response_frame := last_response_frame self;
     cameraStatus := cameraStatus self;
     cameraStatusCallbacks := cameraStatusCallbacks self;
     device_id := device_id self; local_mac := local_mac self;
     written := written self; delivered := delivered self;
     disconnects := x |}.

(** Code that runs on the object and may raise: the object after the call
    (as it was when the exception left, if one did) and the outcome. *)
Definition M (A : Type) : Type := Osmo360 -> Osmo360 * result A.

#[global] Instance M_ret : MRet M := fun A a self => (self, Ok a).
#[global] Instance M_bind : MBind M := fun A B k m self =>
  match m self with
  | (self', Ok a) => k a self'
  | (self', Raise e) => (self', Raise e)
  end.

Definition raise {A} (e : exn) : M A := fun self => (self, Raise e).
Definition get : M Osmo360 := fun self => (self, Ok self).
Definition modify (f : Osmo360 -> Osmo360) : M unit := fun self => (f self, Ok tt).
Definition lift {A} (r : result A) : M A := fun self => (self, r).

(** [for cb in self.cameraStatusCallbacks: cb(status)], inside the [try] of
    the handler: a callback that raises ends the loop. *)
Fixpoint run_callbacks (cbs : list callback) (status : CameraStatus)
    (log : list (nat * CameraStatus)) : list (nat * CameraStatus) :=
  match cbs with
  | [] => log
  | cb :: rest =>
      let log := log ++ [(cb_id cb, status)] in
      if cb_raises cb status then log else run_callbacks rest status log
  end.

(** [_notification_handler]: every exception is caught inside. *)
Definition _notification_handler (self : Osmo360) (data_ : list Z) : Osmo360 :=
  match parse_dji_frame data_ with
  | Raise _ => self
  | Ok frame =>
      if fr_frame_type frame =? 1 then
        let self := set_last_response_frame (Some frame) self in
        set_response_received true self
      else
        let self := set_last_notification_data (Some frame) self in
        let self := set_notification_received true self in
        if (fr_cmd_set frame =? 29) && (fr_cmd_id frame =? 2) then
          (* camera status *)
          let '(status, outcome) := parseFromData CameraStatus_new (fr_data frame) in
          let self := set_cameraStatus (Some status) self in
          match outcome with
          | Ok _ =>
              set_delivered
                (run_callbacks (cameraStatusCallbacks self) status (delivered self))
                self
          | Raise _ => self
          end
        else self
  end.

(** [await asyncio.wait_for(event.wait(), timeout)] on an event that is
    clear: [inbound] holds the bursts that the transport delivers before
    the timeout elapses, in order. All buffers of a burst are handled
    before the waiting coroutine looks at the event again: the handler that
    sets the event only schedules the waiter, and the handlers queued
    behind it run first. The wait ends after the first burst that has set
    the event ([true]), and with [asyncio.TimeoutError] ([false]) when the
    bursts run out first. *)
Fixpoint wait_for (event : Osmo360 -> bool) (inbound : list (list (list Z)))
    (self : Osmo360) : Osmo360 * result bool :=
  match inbound with
  | [] => (self, Ok false)
  | burst :: rest =>
      let self := fold_left _notification_handler burst self in
      if event self then (self, Ok true) else wait_for event rest self
  end.

(** What the transport delivers during one [send_dji_command]: the buffers
    handled while the write is awaited, and then the bursts handled while
    the response is awaited, up to the timeout. *)
Record send_env : Type := {
  during_write : list (list Z);
  during_wait : list (list (list Z))
}.

(** [await self.client.write_gatt_char(self.WRITE_UUID, frame, response=True)];
    a failure of the transport itself is not modelled. *)
Definition write_gatt_char (frame : list Z) (inbound : list (list Z)) : M unit :=
  fun self =>
    let self := set_written (written self ++ [frame]) self in
    (fold_left _notification_handler inbound self, Ok tt).

Definition send_dji_command (cmd_set cmd_id : Z) (payload : list Z)
    (wait_for_response : bool) (is_response : bool) (env : send_env)
    : M (option frame) :=
  self ← get;
  if negb (connected self) then raise NotConnected else
  let wait_for_response := if is_response then false else wait_for_response in
  modify (set_last_response_frame None);;
  frame ← lift (build_dji_frame cmd_set cmd_id payload is_response 1);
  write_gatt_char frame (during_write env);;
  self ← get;
  match last_response_frame self with
  | Some response => mret (Some response)
  | None =>
      if wait_for_response then
        modify (set_response_received false);;
        woken ← wait_for response_received (during_wait env);
        if woken : bool then
          self ← get; mret (last_response_frame self)
        else mret None
      else mret None
  end.

(** *** Commands *)

(** [struct.pack("<IB4s", i, b, s)]. *)
Definition pack_IB4s (i b : Z) (s : list Z) : result (list Z) :=
  if (0 <=? i) && (i <? 2 ^ 32) && (0 <=? b) && (b <? 256)
  then Ok (little_bytes 4 i ++ [b] ++ take 4 (s ++ repeat 0 4))
  else Raise StructError.

(** [struct.pack("<BB4s", a, b, s)]. *)
Definition pack_BB4s (a b : Z) (s : list Z) : result (list Z) :=
  if (0 <=? a) && (a <? 256) && (0 <=? b) && (b <? 256)
  then Ok ([a; b] ++ take 4 (s ++ repeat 0 4))
  else Raise StructError.

(** [self.device_id]. *)
Definition get_device_id : M Z :=
  fun self =>
    match device_id self with
    | Some d => (self, Ok d)
    | None => (self, Raise AttributeError)
    end.

(** The two kinds of Python value that meet in [resp['data'] == 0x00]. *)
Inductive pyval : Type :=
  | PyBytes (bs : list Z)
  | PyInt (n : Z).

(** [a == b]: a byte sequence and an [int] are never equal. *)
Definition py_eq (a b : pyval) : bool :=
  match a, b with
  | PyBytes x, PyBytes y => bool_decide (x = y)
  | PyInt x, PyInt y => x =? y
  | _, _ => false
  end.

(** [resp is not None and resp['data'] == 0x00]. *)
Definition command_succeeded (resp : option frame) : bool :=
  match resp with
  | None => false
  | Some response => py_eq (PyBytes (fr_data response)) (PyInt 0x00)
  end.

Definition setMode (mode : CameraMode.t) (env : send_env) : M bool :=
  id ← get_device_id;
  ack_payload ← lift (pack_IB4s id (value mode) [0; 0; 0; 0]);
  resp ← send_dji_command 0x1D 0x04 ack_payload true false env;
  mret (command_succeeded resp).

Definition startRecording (env : send_env) : M bool :=
  id ← get_device_id;
  ack_payload ← lift (pack_IB4s id 0x00 [0; 0; 0; 0]);
  resp ← send_dji_command 0x1D 0x03 ack_payload true false env;
  mret (command_succeeded resp).

Definition stopRecording (env : send_env) : M bool :=
  id ← get_device_id;
  ack_payload ← lift (pack_IB4s id 0x01 [0; 0; 0; 0]);
  resp ← send_dji_command 0x1D 0x03 ack_payload true false env;
  mret (command_succeeded resp).

Definition grabImage (env : send_env) : M bool :=
  id ← get_device_id;
  ack_payload ← lift (pack_IB4s id 0x00 [0; 0; 0; 0]);
  resp ← send_dji_command 0x1D 0x03 ack_payload true false env;
  mret (command_succeeded resp).

(** *** Subscribers *)

(** [l.remove(x)]: without the first element equal to [x]; [None] stands
    for the [ValueError] of an absent [x]. *)
Fixpoint list_remove (x : callback) (l : list callback) : option (list callback) :=
  match l with
  | [] => None
  | y :: rest =>
      if (cb_id y =? cb_id x)%nat then Some rest
      else option_map (cons y) (list_remove x rest)
  end.

Definition subscribeCameraStatus (cb : callback) (env : send_env)
    : M (option frame) :=
  ack_payload ← lift (pack_BB4s 0x02 0x14 [0; 0; 0; 0]);
  resp ← send_dji_command 0x1D 0x05 ack_payload true false env;
  modify (fun self =>
    set_cameraStatusCallbacks (cameraStatusCallbacks self ++ [cb]) self);;
  mret resp.

Definition unSubscribeCameraStatus (cb : callback) (env : send_env) : M unit :=
  self ← get;
  match list_remove cb (cameraStatusCallbacks self) with
  | None => raise (ValueError NotInList)
  | Some rest =>
      modify (set_cameraStatusCallbacks rest);;
      if (length rest =? 0)%nat then
        ack_payload ← lift (pack_BB4s 0x00 0x14 [0; 0; 0; 0]);
        _ ← send_dji_command 0x1D 0x05 ack_payload true false env;
        mret tt
      else mret tt
  end.

(** The payloads and frames of the two broadcast commands. *)
Definition start_payload : list Z := [0x02; 0x14; 0; 0; 0; 0].
Definition stop_payload : list Z := [0x00; 0x14; 0; 0; 0; 0].
Definition start_frame : list Z := frame_of 0x1D 0x05 start_payload false 1.
Definition stop_frame : list Z := frame_of 0x1D 0x05 stop_payload false 1.


(** *** Pairing handshake *)

(** What the environment does during one [connect]: whether the scan of
    [_connect_bt] finds the camera, the number [random.randint] draws, what
    arrives around the connection request, the bursts that arrive during
    the ten-second wait for the camera's own request, and what arrives
    around the acknowledgment. *)
Record connect_env : Type := {
  bt_found : bool;
  verify_code : Z;
  request_env : send_env;
  approval_inbound : list (list (list Z));
  ack_env : send_env
}.

(** The [return] statements of [connect], and the end of its body. *)
Inductive connect_exit : Type :=
  | NoResponse          (* "No response received ...": return False *)
  | WrongResponse       (* other cmd_set or cmd_id: return False *)
  | NotAResponse        (* frame_type != 1: return False *)
  | ResponseTooShort    (* len(frame['data']) < 5: return False *)
  | RequestRejected     (* ret_code != 0x00: return False *)
  | Allowed (id : Z)    (* "Camera allows connection": return self.device_id *)
  | Denied              (* "Camera denies connection": return False *)
  | TimedOut            (* except asyncio.TimeoutError: return False *)
  | Failed              (* except Exception: return False *)
  | FellThrough.        (* no return statement reached: None *)

Inductive connect_return : Type :=
  | ReturnFalse
  | ReturnNone
  | ReturnDeviceId (id : Z).

Definition returned (x : connect_exit) : connect_return :=
  match x with
  | Allowed id => ReturnDeviceId id
  | FellThrough => ReturnNone
  | _ => ReturnFalse
  end.

(** [await self._connect_bt()], reduced to its outcome. *)
Definition _connect_bt (found : bool) : M unit :=
  if found then modify (set_connected true) else raise DeviceNotFound.

(** [if self.client: await self.client.disconnect()]. *)
Definition disconnect_client : M unit :=
  modify (fun self =>
    set_disconnects (S (disconnects self)) (set_connected false self)).

Definition CTR_DEVICE_ID : Z := 0x01020304.  (* DJI GPS Controller *)

(** [struct.pack("<IB16sIBBH4s", CTR_DEVICE_ID, 6, mac + b'\x00' * 10, 0, 0,
    0, verify_code, b'\x00' * 4)], the first-pairing flag being 0. *)
Definition connection_request (mac : list Z) (code : Z) : result (list Z) :=
  if (0 <=? code) && (code <? 2 ^ 16)
  then Ok (little_bytes 4 CTR_DEVICE_ID ++ [6]
           ++ take 16 ((mac ++ repeat 0 10) ++ repeat 0 16)
           ++ little_bytes 4 0 ++ [0] ++ [0]
           ++ little_bytes 2 code ++ [0; 0; 0; 0])
  else Raise StructError.

(** The test that the camera's request passes before its verification
    fields are read. *)
Definition is_approval_request (f : frame) : bool :=
  (fr_cmd_set f =? 0x00) && (fr_cmd_id f =? 0x19) && (fr_frame_type f =? 0).

(** Lines 373 to 401 of [connect]: the wait for the camera's request and
    what follows it. *)
Definition await_approval (inbound : list (list (list Z))) (env : send_env)
    : M connect_exit :=
  modify (set_notification_received false);;
  woken ← wait_for notification_received inbound;
  if woken : bool then
    self ← get;
    match last_notification_data self with
    | Some f =>
        if is_approval_request f then
          if 29 <=? len (fr_data f) then
            cam_verify_mode ← lift (index (fr_data f) 26);
            let cam_verify_data := from_bytes_little (slice (fr_data f) 27 29) in
            if cam_verify_mode =? 2 then
              if cam_verify_data =? 0 then
                ack_payload ← lift (pack_IB4s 0x12345678 0x00 [0; 0; 0; 0]);
                send_dji_command 0x00 0x19 ack_payload true true env;;
                id ← get_device_id;
                mret (Allowed id)
              else
                disconnect_client;;
                mret Denied
            else mret FellThrough
          else mret FellThrough
        else mret FellThrough
    | None => mret FellThrough
    end
  else mret TimedOut.

(** [try: body except Exception: return False]. *)
Definition except_Exception (body : M connect_exit) : M connect_exit :=
  fun self =>
    match body self with
    | (self', Ok x) => (self', Ok x)
    | (self', Raise _) => (self', Ok Failed)
    end.

Definition connect (env : connect_env) : M connect_exit :=
  self ← get;
  (if negb (connected self) then _connect_bt (bt_found env) else mret tt);;
  self ← get;
  mac ← lift (_parse_mac_address (local_mac self));
  payload ← lift (connection_request mac (verify_code env));
  frame ← send_dji_command 0x00 0x19 payload true false (request_env env);
  match frame with
  | None => mret NoResponse
  | Some f =>
      except_Exception (
        if negb (fr_cmd_set f =? 0x00) || negb (fr_cmd_id f =? 0x19)
        then mret WrongResponse else
        if negb (fr_frame_type f =? 1) then mret NotAResponse else
        if len (fr_data f) <? 5 then mret ResponseTooShort else
        modify (set_device_id (Some (from_bytes_little (slice (fr_data f) 0 4))));;
        ret_code ← lift (index (fr_data f) 4);
        if negb (ret_code =? 0x00) then mret RequestRejected else
        await_approval (approval_inbound env) (ack_env env))
  end.

(** A buffer that does not wake a wait for a response: it does not decode,
    or it decodes to a frame whose type is not Response. *)
Definition not_a_response (buffer : list Z) : Prop :=
  match parse_dji_frame buffer with
  | Ok f => fr_frame_type f <> 1
  | Raise _ => True
  end.

(** A buffer that does not wake the wait for a notification: it does not
    decode, or it decodes to a frame of type Response. *)
Definition passed_over (buffer : list Z) : Prop :=
  match parse_dji_frame buffer with
  | Ok f => fr_frame_type f = 1
  | Raise _ => True
  end.

(** A decoded frame that wakes the wait for the camera's request and is not
    a well-formed request: another command, too short a payload, or a
    verification mode other than 2. *)
Definition malformed_approval (f : frame) : Prop :=
  fr_frame_type f <> 1 /\
  (is_approval_request f = false \/
   len (fr_data f) < 29 \/
   at_ (fr_data f) 26 <> 2).

(** The attributes and logs that handling inbound buffers never touches. *)
Definition same_link (self self' : Osmo360) : Prop :=
  connected self' = connected self /\
  written self' = written self /\
  cameraStatusCallbacks self' = cameraStatusCallbacks self /\
  device_id self' = device_id self /\
  local_mac self' = local_mac self /\
  disconnects self' = disconnects self.


(** [Osmo360(camera_name, local_mac)]: the class attributes and what
    [__init__] sets. *)
Definition Osmo360_new (mac : string) : Osmo360 :=
  {| connected := false;
     notification_received := false;
     response_received := false;
     last_notification_data := None;
     last_response_frame := None;
     cameraStatus := None;
     cameraStatusCallbacks := [];
     device_id := None;
     local_mac := mac;
     written := [];
     delivered := [];
     disconnects := 0 |}.

(** The default of the [local_mac] parameter of [__init__]. *)
Definition default_local_mac : string := "01-02-03-04-05-06".

(** A connected object that has been given a device id, used as a concrete
    input below. *)
Definition sample_osmo : Osmo360 :=
  set_device_id (Some 0x12345678)
    (set_connected true (Osmo360_new default_local_mac)).

(** An environment in which nothing arrives but one empty buffer during the
    wait. *)
Definition silent_env : send_env :=
  {| during_write := []; during_wait := [[[]]] |}.


(** Two subscribers, used as concrete inputs below. *)
Definition sample_cb1 : callback := {| cb_id := 1; cb_raises := fun _ => false |}.
Definition sample_cb2 : callback := {| cb_id := 2; cb_raises := fun _ => false |}.

(** The frames a run of the object has added to the write log. *)
Definition issued (before after : Osmo360) (frames : list (list Z)) : Prop :=
  written after = written before ++ frames.


(** Concrete inbound buffers for the handshake, as the camera would send
    them: its answer to the connection request (device id 0x12345678,
    return code 0), its own request with verification mode 1, and its own
    request with verification mode 2 and result 0. *)
Definition sample_accept_response : list Z :=
  Eval vm_compute in frame_of 0x00 0x19 [0x78; 0x56; 0x34; 0x12; 0] true 1.

Definition sample_mode1_request : list Z :=
  Eval vm_compute in frame_of 0x00 0x19 (repeat 0 26 ++ [1; 0; 0]) false 1.

Definition sample_mode2_request : list Z :=
  Eval vm_compute in frame_of 0x00 0x19 (repeat 0 26 ++ [2; 0; 0]) false 1.

(** An environment for [connect] in which the camera accepts the request
    and then sends the given bursts during the wait for its approval. *)
Definition sample_connect_env (approval : list (list (list Z))) : connect_env :=
  {| bt_found := true;
     verify_code := 1234;
     request_env :=
       {| during_write := []; during_wait := [[sample_accept_response]] |};
     approval_inbound := approval;
     ack_env := {| during_write := []; during_wait := [] |} |}.


Definition empty_frame : frame :=
  {| fr_version := 0; fr_length := 0; fr_frame_type := 0; fr_ack_type := 0;
     fr_enc := 0; fr_seq := 0; fr_crc16 := 0; fr_crc32 := 0;
     fr_cmd_set := 0; fr_cmd_id := 0; fr_data := [] |}.

(** The frame that [sample_mode1_request] decodes to. *)
Definition sample_mode1_frame : frame :=
  Eval vm_compute in
    match parse_dji_frame sample_mode1_request with
    | Ok f => f
    | Raise _ => empty_frame
    end.


(** The frame that [sample_frame] decodes to. *)
Definition sample_frame_decoded : frame :=
  Eval vm_compute in
    match parse_dji_frame sample_frame with
    | Ok f => f
    | Raise _ => empty_frame
    end.


(** Concrete status broadcasts, with a payload of 38 bytes and of one byte,
    the frames they decode to, and an object with two subscribers. *)
Definition sample_status_broadcast : list Z :=
  Eval vm_compute in frame_of 29 2 (0x3F :: repeat 0 36 ++ [87]) false 1.

Definition sample_status_frame : frame :=
  Eval vm_compute in
    match parse_dji_frame sample_status_broadcast with
    | Ok f => f
    | Raise _ => empty_frame
    end.

Definition sample_short_broadcast : list Z :=
  Eval vm_compute in frame_of 29 2 [0x3F] false 1.

Definition sample_short_frame : frame :=
  Eval vm_compute in
    match parse_dji_frame sample_short_broadcast with
    | Ok f => f
    | Raise _ => empty_frame
    end.

Definition sample_subscribed : Osmo360 :=
  set_cameraStatusCallbacks [sample_cb1; sample_cb2] sample_osmo.


(** The frame that [sample_accept_response] decodes to. *)
Definition sample_accept_frame : frame :=
  Eval vm_compute in
    match parse_dji_frame sample_accept_response with
    | Ok f => f
    | Raise _ => empty_frame
    end.

(** The frame that [sample_mode2_request] decodes to. *)
Definition sample_mode2_frame : frame :=
  Eval vm_compute in
    match parse_dji_frame sample_mode2_request with
    | Ok f => f
    | Raise _ => empty_frame
    end.

(** The camera's request with verification mode 2 and result 1, its answer
    to the connection request with return code 1, and the frames they decode
    to. *)
Definition sample_denied_request : list Z :=
  Eval vm_compute in frame_of 0x00 0x19 (repeat 0 26 ++ [2; 1; 0]) false 1.

Definition sample_denied_frame : frame :=
  Eval vm_compute in
    match parse_dji_frame sample_denied_request with
    | Ok f => f
    | Raise _ => empty_frame
    end.

Definition sample_reject_response : list Z :=
  Eval vm_compute in frame_of 0x00 0x19 [0x78; 0x56; 0x34; 0x12; 1] true 1.

Definition sample_reject_frame : frame :=
  Eval vm_compute in
    match parse_dji_frame sample_reject_response with
    | Ok f => f
    | Raise _ => empty_frame
    end.


(** The run from [before] to [after] has written one buffer, and it decodes
    to the command [cmd_id] of set 0x1D, sent as a Command frame, whose
    payload is the device id [d] in four bytes, little end first, the byte
    [action] and four zero bytes. *)
Definition wrote_command (before after : Osmo360) (cmd_id d action : Z) : Prop :=
  exists buffer f,
    issued before after [buffer] /\
    parse_dji_frame buffer = Ok f /\
    fr_cmd_set f = 0x1D /\ fr_cmd_id f = cmd_id /\
    fr_frame_type f = 0 /\ fr_ack_type f = 1 /\
    len (fr_data f) = 9 /\
    from_bytes_little (slice (fr_data f) 0 4) = d /\
    slice_from (fr_data f) 4 = [action; 0; 0; 0; 0].

(** [disconnect]: [if self.client and self.client.is_connected:
    await self.client.disconnect()]. *)
Definition disconnect : M unit :=
  self ← get;
  if connected self then disconnect_client else mret tt.

(** [__aexit__]: [await self.disconnect()]. *)
Definition __aexit__ : M unit := disconnect.

(** [__aenter__]: [await self.connect()], then [return self]; what
    [connect] returned is dropped. *)
Definition __aenter__ (env : connect_env) : M unit :=
  connect env;; mret tt.


(** The last frame of type Response in a burst is [f]. *)
Definition last_response (burst : list (list Z)) (f : frame) : Prop :=
  exists before buffer after,
    burst = before ++ buffer :: after /\
    parse_dji_frame buffer = Ok f /\ fr_frame_type f = 1 /\
    Forall not_a_response after.

(** The last frame of another type in a burst is [g]. *)
Definition last_notification (burst : list (list Z)) (g : frame) : Prop :=
  exists before buffer after,
    burst = before ++ buffer :: after /\
    parse_dji_frame buffer = Ok g /\ fr_frame_type g <> 1 /\
    Forall passed_over after.

(** The camera answers a command during the wait for its response: no
    frame of type Response arrives during the write or in the bursts
    [pre]; the next burst holds one, and its last one is [f]. What arrives
    later is free. *)
Definition answered (env : send_env) (f : frame) : Prop :=
  Forall not_a_response (during_write env) /\
  exists pre burst post,
    during_wait env = pre ++ burst :: post /\
    Forall (Forall not_a_response) pre /\
    last_response burst f.

(** The wait for a notification ends on a burst whose last notification
    is [g]: the bursts before it hold none. What arrives later is free. *)
Definition notified (inbound : list (list (list Z))) (g : frame) : Prop :=
  exists pre burst post,
    inbound = pre ++ burst :: post /\
    Forall (Forall passed_over) pre /\
    last_notification burst g.

(** A response to the connection request that carries the device id [d]
    and the return code [code]. *)
Definition handshake_response (f : frame) (d code : Z) : Prop :=
  fr_cmd_set f = 0x00 /\ fr_cmd_id f = 0x19 /\
  5 <= len (fr_data f) /\
  from_bytes_little (slice (fr_data f) 0 4) = d /\
  at_ (fr_data f) 4 = code.

(** A well-formed request of the camera with the verification result
    [verdict]. *)
Definition approval_request (g : frame) (verdict : Z) : Prop :=
  is_approval_request g = true /\
  29 <= len (fr_data g) /\
  at_ (fr_data g) 26 = 2 /\
  from_bytes_little (slice (fr_data g) 27 29) = verdict.

(** The link is up when the connection request is sent: it was, or the scan
    finds the camera. *)
Definition reachable (env : connect_env) (self : Osmo360) : Prop :=
  connected self = true \/ bt_found env = true.

(** The frames that [connect] writes. *)
Definition request_frame (mac : list Z) (code : Z) : list Z :=
  frame_of 0x00 0x19
    (little_bytes 4 CTR_DEVICE_ID ++ [6]
       ++ take 16 ((mac ++ repeat 0 10) ++ repeat 0 16)
       ++ little_bytes 4 0 ++ [0] ++ [0]
       ++ little_bytes 2 code ++ [0; 0; 0; 0]) false 1.

Definition ack_frame : list Z :=
  frame_of 0x00 0x19 (little_bytes 4 0x12345678 ++ [0; 0; 0; 0; 0]) true 1.


(** *** The command-line entry point *)

(** [await asyncio.sleep(t)]: [inbound] holds the buffers that the
    transport delivers while the program sleeps. *)
Definition sleep (inbound : list (list Z)) : M unit :=
  fun self => (fold_left _notification_handler inbound self, Ok tt).

(** [async with manager as osmo: body]: [__aenter__] first; then the body,
    and [__aexit__] whether the body returns or raises. [__aexit__] returns
    [None], so an exception of the body goes on once it is done. When
    [__aenter__] raises, neither the body nor [__aexit__] runs. *)
Definition then_exit {A} (body : M A) : M A :=
  fun self =>
    match body self with
    | (self', Ok a) => (__aexit__;; mret a) self'
    | (self', Raise e) =>
        match __aexit__ self' with
        | (self'', Ok _) => (self'', Raise e)
        | (self'', Raise e') => (self'', Raise e')
        end
    end.

Definition async_with {A} (env : connect_env) (body : M A) : M A :=
  __aenter__ env;; then_exit body.

(** What the environment does during one run of [main]. *)
Record main_env : Type := {
  handshake_env : connect_env;
  first_sleep : list (list Z);
  mode_env : send_env;
  second_sleep : list (list Z);
  image_env : send_env
}.

(** The block under [async with] in [main]. *)
Definition main_body (env : main_env) : M unit :=
  sleep (first_sleep env);;
  setMode CameraMode.PANO_PHOTO (mode_env env);;
  sleep (second_sleep env);;
  grabImage (image_env env);;
  mret tt.

(** [main] of [__main__.py], on the object that
    [Osmo360("Osmo360-64B3")] creates, with the default local address. *)
Definition main (env : main_env) : Osmo360 * result unit :=
  async_with (handshake_env env) (main_body env) (Osmo360_new default_local_mac).

(** The frame of a camera command for the device id [d]. *)
Definition command_frame (cmd_id d action : Z) : list Z :=
  frame_of 0x1D cmd_id (little_bytes 4 d ++ [action; 0; 0; 0; 0]) false 1.


(* ================================================================== *)
(** * Properties *)

(** ** Integers and bytes *)

Lemma land_ones_small (x n : Z) : 0 <= n -> 0 <= x < 2 ^ n -> Z.land x (Z.ones n) = x.
Proof.
  intros Hn Hx. rewrite Z.land_ones by lia. apply Z.mod_small. lia.
Qed.

Lemma land_ones_range (x n : Z) : 0 <= n -> 0 <= Z.land x (Z.ones n) < 2 ^ n.
Proof.
  intros Hn. rewrite Z.land_ones by lia. apply Z.mod_pos_bound. lia.
Qed.

Lemma land_lxor_distr (a b c : Z) :
  Z.land (Z.lxor a b) c = Z.lxor (Z.land a c) (Z.land b c).
Proof.
  apply Z.bits_inj'. intros n _.
  rewrite Z.lxor_spec, !Z.land_spec, Z.lxor_spec.
  destruct (Z.testbit a n), (Z.testbit b n), (Z.testbit c n); reflexivity.
Qed.

Lemma lxor_range (a b n : Z) :
  0 <= n -> 0 <= a < 2 ^ n -> 0 <= b < 2 ^ n -> 0 <= Z.lxor a b < 2 ^ n.
Proof.
  intros Hn Ha Hb.
  rewrite <- (land_ones_small a n), <- (land_ones_small b n) by lia.
  rewrite <- land_lxor_distr. apply land_ones_range. lia.
Qed.

Lemma lxor_cancel_r (a b c : Z) : Z.lxor a c = Z.lxor b c -> a = b.
Proof.
  intros H.
  rewrite <- (Z.lxor_0_r a), <- (Z.lxor_0_r b), <- (Z.lxor_nilpotent c).
  rewrite <- !Z.lxor_assoc. congruence.
Qed.

Lemma lxor_cancel_l (a b c : Z) : Z.lxor c a = Z.lxor c b -> a = b.
Proof.
  rewrite !(Z.lxor_comm c). apply lxor_cancel_r.
Qed.

Lemma shiftr_small (x n : Z) : 0 <= n -> 0 <= x < 2 ^ n -> Z.shiftr x n = 0.
Proof.
  intros Hn Hx. rewrite Z.shiftr_div_pow2 by lia. apply Z.div_small. lia.
Qed.

Lemma shiftr8_range (x n : Z) :
  8 <= n -> 0 <= x < 2 ^ n -> 0 <= Z.shiftr x 8 < 2 ^ (n - 8).
Proof.
  intros Hn Hx. rewrite Z.shiftr_div_pow2 by lia.
  replace (2 ^ n) with (2 ^ 8 * 2 ^ (n - 8)) in Hx
    by (rewrite <- Z.pow_add_r by lia; f_equal; lia).
  split.
  - apply Z.div_pos; lia.
  - apply Z.div_lt_upper_bound; lia.
Qed.

Lemma land_255_range (x : Z) : 0 <= Z.land x 0xFF < 256.
Proof. apply (land_ones_range x 8). lia. Qed.

Lemma little_bytes_length (n : nat) (x : Z) : length (little_bytes n x) = n.
Proof.
  revert x. induction n as [|n IH]; intros x; simpl; [reflexivity|].
  now rewrite IH.
Qed.

Lemma little_bytes_is_bytes (n : nat) (x : Z) : is_bytes (little_bytes n x).
Proof.
  revert x. induction n as [|n IH]; intros x; simpl.
  - constructor.
  - constructor; [apply land_255_range | apply IH].
Qed.

Lemma from_little_bytes (n : nat) (x : Z) :
  0 <= x < 2 ^ (8 * Z.of_nat n) -> from_bytes_little (little_bytes n x) = x.
Proof.
  revert x. induction n as [|n IH]; intros x Hx.
  - simpl in *. lia.
  - cbn [little_bytes from_bytes_little].
    replace (8 * Z.of_nat (S n)) with (8 + 8 * Z.of_nat n) in Hx by lia.
    rewrite Z.pow_add_r in Hx by lia.
    rewrite IH.
    + change 0xFF with (Z.ones 8). rewrite Z.land_ones by lia.
      rewrite Z.shiftr_div_pow2 by lia.
      change (2 ^ 8) with 256. pose proof (Z.div_mod x 256). lia.
    + rewrite Z.shiftr_div_pow2 by lia. change (2 ^ 8) with 256 in *.
      split; [apply Z.div_pos; lia | apply Z.div_lt_upper_bound; lia].
Qed.

Lemma from_bytes_little_range (bs : list Z) :
  is_bytes bs -> 0 <= from_bytes_little bs < 2 ^ (8 * len bs).
Proof.
  unfold len. induction 1 as [|b bs Hb _ IH].
  - simpl. lia.
  - cbn [from_bytes_little length].
    replace (8 * Z.of_nat (S (length bs))) with (8 + 8 * Z.of_nat (length bs)) by lia.
    rewrite Z.pow_add_r by lia. unfold is_byte in Hb. change (2 ^ 8) with 256. nia.
Qed.

Lemma from_bytes_little_inj (xs ys : list Z) :
  is_bytes xs -> is_bytes ys -> length xs = length ys ->
  from_bytes_little xs = from_bytes_little ys -> xs = ys.
Proof.
  intros Hx. revert ys. induction Hx as [|x xs Hx _ IH]; intros ys Hy Hlen Heq.
  - destruct ys; [reflexivity | discriminate].
  - destruct ys as [|y ys]; [discriminate|].
    inversion Hy as [|? ? Hy1 Hy2]; subst.
    cbn [from_bytes_little] in Heq. unfold is_byte in *.
    assert (x = y /\ from_bytes_little xs = from_bytes_little ys) as [-> Hr] by lia.
    f_equal. apply IH; auto.
Qed.

(** ** Checksum engine *)

Lemma _ccrc16_is_fold (data : list Z) (init : Z) :
  _ccrc16 data init = crc_fold DJI_CRC16_TABLE 16 data init.
Proof.
  unfold _ccrc16, crc_fold. revert init.
  induction data as [|b rest IH]; intros init; [reflexivity|].
  cbn [_ccrc16_loop fold_left]. rewrite IH. reflexivity.
Qed.

Lemma _ccrc32_is_fold (data : list Z) (init : Z) :
  _ccrc32 data init = crc_fold DJI_CRC32_TABLE 32 data init.
Proof.
  unfold _ccrc32, crc_fold. revert init.
  induction data as [|b rest IH]; intros init; [reflexivity|].
  cbn [_ccrc32_loop fold_left]. rewrite IH. reflexivity.
Qed.

(** Facts about a table-driven checksum of [width] bits whose table has 256
    entries of [width] bits with pairwise different top bytes. *)
Section CrcTheory.
Variable table : list Z.
Variable width : Z.
Hypothesis width_ge : 8 <= width.
Hypothesis table_length : length table = 256%nat.
Hypothesis table_range : Forall (fun x => 0 <= x < 2 ^ width) table.
Hypothesis table_top : NoDup (map (fun x => Z.shiftr x (width - 8)) table).

Lemma table_get_range (i : Z) :
  0 <= i < 256 -> 0 <= table_get table i < 2 ^ width.
Proof.
  intros Hi. unfold table_get.
  rewrite List.Forall_forall in table_range. apply table_range.
  apply nth_In. lia.
Qed.

Lemma table_get_top_inj (i j : Z) :
  0 <= i < 256 -> 0 <= j < 256 ->
  Z.shiftr (table_get table i) (width - 8)
    = Z.shiftr (table_get table j) (width - 8) ->
  i = j.
Proof.
  intros Hi Hj Heq. unfold table_get in Heq.
  set (top := fun x => Z.shiftr x (width - 8)) in *.
  change (top (nth (Z.to_nat i) table 0) = top (nth (Z.to_nat j) table 0)) in Heq.
  rewrite <- !(map_nth top) in Heq.
  assert (Z.to_nat i = Z.to_nat j) as H; [|lia].
  pose proof (proj1 (NoDup_ListNoDup _) table_top) as Hnd.
  eapply (proj1 (NoDup_nth _ _) Hnd); [| |exact Heq];
    rewrite length_map; lia.
Qed.

Lemma crc_step_range (c b : Z) : 0 <= crc_step table width c b < 2 ^ width.
Proof. apply land_ones_range. lia. Qed.

Lemma crc_step_unmasked (c b : Z) :
  0 <= c < 2 ^ width ->
  crc_step table width c b
    = Z.lxor (table_get table (Z.land (Z.lxor c b) 0xFF)) (Z.shiftr c 8).
Proof.
  intros Hc. unfold crc_step. apply land_ones_small; [lia|].
  apply lxor_range; [lia | apply table_get_range, land_255_range |].
  pose proof (shiftr8_range c width width_ge Hc) as Hs.
  assert (2 ^ (width - 8) <= 2 ^ width) by (apply Z.pow_le_mono_r; lia).
  lia.
Qed.

Lemma crc_step_top (c b : Z) :
  0 <= c < 2 ^ width ->
  Z.shiftr (crc_step table width c b) (width - 8)
    = Z.shiftr (table_get table (Z.land (Z.lxor c b) 0xFF)) (width - 8).
Proof.
  intros Hc. rewrite crc_step_unmasked by assumption.
  rewrite Z.shiftr_lxor.
  rewrite (shiftr_small (Z.shiftr c 8)); [apply Z.lxor_0_r | lia |].
  apply shiftr8_range; assumption.
Qed.

(** The table index and the shifted state determine the state. *)
Lemma state_of_parts (c c' b : Z) :
  Z.land (Z.lxor c b) 0xFF = Z.land (Z.lxor c' b) 0xFF ->
  Z.shiftr c 8 = Z.shiftr c' 8 ->
  c = c'.
Proof.
  intros Hlow Hhigh.
  rewrite !land_lxor_distr in Hlow. apply lxor_cancel_r in Hlow.
  change 0xFF with (Z.ones 8) in Hlow. rewrite !Z.land_ones in Hlow by lia.
  rewrite !Z.shiftr_div_pow2 in Hhigh by lia.
  change (2 ^ 8) with 256 in *.
  pose proof (Z.div_mod c 256). pose proof (Z.div_mod c' 256). lia.
Qed.

Lemma crc_step_inj_state (c c' b : Z) :
  0 <= c < 2 ^ width -> 0 <= c' < 2 ^ width ->
  crc_step table width c b = crc_step table width c' b ->
  c = c'.
Proof.
  intros Hc Hc' Heq.
  assert (Z.land (Z.lxor c b) 0xFF = Z.land (Z.lxor c' b) 0xFF) as Hidx.
  { apply table_get_top_inj; try apply land_255_range.
    rewrite <- !crc_step_top by assumption. now rewrite Heq. }
  rewrite !crc_step_unmasked in Heq by assumption.
  rewrite Hidx in Heq. apply lxor_cancel_l in Heq.
  eapply state_of_parts; eassumption.
Qed.

Lemma crc_step_inj_byte (c b b' : Z) :
  0 <= c < 2 ^ width -> is_byte b -> is_byte b' ->
  crc_step table width c b = crc_step table width c b' ->
  b = b'.
Proof.
  intros Hc Hb Hb' Heq.
  assert (Z.land (Z.lxor c b) 0xFF = Z.land (Z.lxor c b') 0xFF) as Hidx.
  { apply table_get_top_inj; try apply land_255_range.
    rewrite <- !crc_step_top by assumption. now rewrite Heq. }
  rewrite !land_lxor_distr in Hidx. apply lxor_cancel_l in Hidx.
  change 0xFF with (Z.ones 8) in Hidx. unfold is_byte in *.
  rewrite !land_ones_small in Hidx by (change (2 ^ 8) with 256; lia).
  exact Hidx.
Qed.

Lemma crc_fold_range (bytes : list Z) (seed : Z) :
  0 <= seed < 2 ^ width -> 0 <= crc_fold table width bytes seed < 2 ^ width.
Proof.
  unfold crc_fold. revert seed.
  induction bytes as [|b rest IH]; intros seed Hs; [exact Hs|].
  cbn [fold_left]. apply IH, crc_step_range.
Qed.

Lemma crc_fold_app (xs ys : list Z) (seed : Z) :
  crc_fold table width (xs ++ ys) seed
    = crc_fold table width ys (crc_fold table width xs seed).
Proof. unfold crc_fold. apply fold_left_app. Qed.

Lemma crc_fold_inj_seed (bytes : list Z) (c c' : Z) :
  0 <= c < 2 ^ width -> 0 <= c' < 2 ^ width ->
  crc_fold table width bytes c = crc_fold table width bytes c' ->
  c = c'.
Proof.
  unfold crc_fold. revert c c'.
  induction bytes as [|b rest IH]; intros c c' Hc Hc' Heq; [exact Heq|].
  cbn [fold_left] in Heq.
  apply IH in Heq; try apply crc_step_range.
  eapply crc_step_inj_state; eassumption.
Qed.

(** Replacing one byte of the input by a different byte changes the
    checksum. *)
Lemma crc_fold_insert (bytes : list Z) (i : nat) (b b' seed : Z) :
  0 <= seed < 2 ^ width ->
  bytes !! i = Some b -> is_byte b -> is_byte b' -> b' <> b ->
  crc_fold table width (<[i:=b']> bytes) seed <> crc_fold table width bytes seed.
Proof.
  intros Hs Hi Hb Hb' Hne Heq.
  assert (i < length bytes)%nat as Hlt by (eapply lookup_lt_Some; eassumption).
  rewrite insert_take_drop in Heq by assumption.
  rewrite <- (take_drop_middle bytes i b Hi) in Heq at 3.
  rewrite !crc_fold_app in Heq.
  set (s := crc_fold table width (take i bytes) seed) in *.
  assert (0 <= s < 2 ^ width) as Hsr by (apply crc_fold_range; assumption).
  change (crc_fold table width (b' :: drop (S i) bytes) s)
    with (crc_fold table width (drop (S i) bytes) (crc_step table width s b')) in Heq.
  change (crc_fold table width (b :: drop (S i) bytes) s)
    with (crc_fold table width (drop (S i) bytes) (crc_step table width s b)) in Heq.
  apply crc_fold_inj_seed in Heq; try apply crc_step_range.
  apply crc_step_inj_byte in Heq; auto.
Qed.
End CrcTheory.

Lemma crc16_table_length : length DJI_CRC16_TABLE = 256%nat.
Proof. reflexivity. Qed.

Lemma crc32_table_length : length DJI_CRC32_TABLE = 256%nat.
Proof. reflexivity. Qed.

Lemma crc16_table_range : Forall (fun x => 0 <= x < 2 ^ 16) DJI_CRC16_TABLE.
Proof. apply (bool_decide_unpack _). vm_compute. exact I. Qed.

Lemma crc32_table_range : Forall (fun x => 0 <= x < 2 ^ 32) DJI_CRC32_TABLE.
Proof. apply (bool_decide_unpack _). vm_compute. exact I. Qed.

Lemma crc16_table_top :
  NoDup (map (fun x => Z.shiftr x (16 - 8)) DJI_CRC16_TABLE).
Proof. apply (bool_decide_unpack _). vm_compute. exact I. Qed.

Lemma crc32_table_top :
  NoDup (map (fun x => Z.shiftr x (32 - 8)) DJI_CRC32_TABLE).
Proof. apply (bool_decide_unpack _). vm_compute. exact I. Qed.

Ltac crc_side :=
  first
    [ assumption
    | exact crc16_table_length | exact crc32_table_length
    | exact crc16_table_range | exact crc32_table_range
    | exact crc16_table_top | exact crc32_table_top
    | unfold _ccrc16_init, _ccrc32_init;
      change (2 ^ 16) with 65536; change (2 ^ 32) with 4294967296; lia ].

Lemma _ccrc16_range (data : list Z) :
  0 <= _ccrc16 data _ccrc16_init < 2 ^ 16.
Proof. rewrite _ccrc16_is_fold. apply crc_fold_range; crc_side. Qed.

Lemma _ccrc32_range (data : list Z) :
  0 <= _ccrc32 data _ccrc32_init < 2 ^ 32.
Proof. rewrite _ccrc32_is_fold. apply crc_fold_range; crc_side. Qed.

Lemma _ccrc16_insert (data : list Z) (i : nat) (b b' : Z) :
  data !! i = Some b -> is_byte b -> is_byte b' -> b' <> b ->
  _ccrc16 (<[i:=b']> data) _ccrc16_init <> _ccrc16 data _ccrc16_init.
Proof.
  intros Hi Hb Hb' Hne. rewrite !_ccrc16_is_fold.
  apply (crc_fold_insert DJI_CRC16_TABLE 16 ltac:(lia) crc16_table_length crc16_table_range
           crc16_table_top data i b b'); crc_side.
Qed.

Lemma _ccrc32_insert (data : list Z) (i : nat) (b b' : Z) :
  data !! i = Some b -> is_byte b -> is_byte b' -> b' <> b ->
  _ccrc32 (<[i:=b']> data) _ccrc32_init <> _ccrc32 data _ccrc32_init.
Proof.
  intros Hi Hb Hb' Hne. rewrite !_ccrc32_is_fold.
  apply (crc_fold_insert DJI_CRC32_TABLE 32 ltac:(lia) crc32_table_length crc32_table_range
           crc32_table_top data i b b'); crc_side.
Qed.

(** C5. Both checksums are the fold of the table step
    [crc = table[(crc ^ byte) & 0xFF] ^ (crc >> 8)], kept to 16 and to 32
    bits, over the input bytes; each table has 256 entries; the default seed
    is 0x3AA3 for both widths; the checksum of the empty sequence is the
    seed. *)
Theorem checksums_are_table_folds :
  length DJI_CRC16_TABLE = 256%nat /\
  length DJI_CRC32_TABLE = 256%nat /\
  _ccrc16_init = 0x3AA3 /\
  _ccrc32_init = 0x3AA3 /\
  (forall data init,
      _ccrc16 data init = fold_left (crc_step DJI_CRC16_TABLE 16) data init) /\
  (forall data init,
      _ccrc32 data init = fold_left (crc_step DJI_CRC32_TABLE 32) data init) /\
  (forall crc byte,
      crc_step DJI_CRC16_TABLE 16 crc byte
        = Z.land (Z.lxor (nth (Z.to_nat (Z.land (Z.lxor crc byte) 0xFF))
                              DJI_CRC16_TABLE 0)
                         (Z.shiftr crc 8)) 0xFFFF) /\
  (forall crc byte,
      crc_step DJI_CRC32_TABLE 32 crc byte
        = Z.land (Z.lxor (nth (Z.to_nat (Z.land (Z.lxor crc byte) 0xFF))
                              DJI_CRC32_TABLE 0)
                         (Z.shiftr crc 8)) 0xFFFFFFFF) /\
  (forall init, _ccrc16 [] init = init) /\
  (forall init, _ccrc32 [] init = init) /\
  _ccrc16 [] _ccrc16_init = 0x3AA3 /\
  _ccrc32 [] _ccrc32_init = 0x3AA3.
Proof.
  split; [exact crc16_table_length|].
  split; [exact crc32_table_length|].
  do 2 (split; [reflexivity|]).
  split; [exact _ccrc16_is_fold|].
  split; [exact _ccrc32_is_fold|].
  repeat split.
Qed.

(** ** Frame codec *)

Lemma is_byteb_true (b : Z) : is_byte b -> is_byteb b = true.
Proof. unfold is_byte, is_byteb. lia. Qed.

Lemma py_bytes_ok (l : list Z) : is_bytes l -> py_bytes l = Ok l.
Proof.
  intros H. unfold py_bytes.
  replace (forallb is_byteb l) with true; [reflexivity|].
  symmetry. apply forallb_forall. intros x Hx.
  apply is_byteb_true. unfold is_bytes in H.
  rewrite List.Forall_forall in H. auto.
Qed.

Lemma to_bytes_little_ok (x : Z) (n : nat) :
  0 <= x < 2 ^ (8 * Z.of_nat n) -> to_bytes_little x n = Ok (little_bytes n x).
Proof.
  intros H. unfold to_bytes_little.
  replace ((0 <=? x) && (x <? 2 ^ (8 * Z.of_nat n))) with true by lia.
  reflexivity.
Qed.

Lemma land_lor_distr (a b c : Z) :
  Z.land (Z.lor a b) c = Z.lor (Z.land a c) (Z.land b c).
Proof.
  apply Z.bits_inj'. intros n _.
  rewrite Z.lor_spec, !Z.land_spec, Z.lor_spec.
  destruct (Z.testbit a n), (Z.testbit b n), (Z.testbit c n); reflexivity.
Qed.

Lemma lor_range (a b n : Z) :
  0 <= n -> 0 <= a < 2 ^ n -> 0 <= b < 2 ^ n -> 0 <= Z.lor a b < 2 ^ n.
Proof.
  intros Hn Ha Hb.
  rewrite <- (land_ones_small a n), <- (land_ones_small b n) by lia.
  rewrite <- land_lor_distr. apply land_ones_range. lia.
Qed.

Lemma cmd_type_of_range (is_response : bool) (ack_type : Z) :
  0 <= cmd_type_of is_response ack_type < 64.
Proof.
  unfold cmd_type_of. rewrite Z.lor_0_l.
  assert (0 <= Z.land ack_type 0x1F < 2 ^ 5) as H
    by (apply (land_ones_range ack_type 5); lia).
  change (2 ^ 5) with 32 in H.
  destruct is_response; [|lia].
  apply (lor_range _ _ 6); change (2 ^ 6) with 64; lia.
Qed.

Lemma cmd_type_of_frame_type (is_response : bool) (ack_type : Z) :
  Z.land (Z.shiftr (cmd_type_of is_response ack_type) 5) 0x01
    = if is_response then 1 else 0.
Proof.
  change 0x01 with (Z.ones 1). rewrite Z.land_ones by lia.
  rewrite Z.shiftr_div_pow2 by lia. change (2 ^ 1) with 2.
  rewrite <- Z.testbit_spec' by lia.
  unfold cmd_type_of. rewrite Z.lor_0_l.
  destruct is_response;
    rewrite ?Z.lor_spec, Z.land_spec;
    change (Z.testbit 0x1F 5) with false; change (Z.testbit 0x20 5) with true;
    rewrite andb_false_r; reflexivity.
Qed.

Lemma cmd_type_of_ack_type (is_response : bool) (ack_type : Z) :
  Z.land (cmd_type_of is_response ack_type) 0x1F = Z.land ack_type 0x1F.
Proof.
  unfold cmd_type_of. rewrite Z.lor_0_l.
  destruct is_response.
  - rewrite land_lor_distr, <- Z.land_assoc.
    change (Z.land 0x1F 0x1F) with 0x1F. change (Z.land 0x20 0x1F) with 0.
    apply Z.lor_0_r.
  - rewrite <- Z.land_assoc. reflexivity.
Qed.

Lemma header_of_is_bytes (length : Z) (is_response : bool) (ack_type : Z) :
  is_bytes (header_of length is_response ack_type).
Proof.
  pose proof (cmd_type_of_range is_response ack_type).
  unfold header_of, is_bytes.
  repeat (constructor; [first [apply land_255_range | unfold is_byte; lia]|]).
  constructor.
Qed.

Lemma header_of_length (length : Z) (is_response : bool) (ack_type : Z) :
  List.length (header_of length is_response ack_type) = 10%nat.
Proof. reflexivity. Qed.

Lemma bind_ok {A B} (a : A) (k : A -> result B) : (Ok a ≫= k) = k a.
Proof. reflexivity. Qed.

Lemma bind_raise {A B} (e : exn) (k : A -> result B) : (Raise e ≫= k) = Raise e.
Proof. reflexivity. Qed.

Lemma land_3FF_range (x : Z) : 0 <= Z.land x 0x03FF < 1024.
Proof. apply (land_ones_range x 10). lia. Qed.

Lemma ver_length_bytes_ok (length : Z) :
  to_bytes_little (Z.lor (Z.shiftl 0 10) (Z.land length 0x03FF)) 2
    = Ok [Z.land (Z.land length 0x03FF) 0xFF;
          Z.land (Z.shiftr (Z.land length 0x03FF) 8) 0xFF].
Proof.
  rewrite Z.shiftl_0_l, Z.lor_0_l.
  pose proof (land_3FF_range length).
  rewrite to_bytes_little_ok; [reflexivity|].
  change (2 ^ (8 * Z.of_nat 2)) with 65536. lia.
Qed.

Lemma crc16_bytes_ok (header : list Z) :
  to_bytes_little (_ccrc16 header _ccrc16_init) 2 = Ok (crc16_field header).
Proof. apply to_bytes_little_ok, _ccrc16_range. Qed.

Lemma crc32_bytes_ok (data : list Z) :
  to_bytes_little (_ccrc32 data _ccrc32_init) 4
    = Ok (little_bytes 4 (_ccrc32 data _ccrc32_init)).
Proof. apply to_bytes_little_ok, _ccrc32_range. Qed.

Lemma header_literal (length : Z) (is_response : bool) (ack_type : Z) :
  [ 0xAA; nth 0 [Z.land length 0xFF; Z.land (Z.shiftr length 8) 0xFF] 0;
    nth 1 [Z.land length 0xFF; Z.land (Z.shiftr length 8) 0xFF] 0;
    (if is_response
     then Z.lor (Z.lor 0x00 (Z.land ack_type 0x1F)) 0x20
     else Z.lor 0x00 (Z.land ack_type 0x1F));
    0x00; 0x00; 0x00; 0x00; 0x01; 0x00 ]
  = header_of length is_response ack_type.
Proof. reflexivity. Qed.

Lemma frame_of_assoc cmd_set cmd_id payload is_response ack_type :
  let h := header_of (Z.land (12 + len ([cmd_set; cmd_id] ++ payload) + 4) 0x03FF)
             is_response ack_type in
  ((h ++ crc16_field h) ++ [cmd_set; cmd_id] ++ payload) ++
     little_bytes 4
       (_ccrc32 ((h ++ crc16_field h) ++ [cmd_set; cmd_id] ++ payload) _ccrc32_init)
  = frame_of cmd_set cmd_id payload is_response ack_type.
Proof.
  intros h. unfold frame_of, crc32_field.
  rewrite <- !app_assoc. reflexivity.
Qed.

(** [build_dji_frame] succeeds whenever the two identifiers are bytes, and
    gives [frame_of]. *)
Lemma build_dji_frame_ok cmd_set cmd_id payload is_response ack_type :
  is_byte cmd_set -> is_byte cmd_id ->
  build_dji_frame cmd_set cmd_id payload is_response ack_type
    = Ok (frame_of cmd_set cmd_id payload is_response ack_type).
Proof.
  intros Hs Hi.
  unfold build_dji_frame.
  rewrite py_bytes_ok by (repeat (constructor; [assumption|]); constructor).
  rewrite bind_ok, ver_length_bytes_ok.
  rewrite bind_ok, header_literal.
  rewrite py_bytes_ok by apply header_of_is_bytes.
  rewrite bind_ok, crc16_bytes_ok, bind_ok, crc32_bytes_ok, bind_ok.
  exact (f_equal Ok (frame_of_assoc cmd_set cmd_id payload is_response ack_type)).
Qed.

(** *** Reading a buffer cut into its four parts *)

Lemma len_app {A} (xs ys : list A) : len (xs ++ ys) = len xs + len ys.
Proof. unfold len. rewrite length_app. lia. Qed.

Lemma at_app_l (xs ys : list Z) (i : nat) :
  (i < length xs)%nat -> at_ (xs ++ ys) i = at_ xs i.
Proof. intros H. unfold at_. now apply app_nth1. Qed.

Lemma slice_app_l {A} (xs ys : list A) (a b : nat) :
  (b <= length xs)%nat -> slice (xs ++ ys) a b = slice xs a b.
Proof.
  intros H. unfold slice.
  destruct (decide (a <= length xs)%nat) as [Ha|Ha].
  - rewrite drop_app_le by assumption.
    apply take_app_le. rewrite length_drop. lia.
  - replace (b - a)%nat with 0%nat by lia. reflexivity.
Qed.

Lemma slice_prefix {A} (xs ys : list A) (n : nat) :
  n = length xs -> slice (xs ++ ys) 0 n = xs.
Proof.
  intros ->. unfold slice. rewrite drop_0, Nat.sub_0_r.
  apply take_app_length.
Qed.

Lemma slice_middle {A} (xs ys zs : list A) (a b : nat) :
  a = length xs -> b = (length xs + length ys)%nat ->
  slice (xs ++ ys ++ zs) a b = ys.
Proof.
  intros -> ->. unfold slice. rewrite drop_app_length.
  replace (length xs + length ys - length xs)%nat with (length ys) by lia.
  apply take_app_length.
Qed.

Lemma slice_suffix {A} (xs ys : list A) (a b : nat) :
  a = length xs -> b = (length xs + length ys)%nat ->
  slice (xs ++ ys) a b = ys.
Proof.
  intros -> ->. unfold slice. rewrite drop_app_length.
  replace (length xs + length ys - length xs)%nat with (length ys) by lia.
  apply firstn_all.
Qed.

Lemma parse_dji_frame_parts (header crc16 body crc32 : list Z) :
  length header = 10%nat -> length crc16 = 2%nat -> length crc32 = 4%nat ->
  parse_dji_frame (header ++ crc16 ++ body ++ crc32)
    = parse_parts header crc16 body crc32.
Proof.
  intros Hh Hc16 Hc32.
  set (data := header ++ crc16 ++ body ++ crc32).
  assert (len data = 16 + len body) as Hlen.
  { unfold data. rewrite !len_app. unfold len. lia. }
  assert (at_ data 0 = at_ header 0) as E0 by (apply at_app_l; lia).
  assert (at_ data 3 = at_ header 3) as E3 by (apply at_app_l; lia).
  assert (at_ data 4 = at_ header 4) as E4 by (apply at_app_l; lia).
  assert (slice data 1 3 = slice header 1 3) as E13 by (apply slice_app_l; lia).
  assert (slice data 8 10 = slice header 8 10) as E810
    by (apply slice_app_l; lia).
  unfold parse_dji_frame, parse_parts. fold data. cbv zeta.
  assert ((len data <? 16) = false) as ->
    by (apply Z.ltb_ge; rewrite Hlen; unfold len; lia).
  rewrite E0, E3, E4, !E13, E810.
  destruct (negb (at_ header 0 =? 0xAA)); [reflexivity|].
  destruct (len data =? Z.land (from_bytes_little (slice header 1 3)) 0x3FF)
    eqn:Hdecl; [|reflexivity].
  apply Z.eqb_eq in Hdecl. rewrite <- Hdecl. cbn [negb].
  assert (Z.to_nat (len data - 4) = (12 + length body)%nat) as ->
    by (rewrite Hlen; unfold len; lia).
  assert (Z.to_nat (len data) = (12 + length body + 4)%nat) as ->
    by (rewrite Hlen; unfold len; lia).
  assert (slice data 0 10 = header) as ->
    by (apply slice_prefix; lia).
  assert (slice data 10 12 = crc16) as ->
    by (apply slice_middle; lia).
  assert (data = (header ++ crc16) ++ body ++ crc32) as Hd1
    by (unfold data; now rewrite <- app_assoc).
  assert (slice data 12 (12 + length body) = body) as ->.
  { rewrite Hd1. apply slice_middle; rewrite length_app; lia. }
  assert (data = (header ++ crc16 ++ body) ++ crc32) as Hd2
    by (unfold data; now rewrite <- !app_assoc).
  assert (slice data 0 (12 + length body) = header ++ crc16 ++ body) as ->.
  { rewrite Hd2. apply slice_prefix. rewrite !length_app. lia. }
  assert (slice data (12 + length body) (12 + length body + 4) = crc32) as ->.
  { rewrite Hd2. apply slice_suffix; rewrite !length_app; lia. }
  reflexivity.
Qed.

(** *** Decoding a built frame *)

Lemma header_of_sof length is_response ack_type :
  at_ (header_of length is_response ack_type) 0 = 0xAA.
Proof. reflexivity. Qed.

Lemma header_of_cmd_type length is_response ack_type :
  at_ (header_of length is_response ack_type) 3 = cmd_type_of is_response ack_type.
Proof. reflexivity. Qed.

Lemma header_of_enc length is_response ack_type :
  at_ (header_of length is_response ack_type) 4 = 0.
Proof. reflexivity. Qed.

Lemma header_of_seq length is_response ack_type :
  from_bytes_little (slice (header_of length is_response ack_type) 8 10) = 1.
Proof. reflexivity. Qed.

Lemma header_of_ver_length length is_response ack_type :
  0 <= length < 1024 ->
  from_bytes_little (slice (header_of length is_response ack_type) 1 3) = length.
Proof.
  intros Hl.
  change (slice (header_of length is_response ack_type) 1 3)
    with (little_bytes 2 length).
  apply from_little_bytes. change (2 ^ (8 * Z.of_nat 2)) with 65536. lia.
Qed.

Lemma land_3FF_small (x : Z) : 0 <= x < 1024 -> Z.land x 0x3FF = x.
Proof. intros H. apply (land_ones_small x 10); [lia | exact H]. Qed.

Lemma version_of_small (x : Z) :
  0 <= x < 1024 -> Z.land (Z.shiftr x 10) 0x3F = 0.
Proof.
  intros H. rewrite (shiftr_small x 10); [reflexivity | lia | exact H].
Qed.

Lemma crc16_field_value (header : list Z) :
  from_bytes_little (crc16_field header) = _ccrc16 header _ccrc16_init.
Proof. apply from_little_bytes, _ccrc16_range. Qed.

Lemma crc32_field_value (header crc16 body : list Z) :
  from_bytes_little (crc32_field header crc16 body)
    = _ccrc32 (header ++ crc16 ++ body) _ccrc32_init.
Proof. apply from_little_bytes, _ccrc32_range. Qed.

Lemma crc16_field_length (header : list Z) : length (crc16_field header) = 2%nat.
Proof. apply little_bytes_length. Qed.

Lemma crc32_field_length (header crc16 body : list Z) :
  length (crc32_field header crc16 body) = 4%nat.
Proof. apply little_bytes_length. Qed.

Lemma frame_of_len cmd_set cmd_id payload is_response ack_type :
  len (frame_of cmd_set cmd_id payload is_response ack_type)
    = 18 + len payload.
Proof.
  unfold frame_of. cbv zeta. rewrite !len_app. unfold len.
  rewrite header_of_length, crc16_field_length, crc32_field_length.
  cbn [length]. lia.
Qed.

(** The frame that [parse_dji_frame] reads back from a built frame. *)
Lemma parse_frame_of cmd_set cmd_id payload is_response ack_type :
  valid_args cmd_set cmd_id payload ->
  let header := header_of (18 + len payload) is_response ack_type in
  parse_dji_frame (frame_of cmd_set cmd_id payload is_response ack_type)
    = Ok {| fr_version := 0;
            fr_length := 18 + len payload;
            fr_frame_type := if is_response then 1 else 0;
            fr_ack_type := Z.land ack_type 0x1F;
            fr_enc := 0;
            fr_seq := 1;
            fr_crc16 := _ccrc16 header _ccrc16_init;
            fr_crc32 :=
              _ccrc32 (header ++ crc16_field header ++ cmd_set :: cmd_id :: payload)
                      _ccrc32_init;
            fr_cmd_set := cmd_set;
            fr_cmd_id := cmd_id;
            fr_data := payload |}.
Proof.
  intros (Hs & Hi & Hp & Hlen) header.
  pose proof (frame_of_len cmd_set cmd_id payload is_response ack_type) as Hfl.
  assert (0 <= 18 + len payload < 1024) as Hl by (unfold len in *; lia).
  assert (Z.land (12 + len (cmd_set :: cmd_id :: payload) + 4) 0x03FF
          = 18 + len payload) as HL.
  { replace (12 + len (cmd_set :: cmd_id :: payload) + 4) with (18 + len payload)
      by (unfold len; cbn [length]; lia).
    apply land_3FF_small, Hl. }
  unfold frame_of in *. cbv zeta in *. rewrite HL in *. fold header in Hfl |- *.
  rewrite parse_dji_frame_parts
    by auto using header_of_length, crc16_field_length, crc32_field_length.
  unfold parse_parts. rewrite Hfl. unfold header.
  rewrite header_of_sof, header_of_cmd_type, header_of_enc, header_of_seq.
  rewrite !header_of_ver_length by exact Hl.
  rewrite land_3FF_small, version_of_small by exact Hl.
  rewrite crc16_field_value, crc32_field_value.
  rewrite !Z.eqb_refl.
  rewrite cmd_type_of_frame_type, cmd_type_of_ack_type.
  assert ((len (cmd_set :: cmd_id :: payload) <? 2) = false) as ->
    by (apply Z.ltb_ge; unfold len; cbn [length]; lia).
  reflexivity.
Qed.

(** C1. For every valid tuple, decoding the bytes produced by
    [build_dji_frame] gives a frame with the same command set, command id
    and payload, and with frame type 1 (response) exactly when [is_response]
    was set. *)
Theorem decode_encode_roundtrip cmd_set cmd_id payload is_response ack_type :
  valid_args cmd_set cmd_id payload ->
  exists bytes f,
    build_dji_frame cmd_set cmd_id payload is_response ack_type = Ok bytes /\
    parse_dji_frame bytes = Ok f /\
    fr_cmd_set f = cmd_set /\
    fr_cmd_id f = cmd_id /\
    fr_data f = payload /\
    fr_frame_type f = (if is_response then 1 else 0) /\
    (fr_frame_type f = 1 <-> is_response = true).
Proof.
  intros Hv. pose proof Hv as (Hs & Hi & _ & _).
  eexists _, _. split; [apply build_dji_frame_ok; assumption|].
  split; [apply parse_frame_of; assumption|].
  cbn [fr_cmd_set fr_cmd_id fr_data fr_frame_type].
  repeat split; destruct is_response; intros; congruence.
Qed.

Lemma decode_encode_roundtrip_witness :
  valid_args 0x1D 0x04 [1; 2; 3; 4; 5] /\
  exists bytes f,
    build_dji_frame 0x1D 0x04 [1; 2; 3; 4; 5] false 1 = Ok bytes /\
    parse_dji_frame bytes = Ok f /\
    fr_cmd_set f = 0x1D /\
    fr_cmd_id f = 0x04 /\
    fr_data f = [1; 2; 3; 4; 5] /\
    fr_frame_type f = 0 /\
    (fr_frame_type f = 1 <-> false = true).
Proof.
  assert (valid_args 0x1D 0x04 [1; 2; 3; 4; 5]) as Hv.
  { unfold valid_args, is_bytes, is_byte, len. cbn [length].
    repeat split; try lia.
    repeat (constructor; [lia|]). constructor. }
  split; [exact Hv|].
  exact (decode_encode_roundtrip 0x1D 0x04 [1; 2; 3; 4; 5] false 1 Hv).
Defined.

(** The length bound in [valid_args] is what the 10-bit length field asks
    for: a longer payload is still encoded, but the frame is then refused
    by its own decoder. *)
Lemma encode_overlong_rejected cmd_set cmd_id payload is_response ack_type :
  is_byte cmd_set -> is_byte cmd_id ->
  0x3FF < 12 + (2 + len payload) + 4 ->
  exists bytes,
    build_dji_frame cmd_set cmd_id payload is_response ack_type = Ok bytes /\
    parse_dji_frame bytes = Raise (ValueError LengthMismatch).
Proof.
  intros Hs Hi Hlong.
  eexists. split; [apply build_dji_frame_ok; assumption|].
  pose proof (frame_of_len cmd_set cmd_id payload is_response ack_type) as Hfl.
  unfold frame_of in *. cbv zeta in *.
  rewrite parse_dji_frame_parts
    by auto using header_of_length, crc16_field_length, crc32_field_length.
  unfold parse_parts. rewrite Hfl, header_of_sof.
  rewrite header_of_ver_length by apply land_3FF_range.
  pose proof (land_3FF_range
    (Z.land (12 + len (cmd_set :: cmd_id :: payload) + 4) 0x03FF)) as Hr.
  assert ((18 + len payload =?
           Z.land (Z.land (12 + len (cmd_set :: cmd_id :: payload) + 4) 0x03FF) 0x3FF)
          = false) as -> by (apply Z.eqb_neq; lia).
  reflexivity.
Qed.

(** *** Decoding a frame with one byte replaced *)

Lemma parse_parts_bad_sof (header crc16 body crc32 : list Z) :
  at_ header 0 <> 0xAA ->
  parse_parts header crc16 body crc32 = Raise (ValueError BadSof).
Proof.
  intros H. unfold parse_parts.
  apply Z.eqb_neq in H. rewrite H. reflexivity.
Qed.

Lemma parse_parts_bad_crc16 (header crc16 body crc32 : list Z) :
  at_ header 0 = 0xAA ->
  _ccrc16 header _ccrc16_init <> from_bytes_little crc16 ->
  parse_parts header crc16 body crc32 =
    if len (header ++ crc16 ++ body ++ crc32)
         =? Z.land (from_bytes_little (slice header 1 3)) 0x3FF
    then Raise (ValueError Crc16Mismatch)
    else Raise (ValueError LengthMismatch).
Proof.
  intros Hsof Hcrc. unfold parse_parts. cbv zeta.
  rewrite Hsof, Z.eqb_refl.
  apply Z.eqb_neq in Hcrc. rewrite Hcrc.
  destruct (len (header ++ crc16 ++ body ++ crc32)
              =? Z.land (from_bytes_little (slice header 1 3)) 0x3FF);
    reflexivity.
Qed.

Lemma parse_parts_bad_crc32 (header crc16 body crc32 : list Z) :
  at_ header 0 = 0xAA ->
  _ccrc16 header _ccrc16_init = from_bytes_little crc16 ->
  _ccrc32 (header ++ crc16 ++ body) _ccrc32_init <> from_bytes_little crc32 ->
  parse_parts header crc16 body crc32 =
    if len (header ++ crc16 ++ body ++ crc32)
         =? Z.land (from_bytes_little (slice header 1 3)) 0x3FF
    then Raise (ValueError Crc32Mismatch)
    else Raise (ValueError LengthMismatch).
Proof.
  intros Hsof Hcrc16 Hcrc32. unfold parse_parts. cbv zeta.
  rewrite Hsof, Z.eqb_refl, Hcrc16, Z.eqb_refl.
  apply Z.eqb_neq in Hcrc32. rewrite Hcrc32.
  destruct (len (header ++ crc16 ++ body ++ crc32)
              =? Z.land (from_bytes_little (slice header 1 3)) 0x3FF);
    reflexivity.
Qed.

Lemma at_insert_ne (l : list Z) (i j : nat) (x : Z) :
  i <> j -> at_ (<[i:=x]> l) j = at_ l j.
Proof.
  intros H. unfold at_. rewrite !nth_lookup.
  now rewrite list_lookup_insert_ne.
Qed.

Lemma at_insert_eq (l : list Z) (i : nat) (x : Z) :
  (i < length l)%nat -> at_ (<[i:=x]> l) i = x.
Proof.
  intros H. unfold at_. rewrite nth_lookup.
  now rewrite list_lookup_insert_eq.
Qed.

Lemma slice_insert_ge {A} (l : list A) (a b i : nat) (x : A) :
  (b <= i)%nat -> slice (<[i:=x]> l) a b = slice l a b.
Proof.
  intros H. unfold slice.
  destruct (decide (a <= b)%nat) as [Hab|Hab].
  - rewrite drop_insert_ge by lia. apply take_insert_ge. lia.
  - replace (b - a)%nat with 0%nat by lia. reflexivity.
Qed.

Lemma insert_changes (l : list Z) (i : nat) (b b' : Z) :
  l !! i = Some b -> b' <> b -> <[i:=b']> l <> l.
Proof.
  intros Hi Hne Heq.
  assert (<[i:=b']> l !! i = Some b') as H
    by (apply list_lookup_insert_eq; eapply lookup_lt_Some; eassumption).
  rewrite Heq in H. congruence.
Qed.

Lemma from_bytes_little_insert (l : list Z) (i : nat) (b b' : Z) :
  is_bytes l -> is_byte b' -> l !! i = Some b -> b' <> b ->
  from_bytes_little (<[i:=b']> l) <> from_bytes_little l.
Proof.
  intros Hl Hb' Hi Hne Heq.
  apply from_bytes_little_inj in Heq.
  - eapply insert_changes; eassumption.
  - apply Forall_insert; assumption.
  - exact Hl.
  - apply length_insert.
Qed.

Lemma frame_parts_bytes cmd_set cmd_id payload :
  is_byte cmd_set -> is_byte cmd_id -> is_bytes payload ->
  is_bytes (cmd_set :: cmd_id :: payload).
Proof. intros. repeat (constructor; [assumption|]). assumption. Qed.

Lemma build_dji_frame_inv cmd_set cmd_id payload is_response ack_type bytes :
  build_dji_frame cmd_set cmd_id payload is_response ack_type = Ok bytes ->
  is_byte cmd_set /\ is_byte cmd_id.
Proof.
  unfold build_dji_frame.
  destruct (py_bytes [cmd_set; cmd_id]) as [ids|e] eqn:Hb.
  - intros _. unfold py_bytes in Hb.
    destruct (forallb is_byteb [cmd_set; cmd_id]) eqn:Hf; [|discriminate].
    cbn [forallb] in Hf. unfold is_byteb, is_byte in *. lia.
  - rewrite bind_raise. discriminate.
Qed.

Lemma tamper_parts (header crc16 body crc32 : list Z) (i : nat) (b b' : Z) :
  sealed header crc16 body crc32 ->
  (header ++ crc16 ++ body ++ crc32) !! i = Some b ->
  is_byte b' -> b' <> b ->
  parse_dji_frame (<[i:=b']> (header ++ crc16 ++ body ++ crc32))
    = tamper_verdict i (len (header ++ crc16 ++ body ++ crc32))
        (<[i:=b']> header).
Proof.
  intros (Hh & Hc16 & Hc32 & Bh & Bc16 & Bbody & Bc32 & Hsof & E16 & E32)
         Hi Hb' Hne.
  assert (forall (j : nat) (l1 l2 : list Z) (x : Z),
             len (<[j:=x]> l1 ++ l2) = len (l1 ++ l2))
    as Hlen1 by (intros; rewrite !len_app; unfold len; now rewrite length_insert).
  destruct (decide (i < 10)%nat) as [Hlt|Hge].
  - (* in the header *)
    rewrite lookup_app_l in Hi by lia.
    rewrite insert_app_l by lia.
    rewrite parse_dji_frame_parts by (rewrite ?length_insert; assumption).
    destruct i as [|i'].
    + cbn [tamper_verdict]. apply parse_parts_bad_sof.
      rewrite at_insert_eq by lia.
      assert (at_ header 0 = b) as Hb0
        by (unfold at_; now apply nth_lookup_Some).
      congruence.
    + rewrite parse_parts_bad_crc16.
      * unfold tamper_verdict, declared_length. rewrite Hlen1.
        replace (S i' <? 12)%nat with true by (symmetry; apply Nat.ltb_lt; lia).
        reflexivity.
      * rewrite at_insert_ne by lia. exact Hsof.
      * rewrite E16. apply _ccrc16_insert with (b := b); auto.
        exact (Forall_lookup_1 is_byte _ _ _ Bh Hi).
  - rewrite list_insert_ge with (l := header) by lia.
    rewrite lookup_app_r in Hi by lia. rewrite Hh in Hi.
    rewrite insert_app_r_alt by lia. rewrite Hh.
    destruct i as [|i']; [lia|].
    unfold tamper_verdict, declared_length.
    destruct (decide (S i' < 12)%nat) as [Hlt|Hge2].
    + (* in the CRC16 field *)
      rewrite lookup_app_l in Hi by lia.
      rewrite insert_app_l by lia.
      rewrite parse_dji_frame_parts by (rewrite ?length_insert; assumption).
      rewrite parse_parts_bad_crc16.
      * rewrite !(len_app header), Hlen1.
        replace (S i' <? 12)%nat with true by (symmetry; apply Nat.ltb_lt; lia).
        reflexivity.
      * exact Hsof.
      * rewrite <- E16. intros Heq. symmetry in Heq. revert Heq.
        apply from_bytes_little_insert with (b := b); auto.
    + replace (S i' <? 12)%nat with false by (symmetry; apply Nat.ltb_ge; lia).
      rewrite lookup_app_r in Hi by lia. rewrite Hc16 in Hi.
      rewrite insert_app_r_alt by lia. rewrite Hc16.
      destruct (decide (S i' - 10 - 2 < length body)%nat) as [Hlt3|Hge3].
      * (* in the data section *)
        rewrite lookup_app_l in Hi by lia.
        rewrite insert_app_l by lia.
        rewrite parse_dji_frame_parts by (rewrite ?length_insert; assumption).
        rewrite parse_parts_bad_crc32.
        -- rewrite !(len_app header), !(len_app crc16), Hlen1. reflexivity.
        -- exact Hsof.
        -- symmetry. exact E16.
        -- rewrite E32.
           assert (header ++ crc16 ++ <[(S i' - 10 - 2)%nat:=b']> body
                   = <[S i':=b']> (header ++ crc16 ++ body)) as ->.
           { rewrite (insert_app_r_alt header) by lia. rewrite Hh.
             rewrite (insert_app_r_alt crc16) by lia. rewrite Hc16.
             reflexivity. }
           apply _ccrc32_insert with (b := b); auto.
           ++ rewrite lookup_app_r by lia. rewrite Hh.
              rewrite lookup_app_r by lia. rewrite Hc16. exact Hi.
           ++ exact (Forall_lookup_1 is_byte _ _ _ Bbody Hi).
      * (* in the CRC32 field *)
        rewrite lookup_app_r in Hi by lia.
        rewrite insert_app_r_alt by lia.
        rewrite parse_dji_frame_parts by (rewrite ?length_insert; assumption).
        rewrite parse_parts_bad_crc32.
        -- rewrite !len_app. unfold len. rewrite length_insert. reflexivity.
        -- exact Hsof.
        -- symmetry. exact E16.
        -- rewrite <- E32. intros Heq. symmetry in Heq. revert Heq.
           apply from_bytes_little_insert with (b := b); auto.
Qed.

Lemma frame_of_sealed cmd_set cmd_id payload is_response ack_type :
  is_byte cmd_set -> is_byte cmd_id -> is_bytes payload ->
  let body := cmd_set :: cmd_id :: payload in
  let header := header_of (Z.land (12 + len body + 4) 0x03FF) is_response ack_type in
  sealed header (crc16_field header) body
         (crc32_field header (crc16_field header) body).
Proof.
  intros Hs Hi Hp body header. unfold sealed.
  split; [apply header_of_length|].
  split; [apply crc16_field_length|].
  split; [apply crc32_field_length|].
  split; [apply header_of_is_bytes|].
  split; [apply little_bytes_is_bytes|].
  split; [apply frame_parts_bytes; assumption|].
  split; [apply little_bytes_is_bytes|].
  split; [apply header_of_sof|].
  split; [apply crc16_field_value | apply crc32_field_value].
Qed.

Lemma declared_length_header_of length is_response ack_type :
  0 <= length < 1024 ->
  declared_length (header_of length is_response ack_type) = length.
Proof.
  intros Hl. unfold declared_length.
  rewrite header_of_ver_length by exact Hl. apply land_3FF_small, Hl.
Qed.

Lemma declared_length_insert_ge (header : list Z) (i : nat) (x : Z) :
  (3 <= i)%nat -> declared_length (<[i:=x]> header) = declared_length header.
Proof.
  intros H. unfold declared_length. now rewrite slice_insert_ge.
Qed.

(** Replacing the low byte of the length field changes the declared
    length. *)
Lemma declared_length_low_byte length is_response ack_type (b' : Z) :
  0 <= length < 1024 -> is_byte b' -> b' <> Z.land length 0xFF ->
  declared_length (<[1%nat:=b']> (header_of length is_response ack_type))
    <> length.
Proof.
  intros Hl Hb' Hne. unfold declared_length.
  change (slice (<[1%nat:=b']> (header_of length is_response ack_type)) 1 3)
    with [b'; Z.land (Z.shiftr length 8) 0xFF].
  cbn [from_bytes_little].
  change 0xFF with (Z.ones 8) in *. change 0x3FF with (Z.ones 10).
  rewrite !Z.land_ones in * by lia. rewrite Z.shiftr_div_pow2 by lia.
  change (2 ^ 8) with 256 in *. change (2 ^ 10) with 1024.
  unfold is_byte in Hb'.
  pose proof (Z.div_mod length 256 ltac:(lia)) as Hdm.
  pose proof (Z.mod_pos_bound length 256 ltac:(lia)) as Hmb.
  assert (0 <= length / 256 < 4) as Hq
    by (split; [apply Z.div_pos; lia | apply Z.div_lt_upper_bound; lia]).
  rewrite (Z.mod_small (length / 256) 256) by lia.
  rewrite Z.mod_small by lia. lia.
Qed.

Lemma frame_of_lookup_1 cmd_set cmd_id payload is_response ack_type :
  frame_of cmd_set cmd_id payload is_response ack_type !! 1%nat
    = Some (Z.land (Z.land (12 + len (cmd_set :: cmd_id :: payload) + 4) 0x03FF) 0xFF).
Proof. reflexivity. Qed.

(** What the decoder answers on a built frame with byte [i] replaced. *)
Lemma parse_tampered_frame cmd_set cmd_id payload is_response ack_type
    (i : nat) (b b' : Z) :
  is_byte cmd_set -> is_byte cmd_id -> is_bytes payload ->
  frame_of cmd_set cmd_id payload is_response ack_type !! i = Some b ->
  is_byte b' -> b' <> b ->
  parse_dji_frame (<[i:=b']> (frame_of cmd_set cmd_id payload is_response ack_type))
    = tamper_verdict i (18 + len payload)
        (<[i:=b']> (header_of (Z.land (12 + len (cmd_set :: cmd_id :: payload) + 4) 0x03FF)
                      is_response ack_type)).
Proof.
  intros Hs Hi Hp Hlook Hb' Hne.
  rewrite <- (frame_of_len cmd_set cmd_id payload is_response ack_type).
  unfold frame_of in *. cbv zeta in *.
  apply tamper_parts with (b := b); auto.
  apply frame_of_sealed; assumption.
Qed.

(** C2, as the code has it. Replacing any single byte of a built frame by a
    different byte makes [parse_dji_frame] fail, never succeed. The failure
    is the start-byte error at position 0, a length or CRC16 mismatch at
    positions 1 to 11, and a length or CRC32 mismatch from position 12 on;
    for a valid tuple it is the length mismatch at position 1, the CRC16
    mismatch at positions 3 to 11 and the CRC32 mismatch from position 12
    on. *)
Theorem tampered_frame_rejected cmd_set cmd_id payload is_response ack_type
    (bytes : list Z) (i : nat) (b b' : Z) :
  build_dji_frame cmd_set cmd_id payload is_response ack_type = Ok bytes ->
  is_bytes payload ->
  bytes !! i = Some b -> is_byte b' -> b' <> b ->
  exists e,
    parse_dji_frame (<[i:=b']> bytes) = Raise (ValueError e) /\
    (e = BadSof \/ e = LengthMismatch \/ e = Crc16Mismatch \/ e = Crc32Mismatch) /\
    (i = 0%nat -> e = BadSof) /\
    ((1 <= i < 12)%nat -> e = LengthMismatch \/ e = Crc16Mismatch) /\
    ((12 <= i)%nat -> e = LengthMismatch \/ e = Crc32Mismatch) /\
    (valid_args cmd_set cmd_id payload ->
       (i = 1%nat -> e = LengthMismatch) /\
       ((3 <= i < 12)%nat -> e = Crc16Mismatch) /\
       ((12 <= i)%nat -> e = Crc32Mismatch)).
Proof.
  intros Hbuild Hp Hlook Hb' Hne.
  destruct (build_dji_frame_inv _ _ _ _ _ _ Hbuild) as [Hs Hi].
  rewrite build_dji_frame_ok in Hbuild by assumption.
  injection Hbuild as <-.
  rewrite (parse_tampered_frame _ _ _ _ _ i b b') by assumption.
  set (L := 12 + len (cmd_set :: cmd_id :: payload) + 4).
  assert (L = 18 + len payload) as HL by (unfold L, len; cbn [length]; lia).
  destruct i as [|i'].
  { exists BadSof. cbn [tamper_verdict].
    split; [reflexivity|]. split; [auto|]. split; [reflexivity|].
    split; [intros; lia|]. split; [intros; lia|].
    intros _. repeat split; intros; lia. }
  unfold tamper_verdict.
  destruct (18 + len payload =? declared_length _) eqn:Hdecl.
  - destruct (S i' <? 12)%nat eqn:Hpos.
    + apply Nat.ltb_lt in Hpos. exists Crc16Mismatch.
      split; [reflexivity|]. split; [auto|]. split; [intros; lia|].
      split; [auto|]. split; [intros; lia|].
      intros (_ & _ & _ & Hlen).
      split; [|split; [reflexivity | intros; lia]].
      intros Hi1. exfalso.
      apply Z.eqb_eq in Hdecl. symmetry in Hdecl. revert Hdecl.
      assert (0 <= L < 1024) as Hr by (unfold len in *; lia).
      rewrite (land_3FF_small L) by exact Hr. rewrite <- HL. rewrite Hi1.
      apply declared_length_low_byte; auto.
      rewrite Hi1, frame_of_lookup_1 in Hlook. fold L in Hlook.
      rewrite (land_3FF_small L) in Hlook by exact Hr. congruence.
    + apply Nat.ltb_ge in Hpos. exists Crc32Mismatch.
      split; [reflexivity|]. split; [auto|]. split; [intros; lia|].
      split; [intros; lia|]. split; [auto|].
      intros _. split; [intros; lia|]. split; [intros; lia | reflexivity].
  - exists LengthMismatch.
    split; [reflexivity|]. split; [auto|]. split; [intros; lia|].
    split; [auto|]. split; [auto|].
    intros (_ & _ & _ & Hlen).
    assert (0 <= L < 1024) as Hr by (unfold len in *; lia).
    split; [reflexivity|].
    assert ((3 <= S i')%nat -> False) as Habs.
    { intros H3. apply Z.eqb_neq in Hdecl. apply Hdecl.
      rewrite declared_length_insert_ge by exact H3.
      rewrite (land_3FF_small L) by exact Hr.
      rewrite declared_length_header_of by exact Hr. lia. }
    split; intros; exfalso; apply Habs; lia.
Qed.

Lemma sample_frame_built :
  build_dji_frame 0x1D 0x04 [1; 2; 3; 4; 5] false 1 = Ok sample_frame.
Proof. vm_compute. reflexivity. Qed.

Lemma tampered_frame_rejected_witness :
  exists e,
    parse_dji_frame (<[14%nat:=254]> sample_frame) = Raise (ValueError e) /\
    (e = BadSof \/ e = LengthMismatch \/ e = Crc16Mismatch \/ e = Crc32Mismatch) /\
    (14%nat = 0%nat -> e = BadSof) /\
    ((1 <= 14 < 12)%nat -> e = LengthMismatch \/ e = Crc16Mismatch) /\
    ((12 <= 14)%nat -> e = LengthMismatch \/ e = Crc32Mismatch) /\
    (valid_args 0x1D 0x04 [1; 2; 3; 4; 5] ->
       (14%nat = 1%nat -> e = LengthMismatch) /\
       ((3 <= 14 < 12)%nat -> e = Crc16Mismatch) /\
       ((12 <= 14)%nat -> e = Crc32Mismatch)).
Proof.
  apply (tampered_frame_rejected 0x1D 0x04 [1; 2; 3; 4; 5] false 1
           sample_frame 14 1 254).
  - vm_compute. reflexivity.
  - unfold is_bytes, is_byte. repeat (constructor; [lia|]). constructor.
  - reflexivity.
  - unfold is_byte. lia.
  - lia.
Defined.

(** C2 as stated fails at the first byte: inverting the start byte of a
    built frame makes the decoder fail on the start byte, which is neither
    of the two checksum errors. *)
Lemma tamper_start_byte_counterexample :
  build_dji_frame 0x1D 0x04 [1; 2; 3; 4; 5] false 1 = Ok sample_frame /\
  sample_frame !! 0%nat = Some 0xAA /\
  parse_dji_frame (<[0%nat:=Z.lxor 0xAA 0xFF]> sample_frame)
    = Raise (ValueError BadSof) /\
  ~ (parse_dji_frame (<[0%nat:=Z.lxor 0xAA 0xFF]> sample_frame)
       = Raise (ValueError Crc16Mismatch) \/
     parse_dji_frame (<[0%nat:=Z.lxor 0xAA 0xFF]> sample_frame)
       = Raise (ValueError Crc32Mismatch)).
Proof.
  split; [vm_compute; reflexivity|].
  split; [reflexivity|].
  assert (parse_dji_frame (<[0%nat:=Z.lxor 0xAA 0xFF]> sample_frame)
            = Raise (ValueError BadSof)) as H by (vm_compute; reflexivity).
  split; [exact H|].
  rewrite H. intros [H'|H']; discriminate.
Qed.

(** The same at the length field: a changed low length byte is reported as
    a length mismatch. *)
Example tamper_length_byte :
  parse_dji_frame (<[1%nat:=24]> sample_frame) = Raise (ValueError LengthMismatch).
Proof. vm_compute. reflexivity. Qed.

(** ** Enumerations *)

Lemma enum_call_decode {E} `{PyEnum E} (unknown : E) (v : Z) :
  (forall x, _missing_ x = Some unknown) ->
  enum_call v = Ok (enum_decode unknown v).
Proof.
  intros Hm. unfold enum_call, enum_decode.
  destruct (find (fun m => value m =? v) members); [reflexivity|].
  now rewrite Hm.
Qed.


Example camera_mode_known : enum_call 0x3F = Ok CameraMode.PANO_PHOTO.
Proof. reflexivity. Qed.

Example camera_mode_unknown : @enum_call CameraMode.t _ 0x39 = Ok CameraMode.UNKNOWN.
Proof. reflexivity. Qed.

Example power_mode_unknown : @enum_call PowerMode.t _ 1 = Ok PowerMode.UNKNOWN.
Proof. reflexivity. Qed.


(** ** Camera status decoder *)

Lemma index_ok (l : list Z) (i : nat) :
  (i < length l)%nat -> index l i = Ok (nth i l 0).
Proof.
  intros H. unfold index.
  destruct (nth_lookup_or_length l i 0) as [->|]; [reflexivity | lia].
Qed.

Lemma index_out_of_range (l : list Z) (i : nat) :
  (length l <= i)%nat -> index l i = Raise IndexError.
Proof.
  intros H. unfold index. now rewrite lookup_ge_None_2.
Qed.

Lemma enum_at_ok {E} `{PyEnum E} (unknown : E) (l : list Z) (i : nat) :
  (forall x, _missing_ x = Some unknown) ->
  (i < length l)%nat ->
  enum_at l i = Ok (enum_decode unknown (nth i l 0)).
Proof.
  intros Hm Hi. unfold enum_at.
  rewrite index_ok by exact Hi. rewrite bind_ok.
  now apply enum_call_decode.
Qed.

Lemma slice_length {A} (l : list A) (a b : nat) :
  (b <= length l)%nat -> length (slice l a b) = (b - a)%nat.
Proof.
  intros H. unfold slice. rewrite length_take, length_drop. lia.
Qed.

Lemma unpack_little_ok (l : list Z) (a b n : nat) :
  (b <= length l)%nat -> (b - a)%nat = n ->
  unpack_little n (slice l a b) = Ok (from_bytes_little (slice l a b)).
Proof.
  intros Hb Hn. unfold unpack_little.
  rewrite slice_length by exact Hb. rewrite Hn, Nat.eqb_refl. reflexivity.
Qed.

(** The object and the outcome of [parseFromData] on a payload of at least
    38 bytes. *)
Lemma parseFromData_value (self : CameraStatus) (l : list Z) :
  (38 <= length l)%nat ->
  parseFromData self l =
    ({| camera_mode := enum_decode CameraMode.UNKNOWN (nth 0 l 0);
        view_status := enum_decode ViewStatus.UNKNOWN (nth 1 l 0);
        video_resolution := enum_decode VideoResolution.UNKNOWN (nth 2 l 0);
        fps_idx := enum_decode FPSIdx.UNKNOWN (nth 3 l 0);
        eis_mode := enum_decode EISMode.UNKNOWN (nth 4 l 0);
        record_time := from_bytes_little (slice l 5 7);
        fov_type := fov_type self;
        photo_ratio := enum_decode PhotoRatio.UNKNOWN (nth 8 l 0);
        real_time_countdown := from_bytes_little (slice l 9 11);
        timelaps_interval := from_bytes_little (slice l 11 13);
        timelaps_duration := from_bytes_little (slice l 13 15);
        remain_capacity := from_bytes_little (slice l 15 19);
        remain_photo_num := from_bytes_little (slice l 19 23);
        remain_time := from_bytes_little (slice l 23 27);
        user_mode := enum_decode UserMode.UNKNOWN (nth 28 l 0);
        power_mode := enum_decode PowerMode.UNKNOWN (nth 29 l 0);
        temp_over := enum_decode TempOver.UNKNOWN (nth 30 l 0);
        photo_countdown_ms := from_bytes_little (slice l 31 35);
        loop_record_sends := from_bytes_little (slice l 35 37);
        camera_bat_percentage := nth 37 l 0;
        data := Some l |},
     Ok tt).
Proof.
  intros Hlen. unfold parseFromData. cbv zeta.
  rewrite !(enum_at_ok CameraMode.UNKNOWN) by (reflexivity || lia).
  rewrite !(enum_at_ok ViewStatus.UNKNOWN) by (reflexivity || lia).
  rewrite !(enum_at_ok VideoResolution.UNKNOWN) by (reflexivity || lia).
  rewrite !(enum_at_ok FPSIdx.UNKNOWN) by (reflexivity || lia).
  rewrite !(enum_at_ok EISMode.UNKNOWN) by (reflexivity || lia).
  rewrite !(enum_at_ok PhotoRatio.UNKNOWN) by (reflexivity || lia).
  rewrite !(enum_at_ok UserMode.UNKNOWN) by (reflexivity || lia).
  rewrite !(enum_at_ok PowerMode.UNKNOWN) by (reflexivity || lia).
  rewrite !(enum_at_ok TempOver.UNKNOWN) by (reflexivity || lia).
  rewrite !unpack_little_ok by (reflexivity || lia).
  rewrite !index_ok by lia.
  reflexivity.
Qed.

Lemma raises_short_bind {A B} (r : result A) (k : result B) :
  raises_short r -> raises_short k -> raises_short (r ≫= fun _ => k).
Proof.
  intros Hr Hk e. destruct r as [a|e'].
  - rewrite bind_ok. apply Hk.
  - rewrite bind_raise. intros H. injection H as <-. exact (Hr e' eq_refl).
Qed.

Lemma raises_short_index (l : list Z) (i : nat) : raises_short (index l i).
Proof.
  intros e. unfold index. destruct (l !! i); intros H; [discriminate|].
  injection H as <-. now left.
Qed.

Lemma raises_short_unpack (n : nat) (bs : list Z) :
  raises_short (unpack_little n bs).
Proof.
  intros e. unfold unpack_little.
  destruct (length bs =? n)%nat; intros H; [discriminate|].
  injection H as <-. now right.
Qed.

Lemma raises_short_enum_at {E} `{PyEnum E} (unknown : E) (l : list Z) (i : nat) :
  (forall x, _missing_ x = Some unknown) ->
  raises_short (@enum_at E _ l i).
Proof.
  intros Hm e. unfold enum_at.
  destruct (index l i) as [v|e'] eqn:Hi.
  - rewrite bind_ok, (enum_call_decode unknown) by exact Hm. discriminate.
  - rewrite bind_raise. intros H0. injection H0 as <-.
    exact (raises_short_index l i e' Hi).
Qed.

Lemma raises_short_ok {A} (a : A) : raises_short (Ok a).
Proof. intros e H. discriminate. Qed.

(** C10. [parseFromData] returns normally on every payload of at least 38
    bytes, and raises ([IndexError] or [struct.error]) on every shorter
    one. *)
Theorem parseFromData_threshold (self : CameraStatus) (l : list Z) :
  ((38 <= length l)%nat -> snd (parseFromData self l) = Ok tt) /\
  ((length l < 38)%nat ->
     exists e, snd (parseFromData self l) = Raise e /\
               (e = IndexError \/ e = StructError)).
Proof.
  split.
  - intros Hlen. now rewrite parseFromData_value.
  - intros Hlen. unfold parseFromData. cbv zeta. cbn [snd].
    match goal with
    | |- exists e, ?r = _ /\ _ =>
        assert (raises_short r) as Hshort;
        [| assert (exists e, r = Raise e) as [e He] ]
    end.
    + repeat (apply raises_short_bind);
        first [ apply raises_short_ok
              | apply raises_short_index
              | apply raises_short_unpack
              | apply (raises_short_enum_at CameraMode.UNKNOWN); reflexivity
              | apply (raises_short_enum_at ViewStatus.UNKNOWN); reflexivity
              | apply (raises_short_enum_at VideoResolution.UNKNOWN); reflexivity
              | apply (raises_short_enum_at FPSIdx.UNKNOWN); reflexivity
              | apply (raises_short_enum_at EISMode.UNKNOWN); reflexivity
              | apply (raises_short_enum_at PhotoRatio.UNKNOWN); reflexivity
              | apply (raises_short_enum_at UserMode.UNKNOWN); reflexivity
              | apply (raises_short_enum_at PowerMode.UNKNOWN); reflexivity
              | apply (raises_short_enum_at TempOver.UNKNOWN); reflexivity ].
    + rewrite (index_out_of_range l 37) by lia.
      match goal with
      | |- exists e, ((?s ≫= _) ≫= _) ≫= _ = _ => destruct s as [x|e]
      end.
      * exists IndexError. reflexivity.
      * exists e. reflexivity.
    + exists e. split; [exact He | exact (Hshort e He)].
Qed.

Lemma parseFromData_threshold_witness :
  snd (parseFromData CameraStatus_new (repeat 0 38)) = Ok tt /\
  exists e, snd (parseFromData CameraStatus_new (repeat 0 37)) = Raise e /\
            (e = IndexError \/ e = StructError).
Proof.
  split.
  - apply (proj1 (parseFromData_threshold CameraStatus_new (repeat 0 38))).
    cbn [repeat length]. lia.
  - apply (proj2 (parseFromData_threshold CameraStatus_new (repeat 0 37))).
    cbn [repeat length]. lia.
Defined.

Example parseFromData_empty :
  snd (parseFromData CameraStatus_new []) = Raise IndexError.
Proof. reflexivity. Qed.

Example parseFromData_six_bytes :
  parseFromData CameraStatus_new [0x3F; 1; 16; 3; 0; 7]
    = ({| camera_mode := CameraMode.PANO_PHOTO;
          view_status := ViewStatus.LIVE_STREAMING;
          video_resolution := VideoResolution.RES_4K;
          fps_idx := FPSIdx.FPS_30;
          eis_mode := EISMode.OFF;
          record_time := -1;
          fov_type := -1;
          photo_ratio := PhotoRatio.RATIO_4_3;
          real_time_countdown := -1;
          timelaps_interval := -1;
          timelaps_duration := -1;
          remain_capacity := -1;
          remain_photo_num := -1;
          remain_time := -1;
          user_mode := UserMode.GENERAL;
          power_mode := PowerMode.NORMAL;
          temp_over := TempOver.NORMAL;
          photo_countdown_ms := -1;
          loop_record_sends := -1;
          camera_bat_percentage := -1;
          data := None |},
       Raise StructError).
Proof. reflexivity. Qed.

(** ** Notification handler and waits *)

#[local] Opaque parse_dji_frame build_dji_frame frame_of parseFromData.

Lemma same_link_refl (self : Osmo360) : same_link self self.
Proof. unfold same_link. repeat split. Qed.

Lemma same_link_trans (a b c : Osmo360) :
  same_link a b -> same_link b c -> same_link a c.
Proof.
  unfold same_link. intros (?&?&?&?&?&?) (?&?&?&?&?&?).
  repeat split; congruence.
Qed.

Ltac handler_cases :=
  unfold _notification_handler;
  repeat match goal with
         | |- context [match parse_dji_frame ?b with _ => _ end] =>
             destruct (parse_dji_frame b) eqn:?
         | |- context [if ?c then _ else _] => destruct c eqn:?
         | |- context [let '(_, _) := ?p in _] => destruct p as [? [?|?]] eqn:?
         end.

Lemma handler_same_link (self : Osmo360) (buffer : list Z) :
  same_link self (_notification_handler self buffer).
Proof. handler_cases; unfold same_link; cbn; repeat split. Qed.

Lemma handler_not_a_response (self : Osmo360) (buffer : list Z) :
  not_a_response buffer ->
  last_response_frame (_notification_handler self buffer) = last_response_frame self /\
  response_received (_notification_handler self buffer) = response_received self.
Proof.
  unfold not_a_response. intros H. handler_cases; cbn; auto.
  apply Z.eqb_eq in Heqb. contradiction.
Qed.

Lemma handler_passed_over (self : Osmo360) (buffer : list Z) :
  passed_over buffer ->
  last_notification_data (_notification_handler self buffer)
    = last_notification_data self /\
  notification_received (_notification_handler self buffer)
    = notification_received self.
Proof.
  unfold passed_over. intros H. handler_cases; cbn; auto;
    apply Z.eqb_neq in Heqb; contradiction.
Qed.

Lemma handler_response (self : Osmo360) (buffer : list Z) (f : frame) :
  parse_dji_frame buffer = Ok f -> fr_frame_type f = 1 ->
  last_response_frame (_notification_handler self buffer) = Some f /\
  response_received (_notification_handler self buffer) = true.
Proof.
  intros Hp Hf. unfold _notification_handler. rewrite Hp.
  apply Z.eqb_eq in Hf. rewrite Hf. cbn. auto.
Qed.

Lemma handler_notification (self : Osmo360) (buffer : list Z) (f : frame) :
  parse_dji_frame buffer = Ok f -> fr_frame_type f <> 1 ->
  last_notification_data (_notification_handler self buffer) = Some f /\
  notification_received (_notification_handler self buffer) = true /\
  last_response_frame (_notification_handler self buffer) = last_response_frame self /\
  response_received (_notification_handler self buffer) = response_received self.
Proof.
  intros Hp Hf. unfold _notification_handler. rewrite Hp.
  apply Z.eqb_neq in Hf. rewrite Hf.
  repeat match goal with
         | |- context [if ?c then _ else _] => destruct c eqn:?
         | |- context [let '(_, _) := ?p in _] => destruct p as [? [?|?]] eqn:?
         end; cbn; auto.
Qed.

Lemma deliver_same_link (inbound : list (list Z)) (self : Osmo360) :
  same_link self (fold_left _notification_handler inbound self).
Proof.
  revert self. induction inbound as [|buffer rest IH]; intros self.
  - apply same_link_refl.
  - cbn [fold_left]. eapply same_link_trans; [apply handler_same_link | apply IH].
Qed.

Lemma deliver_no_response (inbound : list (list Z)) (self : Osmo360) :
  Forall not_a_response inbound ->
  last_response_frame (fold_left _notification_handler inbound self)
    = last_response_frame self /\
  response_received (fold_left _notification_handler inbound self)
    = response_received self.
Proof.
  intros H. revert self. induction H as [|buffer rest Hb _ IH]; intros self.
  - auto.
  - cbn [fold_left].
    destruct (handler_not_a_response self buffer Hb) as [E1 E2].
    destruct (IH (_notification_handler self buffer)) as [E3 E4].
    split; congruence.
Qed.

Lemma wait_for_same_link (event : Osmo360 -> bool)
    (inbound : list (list (list Z))) (self : Osmo360) :
  same_link self (fst (wait_for event inbound self)).
Proof.
  revert self. induction inbound as [|burst rest IH]; intros self.
  - apply same_link_refl.
  - cbn [wait_for].
    destruct (event (fold_left _notification_handler burst self)).
    + apply deliver_same_link.
    + eapply same_link_trans; [apply deliver_same_link | apply IH].
Qed.

(** After a burst, the response slot holds the last response of the
    burst. *)
Lemma deliver_last_response (burst : list (list Z)) (f : frame) (self : Osmo360) :
  last_response burst f ->
  last_response_frame (fold_left _notification_handler burst self) = Some f /\
  response_received (fold_left _notification_handler burst self) = true.
Proof.
  intros (before & buffer & after & -> & Hp & Hf & Hafter).
  rewrite fold_left_app. cbn [fold_left].
  destruct (handler_response (fold_left _notification_handler before self) buffer f
              Hp Hf) as [E1 E2].
  destruct (deliver_no_response after
              (_notification_handler (fold_left _notification_handler before self)
                 buffer) Hafter) as [E3 E4].
  split; congruence.
Qed.

(** The wait for a response times out when no response arrives, and leaves
    the response slot and the event as they were. *)
Lemma wait_response_timeout (inbound : list (list (list Z))) (self : Osmo360) :
  response_received self = false ->
  Forall (Forall not_a_response) inbound ->
  snd (wait_for response_received inbound self) = Ok false /\
  last_response_frame (fst (wait_for response_received inbound self))
    = last_response_frame self /\
  response_received (fst (wait_for response_received inbound self)) = false.
Proof.
  intros Hclear H. revert self Hclear.
  induction H as [|burst rest Hb _ IH]; intros self Hclear.
  - cbn. auto.
  - cbn [wait_for].
    destruct (deliver_no_response burst self Hb) as [E1 E2].
    rewrite E2, Hclear.
    destruct (IH (fold_left _notification_handler burst self)) as (R1 & R2 & R3);
      [congruence|].
    repeat split; congruence.
Qed.

(** The wait for a response ends after the first burst that holds a
    response, with the last response of that burst in the slot. *)
Lemma wait_response_woken (pre post : list (list (list Z))) (burst : list (list Z))
    (f : frame) (self : Osmo360) :
  response_received self = false ->
  Forall (Forall not_a_response) pre ->
  last_response burst f ->
  snd (wait_for response_received (pre ++ burst :: post) self) = Ok true /\
  last_response_frame (fst (wait_for response_received (pre ++ burst :: post) self))
    = Some f.
Proof.
  intros Hclear H Hlast. revert self Hclear.
  induction H as [|b rest Hb _ IH]; intros self Hclear.
  - cbn [app wait_for].
    destruct (deliver_last_response burst f self Hlast) as [E1 E2].
    rewrite E2. cbn. auto.
  - cbn [app wait_for].
    destruct (deliver_no_response b self Hb) as [E1 E2].
    rewrite E2, Hclear. apply IH. congruence.
Qed.

(** ** Command channel *)

(** [send_dji_command] on a connected object, written out. *)
Lemma send_dji_command_connected cmd_set cmd_id payload wait_for_response
    is_response env (self : Osmo360) :
  connected self = true -> is_byte cmd_set -> is_byte cmd_id ->
  send_dji_command cmd_set cmd_id payload wait_for_response is_response env self =
    let frame := frame_of cmd_set cmd_id payload is_response 1 in
    let sent :=
      fold_left _notification_handler (during_write env)
        (set_written (written self ++ [frame]) (set_last_response_frame None self)) in
    match last_response_frame sent with
    | Some response => (sent, Ok (Some response))
    | None =>
        if (if is_response then false else wait_for_response) then
          let waited :=
            wait_for response_received (during_wait env)
              (set_response_received false sent) in
          match snd waited with
          | Ok true => (fst waited, Ok (last_response_frame (fst waited)))
          | Ok false => (fst waited, Ok None)
          | Raise e => (fst waited, Raise e)
          end
        else (sent, Ok None)
    end.
Proof.
  intros Hc Hs Hi.
  unfold send_dji_command, mbind, M_bind, get, modify, lift, raise, mret, M_ret,
    write_gatt_char.
  rewrite Hc. cbn [negb].
  rewrite build_dji_frame_ok by assumption.
  cbn [written last_response_frame set_last_response_frame].
  match goal with
  | |- context [fold_left _notification_handler ?l ?s] =>
      set (sent := fold_left _notification_handler l s)
  end.
  cbv zeta.
  destruct (last_response_frame sent); [reflexivity|].
  destruct (if is_response then false else wait_for_response); [|reflexivity].
  destruct (wait_for response_received (during_wait env)
              (set_response_received false sent)) as [s' [[|]|e]];
    reflexivity.
Qed.

Lemma wait_for_returns (event : Osmo360 -> bool) (inbound : list (list (list Z)))
    (self : Osmo360) :
  exists woken, snd (wait_for event inbound self) = Ok woken.
Proof.
  revert self. induction inbound as [|burst rest IH]; intros self.
  - exists false. reflexivity.
  - cbn [wait_for].
    destruct (event (fold_left _notification_handler burst self)).
    + exists true. reflexivity.
    + apply IH.
Qed.

(** A command sent on a connected object always returns. *)
Lemma send_dji_command_returns cmd_set cmd_id payload wait_for_response
    is_response env (self : Osmo360) :
  connected self = true -> is_byte cmd_set -> is_byte cmd_id ->
  exists resp,
    snd (send_dji_command cmd_set cmd_id payload wait_for_response is_response
           env self) = Ok resp.
Proof.
  intros Hc Hs Hi. rewrite send_dji_command_connected by assumption. cbv zeta.
  destruct (last_response_frame _); [eexists; reflexivity|].
  destruct (if is_response then false else wait_for_response);
    [|eexists; reflexivity].
  match goal with
  | |- context [wait_for ?e ?l ?s] =>
      destruct (wait_for_returns e l s) as [woken Hw]; rewrite Hw
  end.
  destruct woken; eexists; reflexivity.
Qed.

(** What a command does to the link: one more frame written, nothing else. *)
Lemma send_dji_command_link cmd_set cmd_id payload wait_for_response
    is_response env (self : Osmo360) :
  connected self = true -> is_byte cmd_set -> is_byte cmd_id ->
  let self' := fst (send_dji_command cmd_set cmd_id payload wait_for_response
                      is_response env self) in
  connected self' = true /\
  written self' = written self ++ [frame_of cmd_set cmd_id payload is_response 1] /\
  cameraStatusCallbacks self' = cameraStatusCallbacks self /\
  device_id self' = device_id self /\
  disconnects self' = disconnects self.
Proof.
  intros Hc Hs Hi. rewrite send_dji_command_connected by assumption. cbv zeta.
  set (start := set_written _ (set_last_response_frame None self)).
  pose proof (deliver_same_link (during_write env) start) as Hsent.
  set (sent := fold_left _notification_handler (during_write env) start) in *.
  pose proof (wait_for_same_link response_received (during_wait env)
                (set_response_received false sent)) as Hwait.
  assert (same_link start sent /\
          same_link start
            (fst (wait_for response_received (during_wait env)
                    (set_response_received false sent)))) as [H1 H2].
  { split; [exact Hsent|].
    eapply same_link_trans; [exact Hsent|].
    eapply same_link_trans; [|exact Hwait].
    unfold same_link. cbn. repeat split. }
  assert (forall s, same_link start s ->
            connected s = true /\
            written s = written self ++ [frame_of cmd_set cmd_id payload is_response 1] /\
            cameraStatusCallbacks s = cameraStatusCallbacks self /\
            device_id s = device_id self /\
            disconnects s = disconnects self) as Hlink.
  { intros s (E1 & E2 & E3 & E4 & E5 & E6). unfold start in *. cbn in *.
    repeat split; congruence. }
  destruct (last_response_frame sent); [apply Hlink, H1|].
  destruct (if is_response then false else wait_for_response);
    [|apply Hlink, H1].
  destruct (snd (wait_for response_received (during_wait env)
                   (set_response_received false sent))) as [[|]|e];
    apply Hlink, H2.
Qed.

(** C7. A command sent with a response expected, to which no frame of type
    Response arrives before the timeout, returns none and raises nothing;
    the response slot is empty and the response event clear afterwards, the
    link is still connected, and the next command gets the response that
    arrives for it: the last one of the first burst that holds a
    response. *)
Theorem send_timeout_returns_none cmd_set cmd_id payload env (self : Osmo360) :
  connected self = true -> is_byte cmd_set -> is_byte cmd_id ->
  Forall not_a_response (during_write env) ->
  Forall (Forall not_a_response) (during_wait env) ->
  let after := fst (send_dji_command cmd_set cmd_id payload true false env self) in
  snd (send_dji_command cmd_set cmd_id payload true false env self) = Ok None /\
  last_response_frame after = None /\
  response_received after = false /\
  connected after = true /\
  forall cmd_set' cmd_id' payload' early pre burst post f,
    is_byte cmd_set' -> is_byte cmd_id' ->
    Forall not_a_response early -> Forall (Forall not_a_response) pre ->
    last_response burst f ->
    snd (send_dji_command cmd_set' cmd_id' payload' true false
           {| during_write := early; during_wait := pre ++ burst :: post |}
           after) = Ok (Some f).
Proof.
  intros Hc Hs Hi Hw1 Hw2 after.
  pose proof (send_dji_command_link cmd_set cmd_id payload true false env self
                Hc Hs Hi) as (Hc' & _).
  fold after in Hc'.
  assert (forall s cs ci p e,
            connected s = true -> is_byte cs -> is_byte ci ->
            Forall not_a_response (during_write e) ->
            let sent := fold_left _notification_handler (during_write e)
                          (set_written (written s ++ [frame_of cs ci p false 1])
                             (set_last_response_frame None s)) in
            send_dji_command cs ci p true false e s =
              let waited := wait_for response_received (during_wait e)
                              (set_response_received false sent) in
              match snd waited with
              | Ok true => (fst waited, Ok (last_response_frame (fst waited)))
              | Ok false => (fst waited, Ok None)
              | Raise x => (fst waited, Raise x)
              end) as Hsend.
  { intros s cs ci p e Hcs Hbs Hbi Hq sent.
    rewrite send_dji_command_connected by assumption. cbv zeta. fold sent.
    destruct (deliver_no_response (during_write e)
                (set_written (written s ++ [frame_of cs ci p false 1])
                   (set_last_response_frame None s)) Hq) as [E _].
    fold sent in E. rewrite E. reflexivity. }
  assert (snd (send_dji_command cmd_set cmd_id payload true false env self) = Ok None /\
          last_response_frame after = None /\ response_received after = false)
    as (R1 & R2 & R3).
  { unfold after. rewrite Hsend by assumption. cbv zeta.
    match goal with
    | |- context [wait_for response_received ?l ?s] =>
        destruct (wait_response_timeout l s) as (T1 & T2 & T3);
          [reflexivity | exact Hw2 |];
        destruct (deliver_no_response (during_write env)
                    (set_written (written self ++ [frame_of cmd_set cmd_id payload false 1])
                       (set_last_response_frame None self)) Hw1) as [D1 _]
    end.
    cbn [last_response_frame set_response_received set_written
         set_last_response_frame] in T2, D1.
    rewrite T1. cbn [fst snd].
    split; [reflexivity|]. split; [congruence | exact T3]. }
  split; [exact R1|]. split; [exact R2|]. split; [exact R3|].
  split; [exact Hc'|].
  intros cmd_set' cmd_id' payload' early pre burst post f Hs' Hi' He Hpre Hlast.
  rewrite Hsend by assumption. cbv zeta. cbn [during_write during_wait].
  match goal with
  | |- context [wait_for response_received ?l ?s] =>
      destruct (wait_response_woken pre post burst f s) as [W1 W2];
        [reflexivity | assumption | assumption |]
  end.
  rewrite W1. cbn [snd]. now rewrite W2.
Qed.

Lemma empty_buffer_not_a_response : not_a_response [].
Proof. unfold not_a_response. vm_compute. exact I. Qed.

Lemma send_timeout_returns_none_witness :
  let after :=
    fst (send_dji_command 0x1D 0x04 [1; 2; 3; 4; 5] true false silent_env
           sample_osmo) in
  snd (send_dji_command 0x1D 0x04 [1; 2; 3; 4; 5] true false silent_env
         sample_osmo) = Ok None /\
  last_response_frame after = None /\
  response_received after = false /\
  connected after = true /\
  forall cmd_set' cmd_id' payload' early pre burst post f,
    is_byte cmd_set' -> is_byte cmd_id' ->
    Forall not_a_response early -> Forall (Forall not_a_response) pre ->
    last_response burst f ->
    snd (send_dji_command cmd_set' cmd_id' payload' true false
           {| during_write := early; during_wait := pre ++ burst :: post |}
           after) = Ok (Some f).
Proof.
  apply (send_timeout_returns_none 0x1D 0x04 [1; 2; 3; 4; 5] silent_env sample_osmo).
  - reflexivity.
  - unfold is_byte. lia.
  - unfold is_byte. lia.
  - constructor.
  - constructor; [|constructor].
    constructor; [exact empty_buffer_not_a_response | constructor].
Defined.

(** ** Commands *)

Lemma command_succeeded_false (resp : option frame) :
  command_succeeded resp = false.
Proof. destruct resp; reflexivity. Qed.

Lemma pack_IB4s_ok (i b : Z) :
  0 <= i < 2 ^ 32 -> is_byte b ->
  pack_IB4s i b [0; 0; 0; 0] = Ok (little_bytes 4 i ++ [b; 0; 0; 0; 0]).
Proof.
  intros Hi Hb. unfold pack_IB4s, is_byte in *.
  replace ((0 <=? i) && (i <? 2 ^ 32) && (0 <=? b) && (b <? 256)) with true
    by lia.
  reflexivity.
Qed.

(** The four commands share one body, up to the command id and the action
    byte. *)
Lemma command_shape (cmd_id action : Z) (env : send_env) (self : Osmo360) (b : bool) :
  snd ((id ← get_device_id;
        ack_payload ← lift (pack_IB4s id action [0; 0; 0; 0]);
        resp ← send_dji_command 0x1D cmd_id ack_payload true false env;
        mret (command_succeeded resp)) self) = Ok b ->
  b = false.
Proof.
  unfold mbind, M_bind, get_device_id, lift, mret, M_ret.
  destruct (device_id self) as [d|]; [|discriminate].
  destruct (pack_IB4s d action [0; 0; 0; 0]) as [p|e]; [|discriminate].
  destruct (send_dji_command 0x1D cmd_id p true false env self) as [s [r|e]];
    [|discriminate].
  cbn [snd]. intros [= <-]. apply command_succeeded_false.
Qed.

Lemma command_runs (cmd_id action : Z) (env : send_env) (self : Osmo360) (d : Z) :
  connected self = true -> device_id self = Some d -> 0 <= d < 2 ^ 32 ->
  is_byte cmd_id -> is_byte action ->
  (id ← get_device_id;
   ack_payload ← lift (pack_IB4s id action [0; 0; 0; 0]);
   resp ← send_dji_command 0x1D cmd_id ack_payload true false env;
   mret (command_succeeded resp)) self
  = (fst (send_dji_command 0x1D cmd_id (little_bytes 4 d ++ [action; 0; 0; 0; 0])
            true false env self),
     Ok false).
Proof.
  intros Hc Hd Hr Hi Ha.
  unfold mbind, M_bind, get_device_id, lift, mret, M_ret.
  rewrite Hd, pack_IB4s_ok by assumption.
  destruct (send_dji_command_returns 0x1D cmd_id
              (little_bytes 4 d ++ [action; 0; 0; 0; 0]) true false env self)
    as [resp Hresp]; [assumption | unfold is_byte; lia | assumption |].
  destruct (send_dji_command 0x1D cmd_id _ true false env self) as [s r].
  cbn [snd] in Hresp. subst r. cbn [fst].
  now rewrite command_succeeded_false.
Qed.

Lemma mode_value_is_byte (mode : CameraMode.t) :
  mode <> CameraMode.UNKNOWN -> is_byte (value mode).
Proof.
  intros H. unfold is_byte. destruct mode; cbn; try lia. contradiction.
Qed.

(** C8. Whatever the command channel returns, a response frame or none,
    the success test of [setMode], [startRecording], [stopRecording] and
    [grabImage] is false: it compares the byte sequence [resp['data']] with
    the integer 0. None of the four ever returns true, and each returns
    false whenever it returns. *)
Theorem commands_never_return_true :
  (forall resp : option frame, command_succeeded resp = false) /\
  (forall mode env self b, snd (setMode mode env self) = Ok b -> b = false) /\
  (forall env self b, snd (startRecording env self) = Ok b -> b = false) /\
  (forall env self b, snd (stopRecording env self) = Ok b -> b = false) /\
  (forall env self b, snd (grabImage env self) = Ok b -> b = false) /\
  (forall env self d,
     connected self = true -> device_id self = Some d -> 0 <= d < 2 ^ 32 ->
     (forall mode, mode <> CameraMode.UNKNOWN ->
        snd (setMode mode env self) = Ok false) /\
     snd (startRecording env self) = Ok false /\
     snd (stopRecording env self) = Ok false /\
     snd (grabImage env self) = Ok false).
Proof.
  split; [exact command_succeeded_false|].
  split; [intros mode env self b;
          exact (command_shape 0x04 (value mode) env self b)|].
  split; [intros env self b; exact (command_shape 0x03 0x00 env self b)|].
  split; [intros env self b; exact (command_shape 0x03 0x01 env self b)|].
  split; [intros env self b; exact (command_shape 0x03 0x00 env self b)|].
  intros env self d Hc Hd Hr.
  assert (is_byte 0x04 /\ is_byte 0x03 /\ is_byte 0x00 /\ is_byte 0x01)
    as (B4 & B3 & B0 & B1) by (unfold is_byte; lia).
  split; [intros mode Hm|split; [|split]].
  - unfold setMode.
    rewrite (command_runs 0x04 (value mode) env self d Hc Hd Hr B4
               (mode_value_is_byte mode Hm)).
    reflexivity.
  - unfold startRecording.
    rewrite (command_runs 0x03 0x00 env self d Hc Hd Hr B3 B0). reflexivity.
  - unfold stopRecording.
    rewrite (command_runs 0x03 0x01 env self d Hc Hd Hr B3 B1). reflexivity.
  - unfold grabImage.
    rewrite (command_runs 0x03 0x00 env self d Hc Hd Hr B3 B0). reflexivity.
Qed.

Lemma commands_never_return_true_witness :
  (forall mode, mode <> CameraMode.UNKNOWN ->
     snd (setMode mode silent_env sample_osmo) = Ok false) /\
  snd (startRecording silent_env sample_osmo) = Ok false /\
  snd (stopRecording silent_env sample_osmo) = Ok false /\
  snd (grabImage silent_env sample_osmo) = Ok false.
Proof.
  apply (proj2 (proj2 (proj2 (proj2 (proj2 commands_never_return_true))))
           silent_env sample_osmo 0x12345678).
  - reflexivity.
  - reflexivity.
  - change (2 ^ 32) with 4294967296. lia.
Defined.

(** C9. [grabImage] and [startRecording] are the same operation: on every
    object and in every environment they end in the same object with the
    same outcome; both send, with a response awaited, the command frame of
    command set 0x1D and command id 0x03 whose payload is the device id, the
    action byte 0x00 and four zero bytes, and both compute their result by
    the same test. *)
Theorem grabImage_same_as_startRecording :
  (forall env self, grabImage env self = startRecording env self) /\
  (forall env self d,
     connected self = true -> device_id self = Some d -> 0 <= d < 2 ^ 32 ->
     let payload := little_bytes 4 d ++ [0x00; 0; 0; 0; 0] in
     let sent := send_dji_command 0x1D 0x03 payload true false env self in
     grabImage env self = (fst sent, Ok false) /\
     startRecording env self = (fst sent, Ok false) /\
     (exists resp, snd sent = Ok resp /\ command_succeeded resp = false) /\
     build_dji_frame 0x1D 0x03 payload false 1
       = Ok (frame_of 0x1D 0x03 payload false 1) /\
     written (fst (grabImage env self))
       = written self ++ [frame_of 0x1D 0x03 payload false 1] /\
     written (fst (startRecording env self))
       = written self ++ [frame_of 0x1D 0x03 payload false 1]).
Proof.
  split; [reflexivity|].
  intros env self d Hc Hd Hr payload sent.
  assert (is_byte 0x1D /\ is_byte 0x03 /\ is_byte 0x00) as (B1 & B2 & B3)
    by (unfold is_byte; lia).
  assert (grabImage env self = (fst sent, Ok false)) as Hg
    by (unfold grabImage; exact (command_runs 0x03 0x00 env self d Hc Hd Hr B2 B3)).
  assert (startRecording env self = (fst sent, Ok false)) as Hs
    by (unfold startRecording;
        exact (command_runs 0x03 0x00 env self d Hc Hd Hr B2 B3)).
  split; [exact Hg|]. split; [exact Hs|].
  split.
  { destruct (send_dji_command_returns 0x1D 0x03 payload true false env self
                Hc B1 B2) as [resp Hresp].
    exists resp. split; [exact Hresp | apply command_succeeded_false]. }
  split; [exact (build_dji_frame_ok 0x1D 0x03 payload false 1 B1 B2)|].
  rewrite Hg, Hs. cbn [fst].
  pose proof (send_dji_command_link 0x1D 0x03 payload true false env self
                Hc B1 B2) as (_ & Hw & _).
  split; exact Hw.
Qed.

Lemma grabImage_same_as_startRecording_witness :
  let payload := little_bytes 4 0x12345678 ++ [0x00; 0; 0; 0; 0] in
  let sent := send_dji_command 0x1D 0x03 payload true false silent_env sample_osmo in
  grabImage silent_env sample_osmo = (fst sent, Ok false) /\
  startRecording silent_env sample_osmo = (fst sent, Ok false) /\
  (exists resp, snd sent = Ok resp /\ command_succeeded resp = false) /\
  build_dji_frame 0x1D 0x03 payload false 1
    = Ok (frame_of 0x1D 0x03 payload false 1) /\
  written (fst (grabImage silent_env sample_osmo))
    = written sample_osmo ++ [frame_of 0x1D 0x03 payload false 1] /\
  written (fst (startRecording silent_env sample_osmo))
    = written sample_osmo ++ [frame_of 0x1D 0x03 payload false 1].
Proof.
  apply (proj2 grabImage_same_as_startRecording silent_env sample_osmo 0x12345678).
  - reflexivity.
  - reflexivity.
  - change (2 ^ 32) with 4294967296. lia.
Defined.

(** ** Subscribers *)

Lemma start_payload_packed : pack_BB4s 0x02 0x14 [0; 0; 0; 0] = Ok start_payload.
Proof. reflexivity. Qed.

Lemma stop_payload_packed : pack_BB4s 0x00 0x14 [0; 0; 0; 0] = Ok stop_payload.
Proof. reflexivity. Qed.

Lemma start_stop_differ : start_frame <> stop_frame.
Proof. vm_compute. discriminate. Qed.

Lemma surjective_pairing_result {A} (p : Osmo360 * result A) : p = (fst p, snd p).
Proof. now destruct p. Qed.

(** [subscribeCameraStatus] on a connected object: the start command is
    written and the callback appended, whatever the registry held. *)
Lemma subscribe_connected (cb : callback) (env : send_env) (self : Osmo360) :
  connected self = true ->
  let after := fst (subscribeCameraStatus cb env self) in
  (exists resp, snd (subscribeCameraStatus cb env self) = Ok resp) /\
  issued self after [start_frame] /\
  cameraStatusCallbacks after = cameraStatusCallbacks self ++ [cb] /\
  connected after = true.
Proof.
  intros Hc.
  assert (is_byte 0x1D /\ is_byte 0x05) as [B1 B2] by (unfold is_byte; lia).
  pose proof (send_dji_command_link 0x1D 0x05 start_payload true false env self
                Hc B1 B2) as (L1 & L2 & L3 & _).
  destruct (send_dji_command_returns 0x1D 0x05 start_payload true false env self
              Hc B1 B2) as [resp Hresp].
  unfold subscribeCameraStatus, mbind, M_bind, lift, modify, mret, M_ret.
  rewrite start_payload_packed.
  rewrite (surjective_pairing_result
             (send_dji_command 0x1D 0x05 start_payload true false env self)).
  rewrite Hresp. cbn [fst snd].
  unfold issued. cbn [written cameraStatusCallbacks connected
                       set_cameraStatusCallbacks].
  split; [exists resp; reflexivity|].
  split; [exact L2|]. split; [now rewrite L3 | exact L1].
Qed.

(** [unSubscribeCameraStatus] on a connected object that holds the
    callback: the first occurrence is removed, and the stop command is
    written exactly when nothing is left. *)
Lemma unsubscribe_connected (cb : callback) (env : send_env) (self : Osmo360)
    (rest : list callback) :
  connected self = true ->
  list_remove cb (cameraStatusCallbacks self) = Some rest ->
  let after := fst (unSubscribeCameraStatus cb env self) in
  snd (unSubscribeCameraStatus cb env self) = Ok tt /\
  issued self after (if (length rest =? 0)%nat then [stop_frame] else []) /\
  cameraStatusCallbacks after = rest /\
  connected after = true.
Proof.
  intros Hc Hrm.
  assert (is_byte 0x1D /\ is_byte 0x05) as [B1 B2] by (unfold is_byte; lia).
  unfold unSubscribeCameraStatus, mbind, M_bind, get, raise, lift, modify,
    mret, M_ret.
  rewrite Hrm.
  destruct (length rest =? 0)%nat.
  - rewrite stop_payload_packed.
    set (removed := set_cameraStatusCallbacks rest self).
    assert (connected removed = true) as Hc' by exact Hc.
    pose proof (send_dji_command_link 0x1D 0x05 stop_payload true false env
                  removed Hc' B1 B2) as (L1 & L2 & L3 & _).
    destruct (send_dji_command_returns 0x1D 0x05 stop_payload true false env
                removed Hc' B1 B2) as [resp Hresp].
    rewrite (surjective_pairing_result
               (send_dji_command 0x1D 0x05 stop_payload true false env removed)).
    rewrite Hresp. cbn [fst snd]. unfold issued.
    split; [reflexivity|]. split; [exact L2|]. split; [exact L3 | exact L1].
  - cbn [fst snd]. unfold issued.
    cbn [written cameraStatusCallbacks connected set_cameraStatusCallbacks].
    split; [reflexivity|]. split; [now rewrite app_nil_r|].
    split; [reflexivity | exact Hc].
Qed.

(** Removing an absent callback raises and changes nothing. *)
Lemma unsubscribe_absent (cb : callback) (env : send_env) (self : Osmo360) :
  list_remove cb (cameraStatusCallbacks self) = None ->
  unSubscribeCameraStatus cb env self = (self, Raise (ValueError NotInList)).
Proof.
  intros Hrm.
  unfold unSubscribeCameraStatus, mbind, M_bind, get, raise.
  now rewrite Hrm.
Qed.

Lemma list_remove_head (cb : callback) (rest : list callback) :
  list_remove cb (cb :: rest) = Some rest.
Proof. cbn [list_remove]. now rewrite Nat.eqb_refl. Qed.

(** C3, as the code has it. On a connected object, [subscribeCameraStatus]
    writes the start command on every call, whatever the registry holds,
    and appends the callback; [unSubscribeCameraStatus] removes the
    callback and writes the stop command if and only if the registry is
    empty after the removal. Subscribing two callbacks to an empty registry
    and unsubscribing both writes two start commands, one per subscribe,
    nothing on the first unsubscribe and one stop command on the last. *)
Theorem subscriber_lifecycle :
  (forall cb env self,
     connected self = true ->
     issued self (fst (subscribeCameraStatus cb env self)) [start_frame] /\
     cameraStatusCallbacks (fst (subscribeCameraStatus cb env self))
       = cameraStatusCallbacks self ++ [cb]) /\
  (forall cb env self rest,
     connected self = true ->
     list_remove cb (cameraStatusCallbacks self) = Some rest ->
     cameraStatusCallbacks (fst (unSubscribeCameraStatus cb env self)) = rest /\
     (rest = [] ->
        issued self (fst (unSubscribeCameraStatus cb env self)) [stop_frame]) /\
     (rest <> [] ->
        issued self (fst (unSubscribeCameraStatus cb env self)) [])) /\
  (forall cb1 cb2 e1 e2 e3 e4 self,
     connected self = true ->
     cameraStatusCallbacks self = [] ->
     let s1 := fst (subscribeCameraStatus cb1 e1 self) in
     let s2 := fst (subscribeCameraStatus cb2 e2 s1) in
     let s3 := fst (unSubscribeCameraStatus cb1 e3 s2) in
     let s4 := fst (unSubscribeCameraStatus cb2 e4 s3) in
     issued self s1 [start_frame] /\
     issued s1 s2 [start_frame] /\
     issued s2 s3 [] /\
     issued s3 s4 [stop_frame] /\
     cameraStatusCallbacks s4 = []).
Proof.
  split; [|split].
  - intros cb env self Hc.
    destruct (subscribe_connected cb env self Hc) as (_ & H1 & H2 & _). auto.
  - intros cb env self rest Hc Hrm.
    destruct (unsubscribe_connected cb env self rest Hc Hrm) as (_ & H1 & H2 & _).
    split; [exact H2|].
    split; intros Hrest.
    + rewrite Hrest in H1. exact H1.
    + destruct rest; [contradiction | exact H1].
  - intros cb1 cb2 e1 e2 e3 e4 self Hc Hempty s1 s2 s3 s4.
    destruct (subscribe_connected cb1 e1 self Hc) as (_ & A1 & A2 & A3).
    fold s1 in A1, A2, A3. rewrite Hempty in A2. cbn [app] in A2.
    destruct (subscribe_connected cb2 e2 s1 A3) as (_ & B1 & B2 & B3).
    fold s2 in B1, B2, B3. rewrite A2 in B2. cbn [app] in B2.
    assert (list_remove cb1 (cameraStatusCallbacks s2) = Some [cb2]) as R1
      by (rewrite B2; apply list_remove_head).
    destruct (unsubscribe_connected cb1 e3 s2 [cb2] B3 R1) as (_ & C1 & C2 & C3).
    fold s3 in C1, C2, C3. cbn [length Nat.eqb] in C1.
    assert (list_remove cb2 (cameraStatusCallbacks s3) = Some []) as R2
      by (rewrite C2; apply list_remove_head).
    destruct (unsubscribe_connected cb2 e4 s3 [] C3 R2) as (_ & D1 & D2 & _).
    fold s4 in D1, D2. cbn [length Nat.eqb] in D1.
    auto.
Qed.

Lemma subscriber_lifecycle_witness :
  let s1 := fst (subscribeCameraStatus sample_cb1 silent_env sample_osmo) in
  let s2 := fst (subscribeCameraStatus sample_cb2 silent_env s1) in
  let s3 := fst (unSubscribeCameraStatus sample_cb1 silent_env s2) in
  let s4 := fst (unSubscribeCameraStatus sample_cb2 silent_env s3) in
  issued sample_osmo s1 [start_frame] /\
  issued s1 s2 [start_frame] /\
  issued s2 s3 [] /\
  issued s3 s4 [stop_frame] /\
  cameraStatusCallbacks s4 = [].
Proof.
  apply (proj2 (proj2 subscriber_lifecycle) sample_cb1 sample_cb2
           silent_env silent_env silent_env silent_env sample_osmo).
  - reflexivity.
  - reflexivity.
Defined.

(** C3 as stated fails on the second subscribe: the registry then holds one
    callback, and the start command is written all the same, so that two
    subscribes and two unsubscribes write two start commands and one stop
    command. *)
Lemma second_subscribe_counterexample :
  let s1 := fst (subscribeCameraStatus sample_cb1 silent_env sample_osmo) in
  let s2 := fst (subscribeCameraStatus sample_cb2 silent_env s1) in
  let s3 := fst (unSubscribeCameraStatus sample_cb1 silent_env s2) in
  let s4 := fst (unSubscribeCameraStatus sample_cb2 silent_env s3) in
  cameraStatusCallbacks sample_osmo = [] /\
  written sample_osmo = [] /\
  cameraStatusCallbacks s1 <> [] /\
  written s2 = written s1 ++ [start_frame] /\
  written s4 = [start_frame; start_frame; stop_frame] /\
  start_frame <> stop_frame.
Proof.
  intros s1 s2 s3 s4.
  assert (connected sample_osmo = true) as Hc by reflexivity.
  destruct (subscribe_connected sample_cb1 silent_env sample_osmo Hc)
    as (_ & A1 & A2 & A3).
  fold s1 in A1, A2, A3.
  destruct (subscribe_connected sample_cb2 silent_env s1 A3) as (_ & B1 & B2 & B3).
  fold s2 in B1, B2, B3.
  change (cameraStatusCallbacks sample_osmo) with (@nil callback) in A2.
  cbn [app] in A2. rewrite A2 in B2. cbn [app] in B2.
  assert (list_remove sample_cb1 (cameraStatusCallbacks s2) = Some [sample_cb2])
    as R1 by (rewrite B2; apply list_remove_head).
  destruct (unsubscribe_connected sample_cb1 silent_env s2 [sample_cb2] B3 R1)
    as (_ & C1 & C2 & C3).
  fold s3 in C1, C2, C3. cbn [length Nat.eqb] in C1.
  assert (list_remove sample_cb2 (cameraStatusCallbacks s3) = Some []) as R2
    by (rewrite C2; apply list_remove_head).
  destruct (unsubscribe_connected sample_cb2 silent_env s3 [] C3 R2)
    as (_ & D1 & _).
  fold s4 in D1. cbn [length Nat.eqb] in D1.
  unfold issued in *.
  change (written sample_osmo) with (@nil (list Z)) in A1. cbn [app] in A1.
  split; [reflexivity|]. split; [reflexivity|].
  split; [rewrite A2; discriminate|].
  split; [exact B1|].
  split; [|exact start_stop_differ].
  rewrite D1, C1, B1, A1, app_nil_r. reflexivity.
Qed.

(** ** Pairing handshake *)

Lemma deliver_passed_over (burst : list (list Z)) (self : Osmo360) :
  Forall passed_over burst ->
  last_notification_data (fold_left _notification_handler burst self)
    = last_notification_data self /\
  notification_received (fold_left _notification_handler burst self)
    = notification_received self.
Proof.
  intros H. revert self. induction H as [|buffer rest Hb _ IH]; intros self.
  - auto.
  - cbn [fold_left].
    destruct (handler_passed_over self buffer Hb) as [E1 E2].
    destruct (IH (_notification_handler self buffer)) as [E3 E4].
    split; congruence.
Qed.

(** After a burst, the notification slot holds the last notification of
    the burst. *)
Lemma deliver_last_notification (burst : list (list Z)) (g : frame)
    (self : Osmo360) :
  last_notification burst g ->
  last_notification_data (fold_left _notification_handler burst self) = Some g /\
  notification_received (fold_left _notification_handler burst self) = true.
Proof.
  intros (before & buffer & after & -> & Hp & Hf & Hafter).
  rewrite fold_left_app. cbn [fold_left].
  destruct (handler_notification (fold_left _notification_handler before self)
              buffer g Hp Hf) as (E1 & E2 & _).
  destruct (deliver_passed_over after
              (_notification_handler (fold_left _notification_handler before self)
                 buffer) Hafter) as [E3 E4].
  split; congruence.
Qed.

Lemma wait_notification_timeout (inbound : list (list (list Z))) (self : Osmo360) :
  notification_received self = false ->
  Forall (Forall passed_over) inbound ->
  snd (wait_for notification_received inbound self) = Ok false.
Proof.
  intros Hclear H. revert self Hclear.
  induction H as [|burst rest Hb _ IH]; intros self Hclear.
  - reflexivity.
  - cbn [wait_for].
    destruct (deliver_passed_over burst self Hb) as [_ E].
    rewrite E, Hclear. apply IH. congruence.
Qed.

Lemma wait_notification_woken (pre post : list (list (list Z)))
    (burst : list (list Z)) (g : frame) (self : Osmo360) :
  notification_received self = false ->
  Forall (Forall passed_over) pre ->
  last_notification burst g ->
  wait_for notification_received (pre ++ burst :: post) self
    = wait_for notification_received (pre ++ [burst]) self /\
  snd (wait_for notification_received (pre ++ burst :: post) self) = Ok true /\
  last_notification_data
    (fst (wait_for notification_received (pre ++ burst :: post) self)) = Some g.
Proof.
  intros Hclear H Hlast. revert self Hclear.
  induction H as [|b rest Hb _ IH]; intros self Hclear.
  - cbn [app wait_for].
    destruct (deliver_last_notification burst g self Hlast) as (E1 & E2).
    rewrite E2. cbn [fst snd]. auto.
  - cbn [app wait_for].
    destruct (deliver_passed_over b self Hb) as [_ E].
    rewrite E, Hclear. apply IH. congruence.
Qed.

(** The wait for the camera's request ends without a decision on a frame
    that is not a well-formed request. *)
Lemma approval_decision_none (f : frame) (env : send_env) (self : Osmo360) :
  malformed_approval f ->
  (if is_approval_request f then
     if 29 <=? len (fr_data f) then
       cam_verify_mode ← lift (index (fr_data f) 26);
       if cam_verify_mode =? 2 then
         if from_bytes_little (slice (fr_data f) 27 29) =? 0 then
           ack_payload ← lift (pack_IB4s 0x12345678 0x00 [0; 0; 0; 0]);
           send_dji_command 0x00 0x19 ack_payload true true env;;
           id ← get_device_id;
           mret (Allowed id)
         else
           disconnect_client;;
           mret Denied
       else mret FellThrough
     else mret FellThrough
   else mret FellThrough) self
  = (self, Ok FellThrough).
Proof.
  intros (_ & Hbad).
  destruct (is_approval_request f); [|reflexivity].
  destruct (29 <=? len (fr_data f)) eqn:Hlen; [|reflexivity].
  apply Z.leb_le in Hlen.
  destruct Hbad as [Hbad | [Hbad | Hbad]]; [discriminate | lia |].
  unfold mbind at 1, M_bind at 1, lift at 1.
  rewrite index_ok by (unfold len in Hlen; lia).
  fold (at_ (fr_data f) 26).
  apply Z.eqb_neq in Hbad. rewrite Hbad. reflexivity.
Qed.

(** [await_approval], written out on the outcome of its wait. *)
Lemma await_approval_unfold (inbound : list (list (list Z))) (env : send_env)
    (self : Osmo360) :
  await_approval inbound env self =
    let waited :=
      wait_for notification_received inbound
        (set_notification_received false self) in
    match snd waited with
    | Ok true =>
        match last_notification_data (fst waited) with
        | Some f =>
            (if is_approval_request f then
               if 29 <=? len (fr_data f) then
                 cam_verify_mode ← lift (index (fr_data f) 26);
                 if cam_verify_mode =? 2 then
                   if from_bytes_little (slice (fr_data f) 27 29) =? 0 then
                     ack_payload ← lift (pack_IB4s 0x12345678 0x00 [0; 0; 0; 0]);
                     send_dji_command 0x00 0x19 ack_payload true true env;;
                     id ← get_device_id;
                     mret (Allowed id)
                   else
                     disconnect_client;;
                     mret Denied
                 else mret FellThrough
               else mret FellThrough
             else mret FellThrough) (fst waited)
        | None => (fst waited, Ok FellThrough)
        end
    | Ok false => (fst waited, Ok TimedOut)
    | Raise e => (fst waited, Raise e)
    end.
Proof.
  unfold await_approval.
  unfold mbind at 1, M_bind at 1, modify at 1.
  unfold mbind at 1, M_bind at 1. cbv zeta.
  destruct (wait_for notification_received inbound
              (set_notification_received false self)) as [s [[|]|e]];
    cbn [fst snd]; try reflexivity.
  unfold mbind at 1, M_bind at 1, get at 1.
  destruct (last_notification_data s); reflexivity.
Qed.

(** C4, as the code has it. During the wait for the camera's request,
    buffers that do not decode and frames of type Response are passed over
    and the wait continues; when nothing else arrives before the wait
    expires the attempt ends as timed out. Any other frame ends the wait.
    [connect] then looks once at the notification handled last before it
    resumed, and when that one is not a well-formed request (another
    command, a payload shorter than 29 bytes, or a verification mode other
    than 2) the attempt ends there, unpaired and not as timed out:
    [connect] reaches no [return] statement and gives none, nothing further
    is written, the link is not closed, and what arrives after it has
    resumed is not looked at. *)
Theorem malformed_approval_ends_attempt (pre post : list (list (list Z)))
    (burst : list (list Z)) (f : frame) (env : send_env) (self : Osmo360) :
  Forall (Forall passed_over) pre ->
  last_notification burst f ->
  malformed_approval f ->
  snd (await_approval (pre ++ burst :: post) env self) = Ok FellThrough /\
  returned FellThrough = ReturnNone /\
  await_approval (pre ++ burst :: post) env self
    = await_approval (pre ++ [burst]) env self /\
  same_link self (fst (await_approval (pre ++ burst :: post) env self)) /\
  snd (await_approval pre env self) = Ok TimedOut.
Proof.
  intros Hpre Hlast Hbad.
  set (cleared := set_notification_received false self).
  assert (notification_received cleared = false) as Hclear by reflexivity.
  destruct (wait_notification_woken pre post burst f cleared Hclear Hpre Hlast)
    as (Wsame & Wok & Wlast).
  assert (forall later,
            await_approval (pre ++ burst :: later) env self
            = (fst (wait_for notification_received (pre ++ burst :: later) cleared),
               Ok FellThrough)) as Hout.
  { intros later.
    destruct (wait_notification_woken pre later burst f cleared Hclear Hpre Hlast)
      as (_ & Wok' & Wlast').
    rewrite await_approval_unfold. cbv zeta. fold cleared.
    rewrite Wok', Wlast'. apply approval_decision_none. exact Hbad. }
  split; [now rewrite Hout|].
  split; [reflexivity|].
  split; [now rewrite (Hout post), (Hout []), Wsame|].
  split.
  { rewrite Hout. cbn [fst].
    eapply same_link_trans;
      [|apply (wait_for_same_link notification_received _ cleared)].
    unfold same_link, cleared. cbn. repeat split. }
  rewrite await_approval_unfold. cbv zeta. fold cleared.
  now rewrite (wait_notification_timeout pre cleared Hclear Hpre).
Qed.

Lemma sample_mode1_parsed :
  parse_dji_frame sample_mode1_request = Ok sample_mode1_frame.
Proof. vm_compute. reflexivity. Qed.

Lemma sample_mode1_malformed : malformed_approval sample_mode1_frame.
Proof.
  split.
  - cbn. discriminate.
  - right. right. cbn. discriminate.
Qed.

Lemma sample_accept_passed_over : passed_over sample_accept_response.
Proof. unfold passed_over. vm_compute. reflexivity. Qed.

Lemma sample_mode1_last :
  last_notification [sample_mode2_request; sample_mode1_request; sample_accept_response]
    sample_mode1_frame.
Proof.
  exists [sample_mode2_request], sample_mode1_request, [sample_accept_response].
  split; [reflexivity|]. split; [exact sample_mode1_parsed|].
  split; [discriminate|].
  constructor; [exact sample_accept_passed_over | constructor].
Qed.

Lemma malformed_approval_ends_attempt_witness :
  snd (await_approval
         ([[sample_accept_response]]
            ++ [sample_mode2_request; sample_mode1_request; sample_accept_response]
            :: [[sample_mode2_request]])
         silent_env sample_osmo) = Ok FellThrough /\
  returned FellThrough = ReturnNone /\
  await_approval
    ([[sample_accept_response]]
       ++ [sample_mode2_request; sample_mode1_request; sample_accept_response]
       :: [[sample_mode2_request]])
    silent_env sample_osmo
    = await_approval
        ([[sample_accept_response]]
           ++ [[sample_mode2_request; sample_mode1_request; sample_accept_response]])
        silent_env sample_osmo /\
  same_link sample_osmo
    (fst (await_approval
            ([[sample_accept_response]]
               ++ [sample_mode2_request; sample_mode1_request; sample_accept_response]
               :: [[sample_mode2_request]])
            silent_env sample_osmo)) /\
  snd (await_approval [[sample_accept_response]] silent_env sample_osmo)
    = Ok TimedOut.
Proof.
  apply (malformed_approval_ends_attempt [[sample_accept_response]]
           [[sample_mode2_request]]
           [sample_mode2_request; sample_mode1_request; sample_accept_response]
           sample_mode1_frame silent_env sample_osmo).
  - constructor; [|constructor].
    constructor; [exact sample_accept_passed_over | constructor].
  - exact sample_mode1_last.
  - exact sample_mode1_malformed.
Defined.

(** C4 as stated fails on a request with verification mode 1: the frame is
    for the handshake command, of type Command, with a payload of 29 bytes;
    the wait ends on it, and the attempt ends there with none instead of
    waiting on and timing out. A well-formed request that is handled only
    after [connect] has resumed is not seen, though alone it would have
    paired; one that is handled before [connect] resumes, in the same
    burst, replaces the malformed one and pairs. *)
Lemma mode1_request_counterexample :
  parse_dji_frame sample_mode1_request = Ok sample_mode1_frame /\
  fr_cmd_set sample_mode1_frame = 0x00 /\
  fr_cmd_id sample_mode1_frame = 0x19 /\
  fr_frame_type sample_mode1_frame = 0 /\
  len (fr_data sample_mode1_frame) = 29 /\
  at_ (fr_data sample_mode1_frame) 26 = 1 /\
  snd (await_approval [[sample_mode1_request]] silent_env sample_osmo)
    = Ok FellThrough /\
  snd (await_approval [[sample_mode1_request]] silent_env sample_osmo)
    <> Ok TimedOut /\
  snd (await_approval [[sample_mode1_request]; [sample_mode2_request]]
         silent_env sample_osmo) = Ok FellThrough /\
  snd (await_approval [[sample_mode1_request; sample_mode2_request]]
         silent_env sample_osmo) = Ok (Allowed 0x12345678) /\
  snd (await_approval [[sample_mode2_request]] silent_env sample_osmo)
    = Ok (Allowed 0x12345678) /\
  snd (connect (sample_connect_env [[sample_mode1_request]])
         (Osmo360_new default_local_mac)) = Ok FellThrough.
Proof.
  split; [exact sample_mode1_parsed|].
  do 5 (split; [reflexivity|]).
  assert (snd (await_approval [[sample_mode1_request]] silent_env sample_osmo)
            = Ok FellThrough) as H by (vm_compute; reflexivity).
  split; [exact H|].
  split; [rewrite H; discriminate|].
  split; [vm_compute; reflexivity|].
  split; [vm_compute; reflexivity|].
  split; vm_compute; reflexivity.
Qed.

(** Two complete runs of [connect], from a fresh object: the camera accepts
    the request and approves, and the camera accepts the request and then
    stays silent. *)
Example connect_paired :
  snd (connect (sample_connect_env [[sample_mode2_request]])
         (Osmo360_new default_local_mac)) = Ok (Allowed 0x12345678).
Proof. vm_compute. reflexivity. Qed.

Example connect_timed_out :
  snd (connect (sample_connect_env []) (Osmo360_new default_local_mac))
    = Ok TimedOut.
Proof. vm_compute. reflexivity. Qed.

(* ================================================================== *)
(** * Further properties of the codec *)

#[local] Transparent parse_dji_frame build_dji_frame frame_of parseFromData.

Lemma frame_of_is_bytes cmd_set cmd_id payload is_response ack_type :
  is_byte cmd_set -> is_byte cmd_id -> is_bytes payload ->
  is_bytes (frame_of cmd_set cmd_id payload is_response ack_type).
Proof.
  intros Hs Hi Hp.
  destruct (frame_of_sealed cmd_set cmd_id payload is_response ack_type Hs Hi Hp)
    as (_ & _ & _ & Bh & B16 & Bb & B32 & _).
  change (frame_of cmd_set cmd_id payload is_response ack_type) with
    (let body := cmd_set :: cmd_id :: payload in
     let header := header_of (Z.land (12 + len body + 4) 0x03FF) is_response ack_type in
     header ++ crc16_field header ++ body
       ++ crc32_field header (crc16_field header) body).
  cbv zeta. unfold is_bytes in *.
  repeat (apply Forall_app; split); assumption.
Qed.

Lemma frame_of_parts cmd_set cmd_id payload is_response ack_type :
  frame_of cmd_set cmd_id payload is_response ack_type =
    let body := cmd_set :: cmd_id :: payload in
    let header := header_of (Z.land (12 + len body + 4) 0x03FF) is_response ack_type in
    header ++ crc16_field header ++ body
      ++ crc32_field header (crc16_field header) body.
Proof. reflexivity. Qed.

(** X1. Whenever the two identifiers are bytes, [build_dji_frame] returns a
    frame, whatever the payload length, the frame type and the
    acknowledgment type: a byte sequence of 18 bytes more than the payload
    that starts with 0xAA, holds at offsets 10 and 11 the CRC16 of its first
    ten bytes, and ends with the CRC32 of everything before its last four
    bytes. *)
Theorem build_dji_frame_well_formed cmd_set cmd_id payload is_response ack_type :
  is_byte cmd_set -> is_byte cmd_id -> is_bytes payload ->
  exists bytes,
    build_dji_frame cmd_set cmd_id payload is_response ack_type = Ok bytes /\
    len bytes = 18 + len payload /\
    is_bytes bytes /\
    bytes !! 0%nat = Some 0xAA /\
    from_bytes_little (slice bytes 10 12)
      = _ccrc16 (slice bytes 0 10) _ccrc16_init /\
    from_bytes_little (slice bytes (length bytes - 4) (length bytes))
      = _ccrc32 (slice bytes 0 (length bytes - 4)) _ccrc32_init.
Proof.
  intros Hs Hi Hp.
  exists (frame_of cmd_set cmd_id payload is_response ack_type).
  split; [apply build_dji_frame_ok; assumption|].
  split; [apply frame_of_len|].
  split; [apply frame_of_is_bytes; assumption|].
  split; [reflexivity|].
  pose proof (frame_of_len cmd_set cmd_id payload is_response ack_type) as Hlen.
  rewrite frame_of_parts in *. cbv zeta in *.
  set (body := cmd_set :: cmd_id :: payload) in *.
  set (header := header_of _ is_response ack_type) in *.
  assert (length header = 10%nat) as Hh by apply header_of_length.
  assert (length (crc16_field header) = 2%nat) as H16
    by apply crc16_field_length.
  assert (length (crc32_field header (crc16_field header) body) = 4%nat) as H32
    by apply crc32_field_length.
  assert (length (header ++ crc16_field header ++ body
                    ++ crc32_field header (crc16_field header) body)
          = (length (header ++ crc16_field header ++ body) + 4)%nat) as Htotal
    by (rewrite !length_app; lia).
  split.
  - rewrite slice_prefix by lia.
    rewrite slice_middle by lia.
    apply crc16_field_value.
  - rewrite Htotal.
    replace (length (header ++ crc16_field header ++ body) + 4 - 4)%nat
      with (length (header ++ crc16_field header ++ body)) by lia.
    assert (header ++ crc16_field header ++ body
              ++ crc32_field header (crc16_field header) body
            = (header ++ crc16_field header ++ body)
                ++ crc32_field header (crc16_field header) body) as ->
      by (now rewrite <- !app_assoc).
    rewrite slice_prefix by reflexivity.
    rewrite slice_suffix by (rewrite ?H32; reflexivity).
    apply crc32_field_value.
Qed.

Lemma build_dji_frame_well_formed_witness :
  exists bytes,
    build_dji_frame 0x1D 0x04 [1; 2; 3; 4; 5] false 1 = Ok bytes /\
    len bytes = 18 + len [1; 2; 3; 4; 5] /\
    is_bytes bytes /\
    bytes !! 0%nat = Some 0xAA /\
    from_bytes_little (slice bytes 10 12)
      = _ccrc16 (slice bytes 0 10) _ccrc16_init /\
    from_bytes_little (slice bytes (length bytes - 4) (length bytes))
      = _ccrc32 (slice bytes 0 (length bytes - 4)) _ccrc32_init.
Proof.
  apply (build_dji_frame_well_formed 0x1D 0x04 [1; 2; 3; 4; 5] false 1).
  - unfold is_byte. lia.
  - unfold is_byte. lia.
  - unfold is_bytes, is_byte. repeat (constructor; [lia|]). constructor.
Defined.

(** X2. [build_dji_frame] raises [ValueError] when the command set or the
    command id is not in [range(256)]; no frame is produced. *)
Theorem build_dji_frame_rejects_ids cmd_set cmd_id payload is_response ack_type :
  ~ (is_byte cmd_set /\ is_byte cmd_id) ->
  build_dji_frame cmd_set cmd_id payload is_response ack_type
    = Raise (ValueError BytesOutOfRange).
Proof.
  intros Hbad. unfold build_dji_frame.
  assert (py_bytes [cmd_set; cmd_id] = Raise (ValueError BytesOutOfRange)) as ->.
  { unfold py_bytes.
    destruct (forallb is_byteb [cmd_set; cmd_id]) eqn:Hf; [|reflexivity].
    exfalso. apply Hbad. cbn [forallb] in Hf.
    unfold is_byteb, is_byte in *. lia. }
  apply bind_raise.
Qed.

Lemma build_dji_frame_rejects_ids_witness :
  build_dji_frame 256 0x04 [1; 2; 3] false 1 = Raise (ValueError BytesOutOfRange).
Proof.
  apply (build_dji_frame_rejects_ids 256 0x04 [1; 2; 3] false 1).
  unfold is_byte. lia.
Defined.

(** X3. A payload of more than 1005 bytes does not fit the 10-bit length
    field: [build_dji_frame] still returns a frame, with the length
    truncated, and [parse_dji_frame] refuses that frame with the length
    mismatch error. *)
Theorem overlong_payload_not_decodable cmd_set cmd_id payload is_response ack_type :
  is_byte cmd_set -> is_byte cmd_id ->
  1005 < len payload ->
  exists bytes,
    build_dji_frame cmd_set cmd_id payload is_response ack_type = Ok bytes /\
    len bytes = 18 + len payload /\
    parse_dji_frame bytes = Raise (ValueError LengthMismatch).
Proof.
  intros Hs Hi Hlong.
  destruct (encode_overlong_rejected cmd_set cmd_id payload is_response ack_type
              Hs Hi ltac:(lia)) as (bytes & Hb & Hp).
  exists bytes. split; [exact Hb|]. split; [|exact Hp].
  rewrite build_dji_frame_ok in Hb by assumption.
  injection Hb as <-. apply frame_of_len.
Qed.

Lemma overlong_payload_not_decodable_witness :
  exists bytes,
    build_dji_frame 0x1D 0x04 (repeat 0 1006) false 1 = Ok bytes /\
    len bytes = 18 + len (repeat 0 1006) /\
    parse_dji_frame bytes = Raise (ValueError LengthMismatch).
Proof.
  apply (overlong_payload_not_decodable 0x1D 0x04 (repeat 0 1006) false 1).
  - unfold is_byte. lia.
  - unfold is_byte. lia.
  - unfold len. rewrite repeat_length. lia.
Defined.

(** X4. The frame decoded from a built frame of a valid tuple has version 0,
    encryption byte 0 and sequence number 1 whatever was sent before, the
    total length 18 + len(payload), and as acknowledgment type the low five
    bits of the one given to the encoder. *)
Theorem decoded_fixed_fields cmd_set cmd_id payload is_response ack_type :
  valid_args cmd_set cmd_id payload ->
  exists f,
    parse_dji_frame (frame_of cmd_set cmd_id payload is_response ack_type) = Ok f /\
    fr_version f = 0 /\ fr_enc f = 0 /\ fr_seq f = 1 /\
    fr_length f = 18 + len payload /\
    fr_ack_type f = Z.land ack_type 0x1F /\
    (0 <= ack_type < 32 -> fr_ack_type f = ack_type).
Proof.
  intros Hv. eexists. split; [apply parse_frame_of; exact Hv|].
  cbn [fr_version fr_enc fr_seq fr_length fr_ack_type].
  repeat split.
  intros Hr. apply (land_ones_small ack_type 5); [lia | exact Hr].
Qed.

Lemma decoded_fixed_fields_witness :
  exists f,
    parse_dji_frame (frame_of 0x1D 0x04 [1; 2; 3; 4; 5] false 33) = Ok f /\
    fr_version f = 0 /\ fr_enc f = 0 /\ fr_seq f = 1 /\
    fr_length f = 18 + len [1; 2; 3; 4; 5] /\
    fr_ack_type f = Z.land 33 0x1F /\
    (0 <= 33 < 32 -> fr_ack_type f = 33).
Proof.
  apply (decoded_fixed_fields 0x1D 0x04 [1; 2; 3; 4; 5] false 33).
  unfold valid_args, is_bytes, is_byte, len. cbn [length].
  repeat split; try lia.
  repeat (constructor; [lia|]). constructor.
Defined.

(** X5. Both checksums detect every change of a single byte: replacing one
    byte of the input by a different byte changes the CRC16 and changes the
    CRC32, wherever the byte is and whatever the rest of the input. *)
Theorem checksums_detect_byte_change (input : list Z) (i : nat) (b b' : Z) :
  input !! i = Some b -> is_byte b -> is_byte b' -> b' <> b ->
  _ccrc16 (<[i:=b']> input) _ccrc16_init <> _ccrc16 input _ccrc16_init /\
  _ccrc32 (<[i:=b']> input) _ccrc32_init <> _ccrc32 input _ccrc32_init.
Proof.
  intros Hi Hb Hb' Hne.
  split; [eapply _ccrc16_insert | eapply _ccrc32_insert]; eassumption.
Qed.

Lemma checksums_detect_byte_change_witness :
  _ccrc16 (<[2%nat:=9]> [1; 2; 3; 4]) _ccrc16_init
    <> _ccrc16 [1; 2; 3; 4] _ccrc16_init /\
  _ccrc32 (<[2%nat:=9]> [1; 2; 3; 4]) _ccrc32_init
    <> _ccrc32 [1; 2; 3; 4] _ccrc32_init.
Proof.
  apply (checksums_detect_byte_change [1; 2; 3; 4] 2 3 9).
  - reflexivity.
  - unfold is_byte. lia.
  - unfold is_byte. lia.
  - lia.
Defined.

(** *** What an accepted buffer looks like *)

(** A buffer of at least 16 bytes, cut where [parse_dji_frame] cuts it. *)
Lemma buffer_cut (buffer : list Z) :
  (16 <= length buffer)%nat ->
  buffer = take 10 buffer ++ slice buffer 10 12
             ++ slice buffer 12 (length buffer - 4)
             ++ drop (length buffer - 4) buffer.
Proof.
  intros Hn. unfold slice.
  rewrite <- (take_drop 10 buffer) at 1. f_equal.
  rewrite <- (take_drop 2 (drop 10 buffer)) at 1.
  change (12 - 10)%nat with 2%nat. f_equal.
  rewrite drop_drop. change (10 + 2)%nat with 12%nat.
  rewrite <- (take_drop (length buffer - 4 - 12) (drop 12 buffer)) at 1.
  f_equal. rewrite drop_drop. f_equal. lia.
Qed.

Lemma at_take_drop (l : list Z) (a k i : nat) :
  (i < k)%nat -> at_ (take k (drop a l)) i = at_ l (a + i).
Proof.
  intros H. unfold at_. rewrite !nth_lookup.
  now rewrite lookup_take_lt, lookup_drop by exact H.
Qed.

Lemma drop_slice {A} (l : list A) (a b k : nat) :
  drop k (slice l a b) = slice l (a + k) b.
Proof.
  unfold slice.
  destruct (decide (a + k <= b)%nat) as [H|H].
  - rewrite (take_drop_commute l (b - a) a), drop_drop.
    rewrite (take_drop_commute l (b - (a + k)) (a + k)).
    do 2 f_equal. lia.
  - replace (b - (a + k))%nat with 0%nat by lia. rewrite take_0.
    apply drop_ge. rewrite length_take. lia.
Qed.

(** What [parse_dji_frame] has checked and read when it returns a frame. *)
Lemma accepted_buffer_facts (buffer : list Z) (f : frame) :
  parse_dji_frame buffer = Ok f ->
  18 <= len buffer <= 1023 /\
  at_ buffer 0 = 0xAA /\
  fr_length f = len buffer /\
  declared_length buffer = len buffer /\
  from_bytes_little (slice buffer 10 12) = _ccrc16 (take 10 buffer) _ccrc16_init /\
  from_bytes_little (drop (length buffer - 4) buffer)
    = _ccrc32 (take (length buffer - 4) buffer) _ccrc32_init /\
  fr_crc16 f = from_bytes_little (slice buffer 10 12) /\
  fr_crc32 f = from_bytes_little (drop (length buffer - 4) buffer) /\
  fr_cmd_set f = at_ buffer 12 /\
  fr_cmd_id f = at_ buffer 13 /\
  fr_data f = slice buffer 14 (length buffer - 4) /\
  len (fr_data f) = len buffer - 18 /\
  (fr_frame_type f = 0 \/ fr_frame_type f = 1) /\
  0 <= fr_ack_type f < 32 /\
  0 <= fr_version f < 64.
Proof.
  intros Hparse.
  assert (16 <= length buffer)%nat as Hn.
  { unfold parse_dji_frame in Hparse.
    destruct (len buffer <? 16) eqn:E; [discriminate|].
    apply Z.ltb_ge in E. unfold len in E. lia. }
  pose proof (buffer_cut buffer Hn) as Hcut.
  set (header := take 10 buffer) in *.
  set (crc16 := slice buffer 10 12) in *.
  set (body := slice buffer 12 (length buffer - 4)) in *.
  set (crc32 := drop (length buffer - 4) buffer) in *.
  assert (length header = 10%nat) as Hh
    by (unfold header; rewrite length_take; lia).
  assert (length crc16 = 2%nat) as H16
    by (unfold crc16; rewrite slice_length; lia).
  assert (length crc32 = 4%nat) as H32
    by (unfold crc32; rewrite length_drop; lia).
  assert (length body = (length buffer - 16)%nat) as Hb
    by (unfold body; rewrite slice_length; lia).
  assert (declared_length buffer = declared_length header) as Hdecl.
  { unfold declared_length. rewrite Hcut at 1.
    now rewrite slice_app_l by lia. }
  assert (take (length buffer - 4) buffer = header ++ crc16 ++ body) as Htake.
  { rewrite Hcut at 2.
    replace (header ++ crc16 ++ body ++ crc32)
      with ((header ++ crc16 ++ body) ++ crc32) by (now rewrite <- !app_assoc).
    apply take_app_length'. rewrite !length_app. lia. }
  rewrite Hcut in Hparse at 1.
  rewrite parse_dji_frame_parts in Hparse by assumption.
  unfold parse_parts in Hparse. rewrite <- Hcut in Hparse.
  fold (declared_length header) in Hparse.
  destruct (at_ header 0 =? 0xAA) eqn:Esof; [|discriminate].
  destruct (len buffer =? declared_length header) eqn:Elen; [|discriminate].
  destruct (_ccrc16 header _ccrc16_init =? from_bytes_little crc16) eqn:E16;
    [|discriminate].
  destruct (_ccrc32 (header ++ crc16 ++ body) _ccrc32_init
              =? from_bytes_little crc32) eqn:E32; [|discriminate].
  destruct (len body <? 2) eqn:Ebody; [discriminate|].
  cbn [negb] in Hparse. injection Hparse as <-.
  apply Z.eqb_eq in Esof, Elen, E16, E32. apply Z.ltb_ge in Ebody.
  cbn [fr_length fr_crc16 fr_crc32 fr_cmd_set fr_cmd_id fr_data fr_frame_type
       fr_ack_type fr_version].
  assert (0 <= declared_length header < 1024) as Hrange
    by (unfold declared_length; apply (land_ones_range _ 10); lia).
  assert (2 <= length body)%nat as Hb2 by (unfold len in Ebody; lia).
  split; [unfold len in *; lia|].
  split; [unfold header in Esof; rewrite <- Esof; symmetry;
          apply (at_take_drop buffer 0 10 0); lia|].
  split; [fold (declared_length header); congruence|].
  split; [congruence|].
  split; [congruence|].
  split; [rewrite Htake; congruence|].
  split; [reflexivity|]. split; [reflexivity|].
  split; [apply (at_take_drop buffer 12 _ 0); lia|].
  split; [apply (at_take_drop buffer 12 _ 1); lia|].
  split; [apply (drop_slice buffer 12 _ 2)|].
  split.
  { change (len (drop 2 body) = len buffer - 18).
    unfold len in *. rewrite length_drop. lia. }
  split.
  { pose proof (Z.land_ones (Z.shiftr (at_ header 3) 5) 1 ltac:(lia)) as Hl.
    change (Z.ones 1) with 1 in Hl. change (2 ^ 1) with 2 in Hl.
    pose proof (Z.mod_pos_bound (Z.shiftr (at_ header 3) 5) 2 ltac:(lia)). lia. }
  split.
  - apply (land_ones_range _ 5). lia.
  - apply (land_ones_range _ 6). lia.
Qed.

(** X6. A buffer that [parse_dji_frame] accepts is a complete frame: between
    18 and 1023 bytes long, starting with 0xAA, declaring its own length,
    carrying the CRC16 of its first ten bytes at offsets 10 and 11 and the
    CRC32 of all but its last four bytes in those four; the decoded command
    set, command id and payload are bytes 12, 13 and 14 onwards, the frame
    type is 0 or 1, the acknowledgment type is below 32 and the version
    below 64. *)
Theorem accepted_buffer_is_frame (buffer : list Z) (f : frame) :
  parse_dji_frame buffer = Ok f ->
  18 <= len buffer <= 1023 /\
  at_ buffer 0 = 0xAA /\
  fr_length f = len buffer /\
  declared_length buffer = len buffer /\
  from_bytes_little (slice buffer 10 12) = _ccrc16 (take 10 buffer) _ccrc16_init /\
  from_bytes_little (drop (length buffer - 4) buffer)
    = _ccrc32 (take (length buffer - 4) buffer) _ccrc32_init /\
  fr_crc16 f = from_bytes_little (slice buffer 10 12) /\
  fr_crc32 f = from_bytes_little (drop (length buffer - 4) buffer) /\
  fr_cmd_set f = at_ buffer 12 /\
  fr_cmd_id f = at_ buffer 13 /\
  fr_data f = slice buffer 14 (length buffer - 4) /\
  len (fr_data f) = len buffer - 18 /\
  (fr_frame_type f = 0 \/ fr_frame_type f = 1) /\
  0 <= fr_ack_type f < 32 /\
  0 <= fr_version f < 64.
Proof. exact (accepted_buffer_facts buffer f). Qed.

Lemma sample_frame_parsed : parse_dji_frame sample_frame = Ok sample_frame_decoded.
Proof. vm_compute. reflexivity. Qed.

Lemma accepted_buffer_is_frame_witness :
  18 <= len sample_frame <= 1023 /\
  at_ sample_frame 0 = 0xAA /\
  fr_length sample_frame_decoded = len sample_frame /\
  declared_length sample_frame = len sample_frame /\
  from_bytes_little (slice sample_frame 10 12)
    = _ccrc16 (take 10 sample_frame) _ccrc16_init /\
  from_bytes_little (drop (length sample_frame - 4) sample_frame)
    = _ccrc32 (take (length sample_frame - 4) sample_frame) _ccrc32_init /\
  fr_crc16 sample_frame_decoded = from_bytes_little (slice sample_frame 10 12) /\
  fr_crc32 sample_frame_decoded
    = from_bytes_little (drop (length sample_frame - 4) sample_frame) /\
  fr_cmd_set sample_frame_decoded = at_ sample_frame 12 /\
  fr_cmd_id sample_frame_decoded = at_ sample_frame 13 /\
  fr_data sample_frame_decoded = slice sample_frame 14 (length sample_frame - 4) /\
  len (fr_data sample_frame_decoded) = len sample_frame - 18 /\
  (fr_frame_type sample_frame_decoded = 0 \/ fr_frame_type sample_frame_decoded = 1) /\
  0 <= fr_ack_type sample_frame_decoded < 32 /\
  0 <= fr_version sample_frame_decoded < 64.
Proof.
  apply (accepted_buffer_is_frame sample_frame sample_frame_decoded).
  exact sample_frame_parsed.
Defined.

Lemma parse_dji_frame_length_check (buffer : list Z) :
  (16 <= length buffer)%nat ->
  at_ buffer 0 = 0xAA ->
  len buffer <> declared_length buffer ->
  parse_dji_frame buffer = Raise (ValueError LengthMismatch).
Proof.
  intros Hn Hsof Hlen. unfold parse_dji_frame. cbv zeta.
  fold (declared_length buffer).
  assert ((len buffer <? 16) = false) as ->
    by (apply Z.ltb_ge; unfold len; lia).
  rewrite Hsof. apply Z.eqb_neq in Hlen. rewrite Hlen. reflexivity.
Qed.

Lemma parse_dji_frame_too_short (buffer : list Z) :
  (length buffer < 16)%nat ->
  parse_dji_frame buffer = Raise (ValueError TooShort).
Proof.
  intros Hn. unfold parse_dji_frame.
  assert ((len buffer <? 16) = true) as ->
    by (apply Z.ltb_lt; unfold len; lia).
  reflexivity.
Qed.

(** X7. Frames are delimited by their own length field: when a buffer is
    accepted, the same buffer followed by any further bytes is refused with
    the length mismatch error, and so is each of its proper prefixes, with
    the too-short error below 16 bytes and the length mismatch error from 16
    bytes on. So a buffer that holds a frame and more after it is refused
    as a whole, and so is the leading part of a frame that was cut short.
    Nothing is said of the part that was cut off. *)
Theorem accepted_buffer_exact_length (buffer : list Z) (f : frame) :
  parse_dji_frame buffer = Ok f ->
  (forall extra, extra <> [] ->
     parse_dji_frame (buffer ++ extra) = Raise (ValueError LengthMismatch)) /\
  (forall n, (n < 16)%nat ->
     parse_dji_frame (take n buffer) = Raise (ValueError TooShort)) /\
  (forall n, (16 <= n < length buffer)%nat ->
     parse_dji_frame (take n buffer) = Raise (ValueError LengthMismatch)).
Proof.
  intros Hparse.
  destruct (accepted_buffer_facts buffer f Hparse)
    as (Hn & Hsof & _ & Hdecl & _).
  assert (18 <= length buffer)%nat as Hn' by (unfold len in Hn; lia).
  split; [|split].
  - intros extra Hextra. apply parse_dji_frame_length_check.
    + rewrite length_app. lia.
    + rewrite at_app_l by lia. exact Hsof.
    + unfold declared_length in *. rewrite slice_app_l by lia.
      rewrite Hdecl, len_app.
      destruct extra; [contradiction|]. unfold len. cbn [length]. lia.
  - intros n Hlt. apply parse_dji_frame_too_short.
    rewrite length_take. lia.
  - intros n [Hge Hlt].
    assert (length (take n buffer) = n) as Hlen by (rewrite length_take; lia).
    apply parse_dji_frame_length_check.
    + lia.
    + rewrite <- Hsof. apply (at_take_drop buffer 0 n 0). lia.
    + unfold declared_length in *.
      assert (slice (take n buffer) 1 3 = slice buffer 1 3) as ->.
      { unfold slice. rewrite <- (take_drop n buffer) at 2.
        rewrite drop_app_le by (rewrite length_take; lia).
        rewrite take_app_le by (rewrite length_drop, length_take; lia).
        reflexivity. }
      rewrite Hdecl. unfold len. lia.
Qed.

Lemma accepted_buffer_exact_length_witness :
  (forall extra, extra <> [] ->
     parse_dji_frame (sample_frame ++ extra) = Raise (ValueError LengthMismatch)) /\
  (forall n, (n < 16)%nat ->
     parse_dji_frame (take n sample_frame) = Raise (ValueError TooShort)) /\
  (forall n, (16 <= n < length sample_frame)%nat ->
     parse_dji_frame (take n sample_frame) = Raise (ValueError LengthMismatch)).
Proof.
  apply (accepted_buffer_exact_length sample_frame sample_frame_decoded).
  exact sample_frame_parsed.
Defined.

(** *** Encoding what was decoded *)

Lemma bytes_of_value (bs : list Z) :
  is_bytes bs -> little_bytes (length bs) (from_bytes_little bs) = bs.
Proof.
  intros Hb. apply from_bytes_little_inj.
  - apply little_bytes_is_bytes.
  - exact Hb.
  - apply little_bytes_length.
  - apply from_little_bytes. apply from_bytes_little_range. exact Hb.
Qed.

Lemma cmd_type_canonical (x : Z) :
  0 <= x < 64 ->
  cmd_type_of (Z.land (Z.shiftr x 5) 0x01 =? 1) (Z.land x 0x1F) = x.
Proof.
  intros Hx.
  assert (forallb (fun n =>
            cmd_type_of (Z.land (Z.shiftr (Z.of_nat n) 5) 0x01 =? 1)
                        (Z.land (Z.of_nat n) 0x1F) =? Z.of_nat n)
            (seq 0 64) = true) as Hall by (vm_compute; reflexivity).
  rewrite forallb_forall in Hall.
  specialize (Hall (Z.to_nat x)). rewrite Z2Nat.id in Hall by lia.
  apply Z.eqb_eq, Hall, in_seq. lia.
Qed.

(** A ten-byte header with the start byte, no version bits, no reserved
    bits and sequence number 1 is the header the encoder writes. *)
Lemma header_canonical (header : list Z) :
  length header = 10%nat -> is_bytes header ->
  at_ header 0 = 0xAA ->
  from_bytes_little (slice header 1 3) < 1024 ->
  at_ header 3 < 64 ->
  slice header 4 10 = [0; 0; 0; 0; 1; 0] ->
  header = header_of (from_bytes_little (slice header 1 3))
             (Z.land (Z.shiftr (at_ header 3) 5) 0x01 =? 1)
             (Z.land (at_ header 3) 0x1F).
Proof.
  intros Hlen Hb Hsof Hvl Hct Hrest.
  do 10 (destruct header as [|? header]; [discriminate|]).
  destruct header; [|discriminate].
  cbn [at_ nth] in *.
  change (slice [z; z0; z1; z2; z3; z4; z5; z6; z7; z8] 1 3) with [z0; z1] in *.
  change (slice [z; z0; z1; z2; z3; z4; z5; z6; z7; z8] 4 10)
    with [z3; z4; z5; z6; z7; z8] in Hrest.
  injection Hrest as -> -> -> -> -> ->. subst z.
  unfold is_bytes in Hb.
  repeat match goal with
         | H : Forall _ (_ :: _) |- _ => inversion H; clear H; subst
         end.
  unfold is_byte in *.
  unfold header_of. rewrite cmd_type_canonical by lia.
  pose proof (bytes_of_value [z0; z1]) as Hv.
  set (v := from_bytes_little [z0; z1]) in *.
  cbn [length little_bytes] in Hv.
  assert (is_bytes [z0; z1]) as Hb01
    by (repeat (constructor; [assumption|]); constructor).
  specialize (Hv Hb01). injection Hv as Hv0 Hv1.
  rewrite Hv0, Hv1. reflexivity.
Qed.

Lemma accepted_header_fields (buffer : list Z) (f : frame) :
  parse_dji_frame buffer = Ok f ->
  fr_version f = Z.land (Z.shiftr (from_bytes_little (slice buffer 1 3)) 10) 0x3F /\
  fr_frame_type f = Z.land (Z.shiftr (at_ buffer 3) 5) 0x01 /\
  fr_ack_type f = Z.land (at_ buffer 3) 0x1F /\
  fr_enc f = at_ buffer 4 /\
  fr_seq f = from_bytes_little (slice buffer 8 10).
Proof.
  unfold parse_dji_frame. cbv zeta.
  destruct (len buffer <? 16); [discriminate|].
  destruct (negb (at_ buffer 0 =? 0xAA)); [discriminate|].
  destruct (negb (len buffer =? _)); [discriminate|].
  destruct (negb (_ccrc16 _ _ =? _)); [discriminate|].
  destruct (negb (_ccrc32 _ _ =? _)); [discriminate|].
  destruct (len _ <? 2); [discriminate|].
  intros [= <-]. repeat split.
Qed.

Lemma is_bytes_at (l : list Z) (i : nat) :
  is_bytes l -> (i < length l)%nat -> is_byte (at_ l i).
Proof.
  intros Hb Hi. unfold at_.
  destruct (nth_lookup_or_length l i 0) as [H|H]; [|lia].
  exact (Forall_lookup_1 is_byte _ _ _ Hb H).
Qed.

Lemma slice_uncons2 (l : list Z) (a b : nat) :
  (a + 2 <= b <= length l)%nat ->
  slice l a b = at_ l a :: at_ l (a + 1) :: slice l (a + 2) b.
Proof.
  intros H.
  assert (length (slice l a b) = (b - a)%nat) as Hlen
    by (apply slice_length; lia).
  rewrite <- (drop_slice l a b 2).
  destruct (slice l a b) as [|x [|y rest]] eqn:E; cbn [length] in Hlen; try lia.
  assert (at_ (slice l a b) 0 = at_ l (a + 0) /\
          at_ (slice l a b) 1 = at_ l (a + 1)) as [H0 H1]
    by (split; apply at_take_drop; lia).
  rewrite E in H0, H1. cbn [at_ nth] in H0, H1.
  rewrite Nat.add_0_r in H0. subst x y. reflexivity.
Qed.

(** X8. Encoding what was decoded gives back the buffer. When a byte
    buffer is accepted and is in the form the encoder writes (version 0, no
    reserved bit set in the command type byte, bytes 4 to 9 equal to
    0, 0, 0, 0, 1, 0), [build_dji_frame] applied to the decoded command set,
    command id, payload, frame type and acknowledgment type returns exactly
    that buffer. With the round trip of the other direction, the encoder and
    the decoder are inverse to each other on such frames. *)
Theorem reencode_accepted_buffer (buffer : list Z) (f : frame) :
  is_bytes buffer ->
  parse_dji_frame buffer = Ok f ->
  fr_version f = 0 ->
  at_ buffer 3 < 64 ->
  slice buffer 4 10 = [0; 0; 0; 0; 1; 0] ->
  build_dji_frame (fr_cmd_set f) (fr_cmd_id f) (fr_data f)
    (fr_frame_type f =? 1) (fr_ack_type f) = Ok buffer.
Proof.
  intros Hb Hparse Hver Hct Hrest.
  destruct (accepted_buffer_facts buffer f Hparse)
    as (Hn & Hsof & _ & Hdecl & H16 & H32 & _ & _ & Hcs & Hci & Hdata & _).
  destruct (accepted_header_fields buffer f Hparse) as (Ev & Et & Ea & _).
  assert (18 <= length buffer <= 1023)%nat as Hn' by (unfold len in Hn; lia).
  rewrite Hcs, Hci, Hdata, Et, Ea.
  rewrite build_dji_frame_ok by (apply is_bytes_at; [exact Hb | lia]).
  f_equal. rewrite frame_of_parts. cbv zeta.
  pose proof (slice_uncons2 buffer 12 (length buffer - 4) ltac:(lia)) as Hbody.
  change (12 + 1)%nat with 13%nat in Hbody.
  change (12 + 2)%nat with 14%nat in Hbody.
  rewrite <- Hbody. clear Hbody.
  pose proof (buffer_cut buffer ltac:(lia)) as Hcut.
  assert (Forall is_byte (take 10 buffer) /\
          Forall is_byte (slice buffer 10 12) /\
          Forall is_byte (drop (length buffer - 4) buffer)) as (Bh & B16 & B32).
  { unfold slice. repeat split;
      auto using Forall_take, Forall_drop. }
  set (header := take 10 buffer) in *.
  set (crc16 := slice buffer 10 12) in *.
  set (body := slice buffer 12 (length buffer - 4)) in *.
  set (crc32 := drop (length buffer - 4) buffer) in *.
  assert (length header = 10%nat) as Hh
    by (unfold header; rewrite length_take; lia).
  assert (length crc16 = 2%nat) as L16
    by (unfold crc16; rewrite slice_length; lia).
  assert (length crc32 = 4%nat) as L32
    by (unfold crc32; rewrite length_drop; lia).
  assert (length body = (length buffer - 16)%nat) as Lb
    by (unfold body; rewrite slice_length; lia).
  assert (12 + len body + 4 = len buffer) as Htotal by (unfold len; lia).
  assert (slice header 1 3 = slice buffer 1 3 /\
          slice header 4 10 = slice buffer 4 10 /\
          at_ header 0 = at_ buffer 0 /\
          at_ header 3 = at_ buffer 3) as (S13 & S410 & A0 & A3).
  { rewrite Hcut.
    rewrite !(slice_app_l header), !(at_app_l header) by lia. auto. }
  assert (from_bytes_little (slice buffer 1 3) = len buffer) as Hvl.
  { unfold declared_length in Hdecl.
    assert (is_bytes (slice buffer 1 3)) as Hb13
      by (unfold slice, is_bytes; auto using Forall_take, Forall_drop).
    pose proof (from_bytes_little_range (slice buffer 1 3) Hb13) as Hr.
    unfold len in Hr. rewrite slice_length in Hr by lia.
    change (2 ^ (8 * Z.of_nat (3 - 1))) with 65536 in Hr.
    rewrite Hver in Ev. symmetry in Ev.
    change 0x3F with (Z.ones 6) in Ev. change 0x3FF with (Z.ones 10) in Hdecl.
    rewrite Z.land_ones in Ev, Hdecl by lia.
    rewrite Z.shiftr_div_pow2 in Ev by lia.
    change (2 ^ 10) with 1024 in *. change (2 ^ 6) with 64 in Ev.
    set (vl := from_bytes_little (slice buffer 1 3)) in *.
    assert (0 <= vl / 1024 < 64)
      by (split; [apply Z.div_pos; lia | apply Z.div_lt_upper_bound; lia]).
    rewrite Z.mod_small in Ev by lia.
    pose proof (Z.div_mod vl 1024 ltac:(lia)). lia. }
  rewrite Htotal, land_3FF_small by lia.
  assert (header_of (len buffer)
            (Z.land (Z.shiftr (at_ buffer 3) 5) 0x01 =? 1)
            (Z.land (at_ buffer 3) 0x1F) = header) as ->.
  { rewrite <- Hvl, <- S13, <- A3. symmetry.
    apply header_canonical; try assumption.
    - congruence.
    - rewrite S13, Hvl. lia.
    - congruence.
    - congruence. }
  assert (crc16_field header = crc16) as ->.
  { unfold crc16_field. rewrite <- H16, <- L16. apply bytes_of_value, B16. }
  assert (crc32_field header crc16 body = crc32) as ->.
  { unfold crc32_field.
    assert (take (length buffer - 4) buffer = header ++ crc16 ++ body) as Htake.
    { rewrite Hcut at 2.
      replace (header ++ crc16 ++ body ++ crc32)
        with ((header ++ crc16 ++ body) ++ crc32) by (now rewrite <- !app_assoc).
      apply take_app_length'. rewrite !length_app. lia. }
    rewrite <- Htake, <- H32, <- L32. apply bytes_of_value, B32. }
  symmetry. exact Hcut.
Qed.

Lemma sample_frame_is_bytes : is_bytes sample_frame.
Proof.
  unfold is_bytes, sample_frame, is_byte.
  repeat (constructor; [lia|]). constructor.
Qed.

Lemma reencode_accepted_buffer_witness :
  build_dji_frame (fr_cmd_set sample_frame_decoded) (fr_cmd_id sample_frame_decoded)
    (fr_data sample_frame_decoded) (fr_frame_type sample_frame_decoded =? 1)
    (fr_ack_type sample_frame_decoded) = Ok sample_frame.
Proof.
  apply (reencode_accepted_buffer sample_frame sample_frame_decoded).
  - exact sample_frame_is_bytes.
  - exact sample_frame_parsed.
  - reflexivity.
  - cbn. lia.
  - reflexivity.
Defined.

(* ================================================================== *)
(** * Further properties of the camera status *)

(** X9. In each of the nine enumerations the raw value identifies the
    member: calling the class on the value of a member gives that member
    back, [UNKNOWN] included, and two members with the same value are the
    same member. *)
Theorem enum_value_identifies_member :
  (forall m : CameraMode.t, enum_call (value m) = Ok m) /\
  (forall m : ViewStatus.t, enum_call (value m) = Ok m) /\
  (forall m : VideoResolution.t, enum_call (value m) = Ok m) /\
  (forall m : FPSIdx.t, enum_call (value m) = Ok m) /\
  (forall m : EISMode.t, enum_call (value m) = Ok m) /\
  (forall m : PhotoRatio.t, enum_call (value m) = Ok m) /\
  (forall m : UserMode.t, enum_call (value m) = Ok m) /\
  (forall m : PowerMode.t, enum_call (value m) = Ok m) /\
  (forall m : TempOver.t, enum_call (value m) = Ok m) /\
  (forall m m' : CameraMode.t, value m = value m' -> m = m') /\
  (forall m m' : ViewStatus.t, value m = value m' -> m = m') /\
  (forall m m' : VideoResolution.t, value m = value m' -> m = m') /\
  (forall m m' : FPSIdx.t, value m = value m' -> m = m') /\
  (forall m m' : EISMode.t, value m = value m' -> m = m') /\
  (forall m m' : PhotoRatio.t, value m = value m' -> m = m') /\
  (forall m m' : UserMode.t, value m = value m' -> m = m') /\
  (forall m m' : PowerMode.t, value m = value m' -> m = m') /\
  (forall m m' : TempOver.t, value m = value m' -> m = m').
Proof.
  assert (forall E (H : PyEnum E),
            (forall m : E, enum_call (value m) = Ok m) ->
            forall m m' : E, value m = value m' -> m = m') as Hinj.
  { intros E H Hcall m m' Hv.
    pose proof (Hcall m) as H1. rewrite Hv, Hcall in H1. congruence. }
  assert ((forall m : CameraMode.t, enum_call (value m) = Ok m) /\
          (forall m : ViewStatus.t, enum_call (value m) = Ok m) /\
          (forall m : VideoResolution.t, enum_call (value m) = Ok m) /\
          (forall m : FPSIdx.t, enum_call (value m) = Ok m) /\
          (forall m : EISMode.t, enum_call (value m) = Ok m) /\
          (forall m : PhotoRatio.t, enum_call (value m) = Ok m) /\
          (forall m : UserMode.t, enum_call (value m) = Ok m) /\
          (forall m : PowerMode.t, enum_call (value m) = Ok m) /\
          (forall m : TempOver.t, enum_call (value m) = Ok m))
    as (H1 & H2 & H3 & H4 & H5 & H6 & H7 & H8 & H9).
  { repeat split; intros m; destruct m; reflexivity. }
  repeat split; try assumption; apply Hinj; assumption.
Qed.

Lemma slice_is_bytes (l : list Z) (a b : nat) : is_bytes l -> is_bytes (slice l a b).
Proof. intros H. unfold slice, is_bytes in *. auto using Forall_take, Forall_drop. Qed.

Lemma unsigned_field_range (l : list Z) (a b : nat) :
  is_bytes l -> (b <= length l)%nat ->
  0 <= from_bytes_little (slice l a b) < 2 ^ (8 * Z.of_nat (b - a)).
Proof.
  intros Hb Hlen.
  pose proof (from_bytes_little_range (slice l a b) (slice_is_bytes l a b Hb)) as H.
  unfold len in H. now rewrite slice_length in H by exact Hlen.
Qed.

(** X10. On a byte payload of at least 38 bytes the decoded counters lie in
    the range of their width: the five two-byte counters below 65536, the
    four four-byte counters below 2^32 and the battery percentage below 256
    (not below 101: the byte is taken as it is). The raw payload is kept in
    the object, and [fov_type] is not assigned. *)
Theorem status_counters_in_range (self : CameraStatus) (l : list Z) :
  is_bytes l -> (38 <= length l)%nat ->
  let status := fst (parseFromData self l) in
  0 <= record_time status < 65536 /\
  0 <= real_time_countdown status < 65536 /\
  0 <= timelaps_interval status < 65536 /\
  0 <= timelaps_duration status < 65536 /\
  0 <= loop_record_sends status < 65536 /\
  0 <= remain_capacity status < 4294967296 /\
  0 <= remain_photo_num status < 4294967296 /\
  0 <= remain_time status < 4294967296 /\
  0 <= photo_countdown_ms status < 4294967296 /\
  0 <= camera_bat_percentage status < 256 /\
  camera_bat_percentage status = at_ l 37 /\
  data status = Some l /\
  fov_type status = fov_type self.
Proof.
  intros Hb Hlen status. unfold status.
  rewrite parseFromData_value by exact Hlen.
  cbn [fst record_time real_time_countdown timelaps_interval timelaps_duration
       loop_record_sends remain_capacity remain_photo_num remain_time
       photo_countdown_ms camera_bat_percentage data fov_type].
  pose proof (fun a b => unsigned_field_range l a b Hb) as Hr.
  pose proof (Hr 5 7 ltac:(lia))%nat as R1.
  pose proof (Hr 9 11 ltac:(lia))%nat as R2.
  pose proof (Hr 11 13 ltac:(lia))%nat as R3.
  pose proof (Hr 13 15 ltac:(lia))%nat as R4.
  pose proof (Hr 35 37 ltac:(lia))%nat as R5.
  pose proof (Hr 15 19 ltac:(lia))%nat as R6.
  pose proof (Hr 19 23 ltac:(lia))%nat as R7.
  pose proof (Hr 23 27 ltac:(lia))%nat as R8.
  pose proof (Hr 31 35 ltac:(lia))%nat as R9.
  change (2 ^ (8 * Z.of_nat (7 - 5))) with 65536 in R1.
  change (2 ^ (8 * Z.of_nat (11 - 9))) with 65536 in R2.
  change (2 ^ (8 * Z.of_nat (13 - 11))) with 65536 in R3.
  change (2 ^ (8 * Z.of_nat (15 - 13))) with 65536 in R4.
  change (2 ^ (8 * Z.of_nat (37 - 35))) with 65536 in R5.
  change (2 ^ (8 * Z.of_nat (19 - 15))) with 4294967296 in R6.
  change (2 ^ (8 * Z.of_nat (23 - 19))) with 4294967296 in R7.
  change (2 ^ (8 * Z.of_nat (27 - 23))) with 4294967296 in R8.
  change (2 ^ (8 * Z.of_nat (35 - 31))) with 4294967296 in R9.
  pose proof (is_bytes_at l 37 Hb ltac:(lia)) as R10. unfold is_byte, at_ in *.
  repeat split; lia.
Qed.

Lemma status_counters_in_range_witness :
  let status := fst (parseFromData CameraStatus_new (repeat 255 38)) in
  0 <= record_time status < 65536 /\
  0 <= real_time_countdown status < 65536 /\
  0 <= timelaps_interval status < 65536 /\
  0 <= timelaps_duration status < 65536 /\
  0 <= loop_record_sends status < 65536 /\
  0 <= remain_capacity status < 4294967296 /\
  0 <= remain_photo_num status < 4294967296 /\
  0 <= remain_time status < 4294967296 /\
  0 <= photo_countdown_ms status < 4294967296 /\
  0 <= camera_bat_percentage status < 256 /\
  camera_bat_percentage status = at_ (repeat 255 38) 37 /\
  data status = Some (repeat 255 38) /\
  fov_type status = fov_type CameraStatus_new.
Proof.
  apply (status_counters_in_range CameraStatus_new (repeat 255 38)).
  - unfold is_bytes. apply Forall_forall. intros x Hx.
    apply list_elem_of_In, repeat_spec in Hx. subst x. unfold is_byte. lia.
  - rewrite repeat_length. lia.
Defined.

(** The statements of [parseFromData], by the length of the payload. *)
Lemma enum_at_by_length {E} `{PyEnum E} (unknown : E) (l : list Z) (i : nat) :
  (forall x, _missing_ x = Some unknown) ->
  enum_at l i
  = if (S i <=? length l)%nat then Ok (enum_decode unknown (at_ l i))
    else Raise IndexError.
Proof.
  intros Hm. destruct (Nat.leb_spec (S i) (length l)).
  - apply enum_at_ok; [exact Hm | lia].
  - unfold enum_at. rewrite index_out_of_range by lia. reflexivity.
Qed.

Lemma unpack_by_length (l : list Z) (a b n : nat) :
  (b - a)%nat = n -> (a < b)%nat ->
  unpack_little n (slice l a b)
  = if (b <=? length l)%nat then Ok (from_bytes_little (slice l a b))
    else Raise StructError.
Proof.
  intros Hn Hab. destruct (Nat.leb_spec b (length l)).
  - apply unpack_little_ok; assumption.
  - unfold unpack_little, slice. rewrite length_take, length_drop.
    replace (_ =? n)%nat with false; [reflexivity|].
    symmetry. apply Nat.eqb_neq. lia.
Qed.

Lemma index_by_length (l : list Z) (i : nat) :
  index l i = if (S i <=? length l)%nat then Ok (at_ l i) else Raise IndexError.
Proof.
  destruct (Nat.leb_spec (S i) (length l)).
  - apply index_ok. lia.
  - apply index_out_of_range. lia.
Qed.

(** X11. A payload shorter than 38 bytes leaves a partly updated object.
    The attributes are assigned in the order of the statements, each from
    its fixed offset, until the payload runs out: an attribute whose bytes
    are all there holds their decoding, every other attribute keeps the
    value it had. The battery percentage, the raw bytes and [fov_type] are
    never assigned, and on an empty payload the object is unchanged as a
    whole. *)
Theorem short_payload_partial_update (self : CameraStatus) (l : list Z) :
  (length l < 38)%nat ->
  let status := fst (parseFromData self l) in
  let n := length l in
  updated_if n 1 (enum_decode CameraMode.UNKNOWN (at_ l 0))
    (camera_mode self) (camera_mode status) /\
  updated_if n 2 (enum_decode ViewStatus.UNKNOWN (at_ l 1))
    (view_status self) (view_status status) /\
  updated_if n 3 (enum_decode VideoResolution.UNKNOWN (at_ l 2))
    (video_resolution self) (video_resolution status) /\
  updated_if n 4 (enum_decode FPSIdx.UNKNOWN (at_ l 3))
    (fps_idx self) (fps_idx status) /\
  updated_if n 5 (enum_decode EISMode.UNKNOWN (at_ l 4))
    (eis_mode self) (eis_mode status) /\
  updated_if n 7 (from_bytes_little (slice l 5 7))
    (record_time self) (record_time status) /\
  updated_if n 9 (enum_decode PhotoRatio.UNKNOWN (at_ l 8))
    (photo_ratio self) (photo_ratio status) /\
  updated_if n 11 (from_bytes_little (slice l 9 11))
    (real_time_countdown self) (real_time_countdown status) /\
  updated_if n 13 (from_bytes_little (slice l 11 13))
    (timelaps_interval self) (timelaps_interval status) /\
  updated_if n 15 (from_bytes_little (slice l 13 15))
    (timelaps_duration self) (timelaps_duration status) /\
  updated_if n 19 (from_bytes_little (slice l 15 19))
    (remain_capacity self) (remain_capacity status) /\
  updated_if n 23 (from_bytes_little (slice l 19 23))
    (remain_photo_num self) (remain_photo_num status) /\
  updated_if n 27 (from_bytes_little (slice l 23 27))
    (remain_time self) (remain_time status) /\
  updated_if n 29 (enum_decode UserMode.UNKNOWN (at_ l 28))
    (user_mode self) (user_mode status) /\
  updated_if n 30 (enum_decode PowerMode.UNKNOWN (at_ l 29))
    (power_mode self) (power_mode status) /\
  updated_if n 31 (enum_decode TempOver.UNKNOWN (at_ l 30))
    (temp_over self) (temp_over status) /\
  updated_if n 35 (from_bytes_little (slice l 31 35))
    (photo_countdown_ms self) (photo_countdown_ms status) /\
  updated_if n 37 (from_bytes_little (slice l 35 37))
    (loop_record_sends self) (loop_record_sends status) /\
  camera_bat_percentage status = camera_bat_percentage self /\
  data status = data self /\
  fov_type status = fov_type self /\
  (l = [] -> status = self).
Proof.
  intros Hlen status n.
  unfold status, parseFromData, updated_if, n. cbv zeta.
  cbn [fst camera_mode view_status video_resolution fps_idx eis_mode record_time
       fov_type photo_ratio real_time_countdown timelaps_interval
       timelaps_duration remain_capacity remain_photo_num remain_time user_mode
       power_mode temp_over photo_countdown_ms loop_record_sends
       camera_bat_percentage data].
  rewrite (enum_at_by_length CameraMode.UNKNOWN l 0) by reflexivity.
  rewrite (enum_at_by_length ViewStatus.UNKNOWN l 1) by reflexivity.
  rewrite (enum_at_by_length VideoResolution.UNKNOWN l 2) by reflexivity.
  rewrite (enum_at_by_length FPSIdx.UNKNOWN l 3) by reflexivity.
  rewrite (enum_at_by_length EISMode.UNKNOWN l 4) by reflexivity.
  rewrite (enum_at_by_length PhotoRatio.UNKNOWN l 8) by reflexivity.
  rewrite (enum_at_by_length UserMode.UNKNOWN l 28) by reflexivity.
  rewrite (enum_at_by_length PowerMode.UNKNOWN l 29) by reflexivity.
  rewrite (enum_at_by_length TempOver.UNKNOWN l 30) by reflexivity.
  rewrite (unpack_by_length l 5 7 2), (unpack_by_length l 9 11 2),
    (unpack_by_length l 11 13 2), (unpack_by_length l 13 15 2),
    (unpack_by_length l 15 19 4), (unpack_by_length l 19 23 4),
    (unpack_by_length l 23 27 4), (unpack_by_length l 31 35 4),
    (unpack_by_length l 35 37 2) by (reflexivity || lia).
  rewrite (index_by_length l 37).
  replace (38 <=? length l)%nat with false by (symmetry; apply Nat.leb_gt; lia).
  repeat match goal with
  | |- context [(?k <=? length l)%nat] =>
      destruct (Nat.leb_spec k (length l)); try (exfalso; lia)
  end;
  cbn [mbind result_bind assigned];
  repeat (split; [reflexivity|]);
  intros E; subst l; cbn [length] in *;
  first [lia | destruct self; reflexivity].
Qed.

Lemma short_payload_partial_update_witness :
  let status := fst (parseFromData CameraStatus_new [0x3F; 1; 16]) in
  camera_mode status = CameraMode.PANO_PHOTO /\
  view_status status = ViewStatus.LIVE_STREAMING /\
  video_resolution status = VideoResolution.RES_4K /\
  fps_idx status = fps_idx CameraStatus_new /\
  data status = None.
Proof.
  destruct (short_payload_partial_update CameraStatus_new [0x3F; 1; 16])
    as (H1 & H2 & H3 & H4 & _ & _ & _ & _ & _ & _ & _ & _ & _ & _ & _ & _ & _ & _
        & _ & H20 & _).
  - cbn [length]. lia.
  - unfold updated_if in *. cbv zeta. auto.
Defined.

Lemma parseFromData_short_raises (self : CameraStatus) (l : list Z) :
  (length l < 38)%nat -> exists e, snd (parseFromData self l) = Raise e.
Proof.
  intros Hlen. unfold parseFromData. cbv zeta. cbn [snd].
  rewrite (index_out_of_range l 37) by lia.
  match goal with
  | |- exists e, ((?s ≫= _) ≫= _) ≫= _ = _ => destruct s as [x|e]
  end.
  - exists IndexError. reflexivity.
  - exists e. reflexivity.
Qed.

Lemma parseFromData_short_keeps_data (self : CameraStatus) (l : list Z) :
  (length l < 38)%nat -> data (fst (parseFromData self l)) = data self.
Proof.
  intros Hlen. unfold parseFromData. cbv zeta. cbn [fst data].
  rewrite (index_out_of_range l 37) by lia.
  match goal with
  | |- assigned ((?s ≫= _) ≫= _) _ = _ => destruct s; reflexivity
  end.
Qed.

(* ================================================================== *)
(** * Further properties of the notification handler *)

#[local] Opaque parse_dji_frame build_dji_frame frame_of parseFromData.

Lemma run_callbacks_all (cbs : list callback) (status : CameraStatus)
    (log : list (nat * CameraStatus)) :
  Forall (fun cb => cb_raises cb status = false) cbs ->
  run_callbacks cbs status log = log ++ map (fun cb => (cb_id cb, status)) cbs.
Proof.
  intros H. revert log. induction H as [|cb rest Hcb _ IH]; intros log.
  - cbn. now rewrite app_nil_r.
  - cbn [run_callbacks map]. rewrite Hcb, IH, <- app_assoc. reflexivity.
Qed.

Lemma run_callbacks_stop (before after : list callback) (cb : callback)
    (status : CameraStatus) (log : list (nat * CameraStatus)) :
  Forall (fun c => cb_raises c status = false) before ->
  cb_raises cb status = true ->
  run_callbacks (before ++ cb :: after) status log
    = log ++ map (fun c => (cb_id c, status)) before ++ [(cb_id cb, status)].
Proof.
  intros H Hcb. revert log. induction H as [|c rest Hc _ IH]; intros log.
  - cbn [app run_callbacks map]. now rewrite Hcb.
  - cbn [app run_callbacks map]. rewrite Hc, IH, <- !app_assoc. reflexivity.
Qed.

(** The handler on a camera status broadcast, written out. *)
Lemma handler_status_broadcast (self : Osmo360) (buffer : list Z) (f : frame) :
  parse_dji_frame buffer = Ok f ->
  fr_frame_type f <> 1 -> fr_cmd_set f = 29 -> fr_cmd_id f = 2 ->
  _notification_handler self buffer =
    let noted :=
      set_notification_received true (set_last_notification_data (Some f) self) in
    let parsed := parseFromData CameraStatus_new (fr_data f) in
    let updated := set_cameraStatus (Some (fst parsed)) noted in
    match snd parsed with
    | Ok _ =>
        set_delivered
          (run_callbacks (cameraStatusCallbacks self) (fst parsed) (delivered self))
          updated
    | Raise _ => updated
    end.
Proof.
  intros Hp Hf Hs Hi. unfold _notification_handler.
  rewrite Hp. apply Z.eqb_neq in Hf. rewrite Hf, Hs, Hi.
  cbn [Z.eqb Pos.eqb andb]. cbv zeta.
  destruct (parseFromData CameraStatus_new (fr_data f)) as [status [u|e]];
    reflexivity.
Qed.

(** X12. A camera status broadcast (a Command frame of command set 29 and
    command id 2) with a payload of at least 38 bytes replaces the stored
    status by a new object decoded from the payload and calls the
    subscribers with it in registration order. When no subscriber raises,
    each one is called once; when one raises, those registered after it are
    not called. The registry and the response slot are left alone. *)
Theorem status_broadcast_fan_out (self : Osmo360) (buffer : list Z) (f : frame) :
  parse_dji_frame buffer = Ok f ->
  fr_frame_type f <> 1 -> fr_cmd_set f = 29 -> fr_cmd_id f = 2 ->
  (38 <= length (fr_data f))%nat ->
  let status := fst (parseFromData CameraStatus_new (fr_data f)) in
  let after := _notification_handler self buffer in
  cameraStatus after = Some status /\
  data status = Some (fr_data f) /\
  (Forall (fun cb => cb_raises cb status = false) (cameraStatusCallbacks self) ->
     delivered after
       = delivered self
           ++ map (fun cb => (cb_id cb, status)) (cameraStatusCallbacks self)) /\
  (forall before cb later,
     cameraStatusCallbacks self = before ++ cb :: later ->
     Forall (fun c => cb_raises c status = false) before ->
     cb_raises cb status = true ->
     delivered after
       = delivered self ++ map (fun c => (cb_id c, status)) before
           ++ [(cb_id cb, status)]) /\
  cameraStatusCallbacks after = cameraStatusCallbacks self /\
  last_response_frame after = last_response_frame self /\
  response_received after = response_received self.
Proof.
  intros Hp Hf Hs Hi Hlen status after.
  unfold after. rewrite (handler_status_broadcast self buffer f Hp Hf Hs Hi).
  cbv zeta. fold status.
  assert (snd (parseFromData CameraStatus_new (fr_data f)) = Ok tt) as ->
    by (now rewrite parseFromData_value).
  assert (data status = Some (fr_data f)) as Hdata
    by (unfold status; now rewrite parseFromData_value).
  cbn [cameraStatus delivered cameraStatusCallbacks last_response_frame
       response_received set_delivered set_cameraStatus
       set_notification_received set_last_notification_data].
  split; [reflexivity|]. split; [exact Hdata|].
  split; [intros Hall; now apply run_callbacks_all|].
  split; [|repeat split].
  intros before cb later Hcbs Hbefore Hcb. rewrite Hcbs.
  now apply run_callbacks_stop.
Qed.

Lemma sample_status_parsed :
  parse_dji_frame sample_status_broadcast = Ok sample_status_frame.
Proof. vm_compute. reflexivity. Qed.

Lemma status_broadcast_fan_out_witness :
  let status := fst (parseFromData CameraStatus_new (fr_data sample_status_frame)) in
  let after := _notification_handler sample_subscribed sample_status_broadcast in
  cameraStatus after = Some status /\
  data status = Some (fr_data sample_status_frame) /\
  (Forall (fun cb => cb_raises cb status = false)
          (cameraStatusCallbacks sample_subscribed) ->
     delivered after
       = delivered sample_subscribed
           ++ map (fun cb => (cb_id cb, status))
                  (cameraStatusCallbacks sample_subscribed)) /\
  (forall before cb later,
     cameraStatusCallbacks sample_subscribed = before ++ cb :: later ->
     Forall (fun c => cb_raises c status = false) before ->
     cb_raises cb status = true ->
     delivered after
       = delivered sample_subscribed ++ map (fun c => (cb_id c, status)) before
           ++ [(cb_id cb, status)]) /\
  cameraStatusCallbacks after = cameraStatusCallbacks sample_subscribed /\
  last_response_frame after = last_response_frame sample_subscribed /\
  response_received after = response_received sample_subscribed.
Proof.
  apply (status_broadcast_fan_out sample_subscribed sample_status_broadcast
           sample_status_frame).
  - exact sample_status_parsed.
  - cbn. discriminate.
  - reflexivity.
  - reflexivity.
  - cbn. lia.
Defined.

(** X13. A camera status broadcast with a payload shorter than 38 bytes
    calls no subscriber and raises nothing to the transport; it still counts
    as a notification, and the stored status is replaced by a new object
    that holds only the fields decoded before the payload ran out. *)
Theorem short_status_broadcast_swallowed (self : Osmo360) (buffer : list Z)
    (f : frame) :
  parse_dji_frame buffer = Ok f ->
  fr_frame_type f <> 1 -> fr_cmd_set f = 29 -> fr_cmd_id f = 2 ->
  (length (fr_data f) < 38)%nat ->
  let after := _notification_handler self buffer in
  delivered after = delivered self /\
  cameraStatus after = Some (fst (parseFromData CameraStatus_new (fr_data f))) /\
  (exists status, cameraStatus after = Some status /\ data status = None) /\
  notification_received after = true /\
  last_notification_data after = Some f.
Proof.
  intros Hp Hf Hs Hi Hlen after.
  unfold after. rewrite (handler_status_broadcast self buffer f Hp Hf Hs Hi).
  cbv zeta.
  destruct (parseFromData_short_raises CameraStatus_new (fr_data f) Hlen)
    as (e & He).
  rewrite He.
  pose proof (parseFromData_short_keeps_data CameraStatus_new (fr_data f) Hlen)
    as Hdata.
  cbn [cameraStatus delivered notification_received last_notification_data
       set_cameraStatus set_notification_received set_last_notification_data].
  split; [reflexivity|]. split; [reflexivity|].
  split; [eexists; split; [reflexivity | exact Hdata]|].
  split; reflexivity.
Qed.

Lemma sample_short_parsed :
  parse_dji_frame sample_short_broadcast = Ok sample_short_frame.
Proof. vm_compute. reflexivity. Qed.

Lemma short_status_broadcast_swallowed_witness :
  let after := _notification_handler sample_subscribed sample_short_broadcast in
  delivered after = delivered sample_subscribed /\
  cameraStatus after
    = Some (fst (parseFromData CameraStatus_new (fr_data sample_short_frame))) /\
  (exists status, cameraStatus after = Some status /\ data status = None) /\
  notification_received after = true /\
  last_notification_data after = Some sample_short_frame.
Proof.
  apply (short_status_broadcast_swallowed sample_subscribed sample_short_broadcast
           sample_short_frame).
  - exact sample_short_parsed.
  - cbn. discriminate.
  - reflexivity.
  - reflexivity.
  - cbn. lia.
Defined.

Lemma tamper_verdict_raises (i : nat) (total : Z) (header' : list Z) :
  exists e, tamper_verdict i total header' = Raise e.
Proof.
  unfold tamper_verdict. destruct i; [eexists; reflexivity|].
  destruct (total =? declared_length header');
    [destruct (S i <? 12)%nat|]; eexists; reflexivity.
Qed.

Lemma handler_undecodable (self : Osmo360) (buffer : list Z) (e : exn) :
  parse_dji_frame buffer = Raise e -> _notification_handler self buffer = self.
Proof. intros H. unfold _notification_handler. now rewrite H. Qed.

(** X14. The handler drops damaged input without touching the object: a
    built frame in which one byte has been replaced by a different byte, an
    accepted buffer with further bytes appended, and a proper prefix of an
    accepted buffer all leave the object exactly as it was. *)
Theorem damaged_buffers_dropped (self : Osmo360) :
  (forall cmd_set cmd_id payload is_response ack_type i b b',
     is_byte cmd_set -> is_byte cmd_id -> is_bytes payload ->
     frame_of cmd_set cmd_id payload is_response ack_type !! i = Some b ->
     is_byte b' -> b' <> b ->
     _notification_handler self
       (<[i:=b']> (frame_of cmd_set cmd_id payload is_response ack_type)) = self) /\
  (forall buffer f extra,
     parse_dji_frame buffer = Ok f -> extra <> [] ->
     _notification_handler self (buffer ++ extra) = self) /\
  (forall buffer f n,
     parse_dji_frame buffer = Ok f -> (n < length buffer)%nat ->
     _notification_handler self (take n buffer) = self).
Proof.
  split; [|split].
  - intros cmd_set cmd_id payload is_response ack_type i b b' Hs Hi Hp Hl Hb' Hne.
    destruct (tamper_verdict_raises i (18 + len payload)
                (<[i:=b']> (header_of
                   (Z.land (12 + len (cmd_set :: cmd_id :: payload) + 4) 0x03FF)
                   is_response ack_type))) as [e He].
    apply (handler_undecodable self _ e).
    rewrite (parse_tampered_frame _ _ _ _ _ i b b') by assumption. exact He.
  - intros buffer f extra Hp Hextra.
    apply (handler_undecodable self _ (ValueError LengthMismatch)).
    destruct (accepted_buffer_facts buffer f Hp) as (Hn & Hsof & _ & Hdecl & _).
    apply parse_dji_frame_length_check.
    + rewrite length_app. unfold len in Hn. lia.
    + rewrite at_app_l by (unfold len in Hn; lia). exact Hsof.
    + unfold declared_length in *.
      rewrite slice_app_l by (unfold len in Hn; lia).
      rewrite Hdecl, len_app.
      destruct extra; [contradiction|]. unfold len. cbn [length]. lia.
  - intros buffer f n Hp Hlt.
    destruct (accepted_buffer_facts buffer f Hp) as (Hn & Hsof & _ & Hdecl & _).
    assert (18 <= length buffer)%nat as Hn' by (unfold len in Hn; lia).
    destruct (decide (n < 16)%nat) as [Hshort|Hlong].
    + apply (handler_undecodable self _ (ValueError TooShort)).
      apply parse_dji_frame_too_short. rewrite length_take. lia.
    + apply (handler_undecodable self _ (ValueError LengthMismatch)).
      assert (length (take n buffer) = n) as Hlen by (rewrite length_take; lia).
      apply parse_dji_frame_length_check.
      * lia.
      * rewrite <- Hsof. apply (at_take_drop buffer 0 n 0). lia.
      * unfold declared_length in *.
        assert (slice (take n buffer) 1 3 = slice buffer 1 3) as ->.
        { unfold slice. rewrite <- (take_drop n buffer) at 2.
          rewrite drop_app_le by (rewrite length_take; lia).
          rewrite take_app_le by (rewrite length_drop, length_take; lia).
          reflexivity. }
        rewrite Hdecl. unfold len. lia.
Qed.

Lemma damaged_buffers_dropped_witness :
  _notification_handler sample_osmo
    (<[14%nat:=254]> (frame_of 0x1D 0x04 [1; 2; 3; 4; 5] false 1)) = sample_osmo /\
  _notification_handler sample_osmo (sample_frame ++ [0]) = sample_osmo /\
  _notification_handler sample_osmo (take 20 sample_frame) = sample_osmo.
Proof.
  destruct (damaged_buffers_dropped sample_osmo) as (H1 & H2 & H3).
  split; [|split].
  - apply (H1 0x1D 0x04 [1; 2; 3; 4; 5] false 1 14%nat 1 254).
    + unfold is_byte. lia.
    + unfold is_byte. lia.
    + unfold is_bytes, is_byte. repeat (constructor; [lia|]). constructor.
    + vm_compute. reflexivity.
    + unfold is_byte. lia.
    + lia.
  - apply (H2 sample_frame sample_frame_decoded [0]).
    + exact sample_frame_parsed.
    + discriminate.
  - apply (H3 sample_frame sample_frame_decoded 20%nat).
    + exact sample_frame_parsed.
    + cbn [length sample_frame]. lia.
Defined.

(* ================================================================== *)
(** * Further properties of the command channel *)

Lemma send_dji_command_disconnected cmd_set cmd_id payload wait_for_response
    is_response env (self : Osmo360) :
  connected self = false ->
  send_dji_command cmd_set cmd_id payload wait_for_response is_response env self
    = (self, Raise NotConnected).
Proof.
  intros Hc. unfold send_dji_command, mbind, M_bind, get, raise.
  rewrite Hc. reflexivity.
Qed.

(** X15. On an object whose link is not connected every command raises
    "Bluetooth not connected" before anything is written. The four camera
    commands leave the object unchanged, and so does a subscribe: the
    callback is not registered. An unsubscribe has already removed the
    callback when it finds out: removing the last callback empties the
    registry and then raises, and removing one of several succeeds without
    sending anything. *)
Theorem disconnected_object_refuses (self : Osmo360) (env : send_env) (d : Z) :
  connected self = false ->
  device_id self = Some d -> 0 <= d < 2 ^ 32 ->
  (forall cmd_set cmd_id payload wait_for_response is_response,
     send_dji_command cmd_set cmd_id payload wait_for_response is_response env self
       = (self, Raise NotConnected)) /\
  (forall mode, mode <> CameraMode.UNKNOWN ->
     setMode mode env self = (self, Raise NotConnected)) /\
  startRecording env self = (self, Raise NotConnected) /\
  stopRecording env self = (self, Raise NotConnected) /\
  grabImage env self = (self, Raise NotConnected) /\
  (forall cb, subscribeCameraStatus cb env self = (self, Raise NotConnected)) /\
  (forall cb,
     list_remove cb (cameraStatusCallbacks self) = Some [] ->
     unSubscribeCameraStatus cb env self
       = (set_cameraStatusCallbacks [] self, Raise NotConnected)) /\
  (forall cb first rest,
     list_remove cb (cameraStatusCallbacks self) = Some (first :: rest) ->
     unSubscribeCameraStatus cb env self
       = (set_cameraStatusCallbacks (first :: rest) self, Ok tt)).
Proof.
  intros Hc Hd Hr.
  assert (forall cmd_id action, is_byte action ->
            (id ← get_device_id;
             ack_payload ← lift (pack_IB4s id action [0; 0; 0; 0]);
             resp ← send_dji_command 0x1D cmd_id ack_payload true false env;
             mret (command_succeeded resp)) self
            = (self, Raise NotConnected)) as Hcmd.
  { intros cmd_id action Ha.
    unfold mbind, M_bind, get_device_id, lift.
    rewrite Hd, pack_IB4s_ok by assumption.
    now rewrite send_dji_command_disconnected. }
  split; [intros; now apply send_dji_command_disconnected|].
  assert (is_byte 0x00 /\ is_byte 0x01) as [B0 B1] by (unfold is_byte; lia).
  split; [intros mode Hm; exact (Hcmd 0x04 (value mode) (mode_value_is_byte mode Hm))|].
  split; [exact (Hcmd 0x03 0x00 B0)|].
  split; [exact (Hcmd 0x03 0x01 B1)|].
  split; [exact (Hcmd 0x03 0x00 B0)|].
  split.
  { intros cb. unfold subscribeCameraStatus, mbind, M_bind, lift.
    rewrite start_payload_packed.
    now rewrite send_dji_command_disconnected. }
  split.
  - intros cb Hrm.
    unfold unSubscribeCameraStatus, mbind, M_bind, get, lift, modify.
    rewrite Hrm. cbn [length Nat.eqb]. rewrite stop_payload_packed.
    now rewrite send_dji_command_disconnected.
  - intros cb first rest Hrm.
    unfold unSubscribeCameraStatus, mbind, M_bind, get, lift, modify.
    rewrite Hrm. reflexivity.
Qed.

Lemma disconnected_object_refuses_witness :
  startRecording silent_env
    (set_cameraStatusCallbacks [sample_cb1] (set_connected false sample_osmo))
  = (set_cameraStatusCallbacks [sample_cb1] (set_connected false sample_osmo),
     Raise NotConnected) /\
  unSubscribeCameraStatus sample_cb1 silent_env
    (set_cameraStatusCallbacks [sample_cb1] (set_connected false sample_osmo))
  = (set_cameraStatusCallbacks []
       (set_cameraStatusCallbacks [sample_cb1] (set_connected false sample_osmo)),
     Raise NotConnected).
Proof.
  destruct (disconnected_object_refuses
              (set_cameraStatusCallbacks [sample_cb1] (set_connected false sample_osmo))
              silent_env 0x12345678)
    as (_ & _ & H1 & _ & _ & _ & H2 & _).
  - reflexivity.
  - reflexivity.
  - lia.
  - split; [exact H1|]. apply H2. reflexivity.
Defined.

(** What the transport has delivered by the time the write of a command is
    done. *)
Lemma sent_response (inbound post : list (list Z)) (pre : list (list Z))
    (buffer : list Z) (f : frame) (self : Osmo360) :
  inbound = pre ++ buffer :: post ->
  parse_dji_frame buffer = Ok f -> fr_frame_type f = 1 ->
  Forall not_a_response post ->
  last_response_frame (fold_left _notification_handler inbound self) = Some f /\
  response_received (fold_left _notification_handler inbound self) = true.
Proof.
  intros -> Hp Hf Hpost.
  rewrite fold_left_app. cbn [fold_left].
  destruct (handler_response (fold_left _notification_handler pre self) buffer f Hp Hf)
    as [E1 E2].
  destruct (deliver_no_response post
              (_notification_handler (fold_left _notification_handler pre self) buffer)
              Hpost) as [E3 E4].
  split; congruence.
Qed.

(** X16. A response that arrives while the write of a command is still
    awaited is returned without any wait: of several, the last one wins; a
    response left over from an earlier command is never returned; the
    result is the same whether or not a response was asked for, and nothing
    that would arrive during the wait is handled. *)
Theorem response_during_write_returned cmd_set cmd_id payload wait_for_response
    is_response (env : send_env) (self : Osmo360) pre buffer post f :
  connected self = true -> is_byte cmd_set -> is_byte cmd_id ->
  during_write env = pre ++ buffer :: post ->
  parse_dji_frame buffer = Ok f -> fr_frame_type f = 1 ->
  Forall not_a_response post ->
  snd (send_dji_command cmd_set cmd_id payload wait_for_response is_response env self)
    = Ok (Some f) /\
  (forall later w,
     send_dji_command cmd_set cmd_id payload w is_response
       {| during_write := during_write env; during_wait := later |} self
     = send_dji_command cmd_set cmd_id payload wait_for_response is_response env self) /\
  issued self
    (fst (send_dji_command cmd_set cmd_id payload wait_for_response is_response env self))
    [frame_of cmd_set cmd_id payload is_response 1].
Proof.
  intros Hc Hs Hi Hw Hp Hf Hpost.
  assert (forall e w, during_write e = during_write env ->
            send_dji_command cmd_set cmd_id payload w is_response e self
            = (fold_left _notification_handler (during_write env)
                 (set_written
                    (written self ++ [frame_of cmd_set cmd_id payload is_response 1])
                    (set_last_response_frame None self)),
               Ok (Some f))) as Hsend.
  { intros e w He.
    rewrite send_dji_command_connected by assumption. cbv zeta. rewrite He.
    destruct (sent_response (during_write env) post pre buffer f
                (set_written
                   (written self ++ [frame_of cmd_set cmd_id payload is_response 1])
                   (set_last_response_frame None self)) Hw Hp Hf Hpost) as [E _].
    rewrite E. reflexivity. }
  split; [|split].
  - rewrite (Hsend env wait_for_response eq_refl). reflexivity.
  - intros later w.
    rewrite (Hsend env wait_for_response eq_refl).
    apply (Hsend {| during_write := during_write env; during_wait := later |} w).
    reflexivity.
  - exact (proj1 (proj2 (send_dji_command_link cmd_set cmd_id payload
                           wait_for_response is_response env self Hc Hs Hi))).
Qed.

Lemma sample_accept_parsed :
  parse_dji_frame sample_accept_response = Ok sample_accept_frame.
Proof. vm_compute. reflexivity. Qed.

Lemma response_during_write_returned_witness :
  snd (send_dji_command 0x1D 0x03 [0] false false
         {| during_write := [sample_accept_response]; during_wait := [] |} sample_osmo)
    = Ok (Some sample_accept_frame).
Proof.
  refine (proj1 (response_during_write_returned 0x1D 0x03 [0] false false
                   {| during_write := [sample_accept_response]; during_wait := [] |}
                   sample_osmo [] sample_accept_response [] sample_accept_frame
                   _ _ _ _ sample_accept_parsed _ _)).
  - reflexivity.
  - unfold is_byte. lia.
  - unfold is_byte. lia.
  - reflexivity.
  - reflexivity.
  - constructor.
Defined.

(** X17. A command sent as a reply ([is_response]) or without a response
    asked for never waits: when no response arrives during the write it
    returns none at once, whatever would have arrived later, and a reply
    does so even when a response was asked for. The response slot is empty
    afterwards, also when it held the response to an earlier command. *)
Theorem send_without_wait cmd_set cmd_id payload wait_for_response is_response
    (env : send_env) (self : Osmo360) :
  connected self = true -> is_byte cmd_set -> is_byte cmd_id ->
  is_response = true \/ wait_for_response = false ->
  Forall not_a_response (during_write env) ->
  let after := fst (send_dji_command cmd_set cmd_id payload wait_for_response
                      is_response env self) in
  snd (send_dji_command cmd_set cmd_id payload wait_for_response is_response env self)
    = Ok None /\
  after = fold_left _notification_handler (during_write env)
            (set_written (written self ++ [frame_of cmd_set cmd_id payload is_response 1])
               (set_last_response_frame None self)) /\
  last_response_frame after = None /\
  issued self after [frame_of cmd_set cmd_id payload is_response 1].
Proof.
  intros Hc Hs Hi Hno Hw after.
  pose proof (send_dji_command_link cmd_set cmd_id payload wait_for_response
                is_response env self Hc Hs Hi) as (_ & Hwr & _).
  fold after in Hwr. subst after.
  rewrite send_dji_command_connected by assumption. cbv zeta.
  rewrite send_dji_command_connected in Hwr by assumption. cbv zeta in Hwr.
  destruct (deliver_no_response (during_write env)
              (set_written (written self ++ [frame_of cmd_set cmd_id payload is_response 1])
                 (set_last_response_frame None self)) Hw) as [E _].
  cbn [last_response_frame set_written set_last_response_frame] in E.
  rewrite E in Hwr |- *.
  assert ((if is_response then false else wait_for_response) = false) as Hn.
  { destruct Hno as [-> | ->]; [reflexivity | now destruct is_response]. }
  rewrite Hn in Hwr |- *. cbn [fst snd].
  split; [reflexivity|]. split; [reflexivity|]. split; [exact E | exact Hwr].
Qed.

Lemma send_without_wait_witness :
  snd (send_dji_command 0x00 0x19 [0] true true
         {| during_write := [sample_frame]; during_wait := [[sample_accept_response]] |}
         sample_osmo) = Ok None.
Proof.
  refine (proj1 (send_without_wait 0x00 0x19 [0] true true
                   {| during_write := [sample_frame];
                      during_wait := [[sample_accept_response]] |}
                   sample_osmo _ _ _ _ _)).
  - reflexivity.
  - unfold is_byte. lia.
  - unfold is_byte. lia.
  - left. reflexivity.
  - constructor; [|constructor].
    unfold not_a_response. rewrite sample_frame_parsed. discriminate.
Defined.

Lemma command_payload_fields (d action : Z) :
  0 <= d < 2 ^ 32 ->
  len (little_bytes 4 d ++ [action; 0; 0; 0; 0]) = 9 /\
  from_bytes_little (slice (little_bytes 4 d ++ [action; 0; 0; 0; 0]) 0 4) = d /\
  slice_from (little_bytes 4 d ++ [action; 0; 0; 0; 0]) 4 = [action; 0; 0; 0; 0].
Proof.
  intros Hd.
  pose proof (little_bytes_length 4 d) as Hl.
  split; [|split].
  - unfold len. rewrite length_app, Hl. reflexivity.
  - unfold slice. rewrite drop_0. change (4 - 0)%nat with 4%nat.
    rewrite take_app_length' by exact Hl.
    apply from_little_bytes. exact Hd.
  - unfold slice_from. rewrite drop_app_length' by exact Hl. reflexivity.
Qed.

Lemma command_wrote (cmd_id action : Z) (env : send_env) (self : Osmo360) (d : Z) :
  connected self = true -> device_id self = Some d -> 0 <= d < 2 ^ 32 ->
  is_byte cmd_id -> is_byte action ->
  wrote_command self
    (fst ((id ← get_device_id;
           ack_payload ← lift (pack_IB4s id action [0; 0; 0; 0]);
           resp ← send_dji_command 0x1D cmd_id ack_payload true false env;
           mret (command_succeeded resp)) self))
    cmd_id d action.
Proof.
  intros Hc Hd Hr Hi Ha.
  rewrite (command_runs cmd_id action env self d Hc Hd Hr Hi Ha). cbn [fst].
  assert (is_byte 0x1D) as Hs by (unfold is_byte; lia).
  destruct (send_dji_command_link 0x1D cmd_id
              (little_bytes 4 d ++ [action; 0; 0; 0; 0]) true false env self Hc Hs Hi)
    as (_ & Hw & _).
  destruct (command_payload_fields d action Hr) as (L & F & S).
  assert (valid_args 0x1D cmd_id (little_bytes 4 d ++ [action; 0; 0; 0; 0])) as Hv.
  { split; [exact Hs|]. split; [exact Hi|]. split.
    - apply Forall_app. split; [apply little_bytes_is_bytes|].
      repeat (constructor; [first [exact Ha | unfold is_byte; lia]|]). constructor.
    - rewrite L. lia. }
  eexists _, _. split; [exact Hw|].
  split; [exact (parse_frame_of 0x1D cmd_id _ false 1 Hv)|].
  cbn [fr_cmd_set fr_cmd_id fr_frame_type fr_ack_type fr_data].
  repeat (split; [reflexivity|]). auto.
Qed.

(** X18. On a connected object that holds a device id, each of the four
    camera commands writes exactly one buffer, and that buffer decodes to
    the command it stands for: set 0x1D, a frame of type Command, identifier
    0x04 with the mode's number for [setMode], identifier 0x03 with action 0
    for [startRecording] and [grabImage] and action 1 for [stopRecording],
    after the device id in four bytes, little end first. *)
Theorem command_frames_decode (env : send_env) (self : Osmo360) (d : Z) :
  connected self = true -> device_id self = Some d -> 0 <= d < 2 ^ 32 ->
  (forall mode, mode <> CameraMode.UNKNOWN ->
     wrote_command self (fst (setMode mode env self)) 0x04 d (value mode)) /\
  wrote_command self (fst (startRecording env self)) 0x03 d 0x00 /\
  wrote_command self (fst (stopRecording env self)) 0x03 d 0x01 /\
  wrote_command self (fst (grabImage env self)) 0x03 d 0x00.
Proof.
  intros Hc Hd Hr.
  assert (is_byte 0x04 /\ is_byte 0x03 /\ is_byte 0x00 /\ is_byte 0x01)
    as (B4 & B3 & B0 & B1) by (unfold is_byte; lia).
  split; [intros mode Hm;
          exact (command_wrote 0x04 (value mode) env self d Hc Hd Hr B4
                   (mode_value_is_byte mode Hm))|].
  split; [exact (command_wrote 0x03 0x00 env self d Hc Hd Hr B3 B0)|].
  split; [exact (command_wrote 0x03 0x01 env self d Hc Hd Hr B3 B1)|].
  exact (command_wrote 0x03 0x00 env self d Hc Hd Hr B3 B0).
Qed.

Lemma command_frames_decode_witness :
  wrote_command sample_osmo (fst (stopRecording silent_env sample_osmo))
    0x03 0x12345678 0x01.
Proof.
  refine (proj1 (proj2 (proj2
    (command_frames_decode silent_env sample_osmo 0x12345678 _ _ _)))).
  - reflexivity.
  - reflexivity.
  - lia.
Defined.

(** X19. The camera commands read the device id and pack the payload before
    the link is looked at. Without a device id (before a handshake has
    stored one) each of them raises [AttributeError]; [setMode] of the
    UNKNOWN mode, which is what every unlisted mode number decodes to,
    raises [struct.error], its number -1 not being a byte. In both cases
    the object is unchanged and nothing is written, connected or not. *)
Theorem commands_need_device_id (env : send_env) (self : Osmo360) :
  (device_id self = None ->
     (forall mode, setMode mode env self = (self, Raise AttributeError)) /\
     startRecording env self = (self, Raise AttributeError) /\
     stopRecording env self = (self, Raise AttributeError) /\
     grabImage env self = (self, Raise AttributeError)) /\
  (forall d, device_id self = Some d ->
     setMode CameraMode.UNKNOWN env self = (self, Raise StructError) /\
     forall n, ~ In n (map value CameraMode.members) ->
       exists mode, enum_call n = Ok mode /\
         setMode mode env self = (self, Raise StructError)).
Proof.
  split.
  - intros Hd.
    assert (forall cmd_id action,
              (id ← get_device_id;
               ack_payload ← lift (pack_IB4s id action [0; 0; 0; 0]);
               resp ← send_dji_command 0x1D cmd_id ack_payload true false env;
               mret (command_succeeded resp)) self
              = (self, Raise AttributeError)) as H.
    { intros cmd_id action. unfold mbind, M_bind, get_device_id.
      rewrite Hd. reflexivity. }
    split; [intros mode; exact (H 0x04 (value mode))|].
    split; [exact (H 0x03 0x00)|].
    split; [exact (H 0x03 0x01)|exact (H 0x03 0x00)].
  - intros d Hd.
    assert (setMode CameraMode.UNKNOWN env self = (self, Raise StructError)) as H.
    { unfold setMode, mbind, M_bind, get_device_id, lift. rewrite Hd.
      unfold pack_IB4s.
      change (value CameraMode.UNKNOWN) with (-1).
      change (0 <=? -1) with false.
      rewrite andb_false_r. reflexivity. }
    split; [exact H|].
    intros n Hn. exists CameraMode.UNKNOWN. split; [|exact H].
    unfold enum_call.
    destruct (find (fun m => value m =? n) members) as [m|] eqn:Hf; [|reflexivity].
    exfalso. apply Hn. apply find_some in Hf. destruct Hf as [Hin Hv].
    apply Z.eqb_eq in Hv. rewrite <- Hv. apply in_map. exact Hin.
Qed.

Lemma commands_need_device_id_witness :
  startRecording silent_env (Osmo360_new default_local_mac)
    = (Osmo360_new default_local_mac, Raise AttributeError) /\
  setMode CameraMode.UNKNOWN silent_env sample_osmo
    = (sample_osmo, Raise StructError).
Proof.
  split.
  - refine (proj1 (proj2 (proj1
      (commands_need_device_id silent_env (Osmo360_new default_local_mac)) _))).
    reflexivity.
  - refine (proj1 (proj2
      (commands_need_device_id silent_env sample_osmo) 0x12345678 _)).
    reflexivity.
Defined.

(** Where the frame in the response slot comes from. *)
Lemma handler_response_origin (self : Osmo360) (buffer : list Z) (f : frame) :
  last_response_frame (_notification_handler self buffer) = Some f ->
  last_response_frame self = Some f \/
  (parse_dji_frame buffer = Ok f /\ fr_frame_type f = 1).
Proof.
  unfold _notification_handler.
  destruct (parse_dji_frame buffer) as [g|e]; [|auto].
  destruct (fr_frame_type g =? 1) eqn:Ht.
  - cbn. intros [= <-]. right. split; [reflexivity|]. now apply Z.eqb_eq.
  - destruct ((fr_cmd_set g =? 29) && (fr_cmd_id g =? 2)); [|cbn; auto].
    destruct (parseFromData CameraStatus_new (fr_data g)) as [status [u|e]];
      cbn; auto.
Qed.

Lemma deliver_response_origin (inbound : list (list Z)) (self : Osmo360) (f : frame) :
  last_response_frame (fold_left _notification_handler inbound self) = Some f ->
  last_response_frame self = Some f \/
  exists buffer, In buffer inbound /\
    parse_dji_frame buffer = Ok f /\ fr_frame_type f = 1.
Proof.
  revert self. induction inbound as [|b rest IH]; intros self; cbn [fold_left].
  - auto.
  - intros H. destruct (IH _ H) as [H1 | (buffer & Hin & Hp)].
    + destruct (handler_response_origin self b f H1) as [H2 | H2]; [auto|].
      right. exists b. split; [left; reflexivity | exact H2].
    + right. exists buffer. split; [right; exact Hin | exact Hp].
Qed.

Lemma wait_response_origin (event : Osmo360 -> bool)
    (inbound : list (list (list Z))) (self : Osmo360) (f : frame) :
  last_response_frame (fst (wait_for event inbound self)) = Some f ->
  last_response_frame self = Some f \/
  exists buffer, In buffer (concat inbound) /\
    parse_dji_frame buffer = Ok f /\ fr_frame_type f = 1.
Proof.
  revert self. induction inbound as [|b rest IH]; intros self; cbn [wait_for].
  - auto.
  - intros H. cbn [concat].
    assert (last_response_frame (fold_left _notification_handler b self) = Some f \/
            exists buffer, In buffer (concat rest) /\
              parse_dji_frame buffer = Ok f /\ fr_frame_type f = 1) as [H1 | H1].
    { destruct (event (fold_left _notification_handler b self)); [left; exact H|].
      apply IH. exact H. }
    + destruct (deliver_response_origin b self f H1)
        as [H2 | (buffer & Hin & Hp)]; [auto|].
      right. exists buffer. split; [apply in_or_app; left; exact Hin | exact Hp].
    + destruct H1 as (buffer & Hin & Hp).
      right. exists buffer. split; [apply in_or_app; right; exact Hin | exact Hp].
Qed.

Lemma send_result_origin cmd_set cmd_id payload wait_for_response is_response
    (env : send_env) (self : Osmo360) (f : frame) :
  snd (send_dji_command cmd_set cmd_id payload wait_for_response is_response env self)
    = Ok (Some f) ->
  fr_frame_type f = 1 /\
  exists buffer, In buffer (during_write env ++ concat (during_wait env)) /\
    parse_dji_frame buffer = Ok f.
Proof.
  unfold send_dji_command, mbind, M_bind, get, modify, lift, raise, mret, M_ret,
    write_gatt_char.
  destruct (connected self); cbn [negb]; [|discriminate].
  destruct (build_dji_frame cmd_set cmd_id payload is_response 1) as [fr|e];
    [|discriminate].
  cbn [written last_response_frame set_last_response_frame].
  match goal with
  | |- context [fold_left _notification_handler ?l ?s] =>
      pose proof (deliver_response_origin l s) as Hsent;
      assert (last_response_frame s = None) as Hnone by reflexivity;
      set (sent := fold_left _notification_handler l s) in *;
      clearbody sent
  end.
  assert (forall g, last_response_frame sent = Some g ->
            fr_frame_type g = 1 /\
            exists buffer, In buffer (during_write env) /\
              parse_dji_frame buffer = Ok g) as Hw.
  { intros g Hg. destruct (Hsent g Hg) as [H | (b & Hin & Hp & Ht)];
      [congruence|]. split; [exact Ht|]. exists b. auto. }
  destruct (last_response_frame sent) as [g|] eqn:Hl.
  - cbn [snd]. intros [= <-]. destruct (Hw g eq_refl) as (Ht & b & Hin & Hp).
    split; [exact Ht|]. exists b. split; [apply in_or_app; auto | exact Hp].
  - destruct (if is_response then false else wait_for_response); [|discriminate].
    pose proof (wait_response_origin response_received (during_wait env)
                  (set_response_received false sent) f) as Hwait.
    destruct (wait_for response_received (during_wait env)
                (set_response_received false sent)) as [s' [[|]|e]];
      cbn [fst snd] in *; try discriminate.
    intros [= Hf]. destruct (Hwait Hf) as [H | (b & Hin & Hp & Ht)].
    + cbn in H. congruence.
    + split; [exact Ht|]. exists b. split; [apply in_or_app; auto | exact Hp].
Qed.

(** X20. Whatever frame [send_dji_command] returns is a frame of type
    Response decoded from a buffer that arrived during this very call,
    while the write or the wait was pending; never one from an earlier
    call, and never a frame of another type. *)
Theorem returned_response_was_delivered cmd_set cmd_id payload wait_for_response
    is_response (env : send_env) (self : Osmo360) (f : frame) :
  snd (send_dji_command cmd_set cmd_id payload wait_for_response is_response env self)
    = Ok (Some f) ->
  fr_frame_type f = 1 /\
  exists buffer, In buffer (during_write env ++ concat (during_wait env)) /\
    parse_dji_frame buffer = Ok f.
Proof.
  exact (send_result_origin cmd_set cmd_id payload wait_for_response is_response
           env self f).
Qed.

Lemma returned_response_was_delivered_witness :
  fr_frame_type sample_accept_frame = 1 /\
  exists buffer,
    In buffer (during_write {| during_write := [sample_frame];
                               during_wait := [[sample_accept_response]] |}
               ++ concat (during_wait {| during_write := [sample_frame];
                                         during_wait := [[sample_accept_response]] |})) /\
    parse_dji_frame buffer = Ok sample_accept_frame.
Proof.
  apply (returned_response_was_delivered 0x1D 0x03 [0] true false
           {| during_write := [sample_frame];
              during_wait := [[sample_accept_response]] |}
           (set_last_response_frame (Some sample_frame_decoded) sample_osmo)).
  vm_compute. reflexivity.
Defined.

(* ================================================================== *)
(** * Further properties of the handshake *)

Lemma connection_request_ok (mac : list Z) (code : Z) :
  0 <= code < 2 ^ 16 ->
  connection_request mac code
    = Ok (little_bytes 4 CTR_DEVICE_ID ++ [6]
          ++ take 16 ((mac ++ repeat 0 10) ++ repeat 0 16)
          ++ little_bytes 4 0 ++ [0] ++ [0]
          ++ little_bytes 2 code ++ [0; 0; 0; 0]).
Proof.
  intros Hc. unfold connection_request.
  replace (0 <=? code) with true by (symmetry; apply Z.leb_le; lia).
  replace (code <? 2 ^ 16) with true by (symmetry; apply Z.ltb_lt; lia).
  reflexivity.
Qed.

Lemma default_local_mac_parsed :
  _parse_mac_address default_local_mac = Ok [1; 2; 3; 4; 5; 6].
Proof. vm_compute. reflexivity. Qed.

(** [bytes.fromhex] raises nothing but its [ValueError]. *)
Lemma bytes_fromhex_raises (s : string) (e : exn) :
  bytes_fromhex s = Raise e -> e = ValueError NonHex.
Proof.
  remember (String.length s) as n eqn:Hn.
  revert s Hn. induction n as [n IH] using lt_wf_ind. intros s Hn.
  destruct s as [|c rest]; cbn [bytes_fromhex]; [discriminate|].
  destruct (is_space c).
  { apply (IH (String.length rest)); [cbn in Hn; lia | reflexivity]. }
  destruct (hex_digit c); [|now intros [= <-]].
  destruct rest as [|c' rest']; [now intros [= <-]|].
  destruct (hex_digit c'); [|now intros [= <-]].
  unfold mbind, result_bind.
  destruct (bytes_fromhex rest') as [bs|e'] eqn:Hr; [discriminate|].
  intros [= <-].
  apply (IH (String.length rest') ltac:(cbn in Hn; lia) rest' eq_refl Hr).
Qed.

(** A command whose response arrives during the wait. *)
Lemma send_answered cmd_set cmd_id payload (env : send_env) (self : Osmo360)
    (f : frame) :
  connected self = true -> is_byte cmd_set -> is_byte cmd_id ->
  answered env f ->
  snd (send_dji_command cmd_set cmd_id payload true false env self) = Ok (Some f).
Proof.
  intros Hc Hs Hi (Hw & pre & burst & post & Hwait & Hpre & Hlast).
  rewrite send_dji_command_connected by assumption. cbv zeta.
  set (start := set_written _ (set_last_response_frame None self)).
  destruct (deliver_no_response (during_write env) start Hw) as [E _].
  change (last_response_frame start) with (@None frame) in E.
  rewrite E, Hwait.
  set (sent := fold_left _notification_handler (during_write env) start).
  destruct (wait_response_woken pre post burst f (set_response_received false sent)
              eq_refl Hpre Hlast) as [W1 W2].
  rewrite W1. cbn [snd]. now rewrite W2.
Qed.

(** A command to which no response arrives. *)
Lemma send_unanswered cmd_set cmd_id payload (env : send_env) (self : Osmo360) :
  connected self = true -> is_byte cmd_set -> is_byte cmd_id ->
  Forall not_a_response (during_write env) ->
  Forall (Forall not_a_response) (during_wait env) ->
  snd (send_dji_command cmd_set cmd_id payload true false env self) = Ok None.
Proof.
  intros Hc Hs Hi Hw Hwait.
  rewrite send_dji_command_connected by assumption. cbv zeta.
  set (start := set_written _ (set_last_response_frame None self)).
  destruct (deliver_no_response (during_write env) start Hw) as [E _].
  change (last_response_frame start) with (@None frame) in E.
  rewrite E.
  set (sent := fold_left _notification_handler (during_write env) start).
  destruct (wait_response_timeout (during_wait env) (set_response_received false sent)
              eq_refl Hwait) as (W1 & _).
  now rewrite W1.
Qed.

(** The first step of [connect]: the scan, when the link is not up. *)
Lemma connect_scan (env : connect_env) (self : Osmo360) :
  reachable env self ->
  (if negb (connected self) then _connect_bt (bt_found env) else mret tt) self
  = (if connected self then self else set_connected true self, Ok tt).
Proof.
  intros Hreach. destruct (connected self) eqn:Hc; cbn [negb]; [reflexivity|].
  destruct Hreach as [Hr | Hr]; [congruence|].
  unfold _connect_bt. rewrite Hr. reflexivity.
Qed.

(** [connect] with a local address that [bytes.fromhex] refuses: the
    exception leaves [connect] once the link is up, before anything is
    written. *)
Lemma connect_bad_mac (env : connect_env) (self : Osmo360) (e : exn) :
  reachable env self ->
  _parse_mac_address (local_mac self) = Raise e ->
  connect env self
  = (if connected self then self else set_connected true self, Raise e).
Proof.
  intros Hreach Hmac. unfold connect.
  unfold mbind at 1, M_bind at 1, get at 1.
  unfold mbind at 1, M_bind at 1.
  rewrite (connect_scan env self Hreach).
  unfold mbind at 1, M_bind at 1, get at 1.
  unfold mbind at 1, M_bind at 1, lift at 1.
  assert (local_mac (if connected self then self else set_connected true self)
          = local_mac self) as -> by (destruct (connected self); reflexivity).
  rewrite Hmac. reflexivity.
Qed.

(** The object when the connection request has been sent. *)
Lemma connect_unfold (env : connect_env) (self : Osmo360) (mac : list Z) :
  reachable env self ->
  _parse_mac_address (local_mac self) = Ok mac ->
  0 <= verify_code env < 2 ^ 16 ->
  let linked := if connected self then self else set_connected true self in
  let sent :=
    send_dji_command 0x00 0x19
      (little_bytes 4 CTR_DEVICE_ID ++ [6]
         ++ take 16 ((mac ++ repeat 0 10) ++ repeat 0 16)
         ++ little_bytes 4 0 ++ [0] ++ [0]
         ++ little_bytes 2 (verify_code env) ++ [0; 0; 0; 0])
      true false (request_env env) linked in
  connected linked = true /\
  connected (fst sent) = true /\
  issued self (fst sent) [request_frame mac (verify_code env)] /\
  cameraStatusCallbacks (fst sent) = cameraStatusCallbacks self /\
  device_id (fst sent) = device_id self /\
  disconnects (fst sent) = disconnects self /\
  connect env self =
    match snd sent with
    | Ok None => (fst sent, Ok NoResponse)
    | Ok (Some f) =>
        except_Exception (
          if negb (fr_cmd_set f =? 0x00) || negb (fr_cmd_id f =? 0x19)
          then mret WrongResponse else
          if negb (fr_frame_type f =? 1) then mret NotAResponse else
          if len (fr_data f) <? 5 then mret ResponseTooShort else
          modify (set_device_id (Some (from_bytes_little (slice (fr_data f) 0 4))));;
          ret_code ← lift (index (fr_data f) 4);
          if negb (ret_code =? 0x00) then mret RequestRejected else
          await_approval (approval_inbound env) (ack_env env)) (fst sent)
    | Raise e => (fst sent, Raise e)
    end.
Proof.
  intros Hreach Hmac Hcode linked sent.
  assert (connected linked = true) as Hl.
  { unfold linked. destruct (connected self) eqn:Hc; [exact Hc | reflexivity]. }
  assert (is_byte 0x00 /\ is_byte 0x19) as [B0 B19] by (unfold is_byte; lia).
  assert (local_mac linked = local_mac self /\ written linked = written self /\
          cameraStatusCallbacks linked = cameraStatusCallbacks self /\
          device_id linked = device_id self /\
          disconnects linked = disconnects self) as (L1 & L2 & L3 & L4 & L5).
  { unfold linked. destruct (connected self); repeat split; reflexivity. }
  pose proof (send_dji_command_link 0x00 0x19
                (little_bytes 4 CTR_DEVICE_ID ++ [6]
                   ++ take 16 ((mac ++ repeat 0 10) ++ repeat 0 16)
                   ++ little_bytes 4 0 ++ [0] ++ [0]
                   ++ little_bytes 2 (verify_code env) ++ [0; 0; 0; 0])
                true false (request_env env) linked Hl B0 B19)
    as (S1 & S2 & S3 & S4 & S5).
  cbv zeta in S1, S2, S3, S4, S5. fold sent in S1, S2, S3, S4, S5.
  split; [exact Hl|]. split; [exact S1|].
  split; [unfold issued, request_frame; rewrite S2, L2; reflexivity|].
  split; [congruence|]. split; [congruence|]. split; [congruence|].
  unfold connect.
  unfold mbind at 1, M_bind at 1, get at 1.
  unfold mbind at 1, M_bind at 1.
  rewrite (connect_scan env self Hreach). fold linked.
  unfold mbind at 1, M_bind at 1, get at 1.
  unfold mbind at 1, M_bind at 1, lift at 1.
  rewrite L1, Hmac.
  unfold mbind at 1, M_bind at 1, lift at 1.
  rewrite (connection_request_ok _ _ Hcode).
  unfold mbind at 1, M_bind at 1. fold sent.
  destruct sent as [s [[f|]|e]]; reflexivity.
Qed.

Lemma index_at (l : list Z) (i : nat) :
  (i < length l)%nat -> index l i = Ok (at_ l i).
Proof.
  intros H. unfold index, at_.
  destruct (l !! i) as [b|] eqn:Hb.
  - now rewrite (nth_lookup_Some _ _ 0 _ Hb).
  - apply lookup_ge_None in Hb. lia.
Qed.

(** [connect] once the camera has answered the connection request with the
    device id [d] and the return code [code]. *)
Lemma connect_answered (env : connect_env) (self : Osmo360) (mac : list Z)
    (f : frame) (d code : Z) :
  reachable env self ->
  _parse_mac_address (local_mac self) = Ok mac ->
  0 <= verify_code env < 2 ^ 16 ->
  answered (request_env env) f ->
  handshake_response f d code ->
  let sent :=
    fst (send_dji_command 0x00 0x19
           (little_bytes 4 CTR_DEVICE_ID ++ [6]
              ++ take 16 ((mac ++ repeat 0 10) ++ repeat 0 16)
              ++ little_bytes 4 0 ++ [0] ++ [0]
              ++ little_bytes 2 (verify_code env) ++ [0; 0; 0; 0])
           true false (request_env env)
           (if connected self then self else set_connected true self)) in
  connected sent = true /\
  issued self sent [request_frame mac (verify_code env)] /\
  cameraStatusCallbacks sent = cameraStatusCallbacks self /\
  disconnects sent = disconnects self /\
  connect env self =
    if code =? 0
    then except_Exception (await_approval (approval_inbound env) (ack_env env))
           (set_device_id (Some d) sent)
    else (set_device_id (Some d) sent, Ok RequestRejected).
Proof.
  intros Hreach Hmac Hcode Hans (Hset & Hid & Hlen & Hd & Hret) sent.
  destruct (connect_unfold env self mac Hreach Hmac Hcode)
    as (Hl & S1 & S2 & S3 & _ & S5 & Hrun).
  cbv zeta in *.
  assert (is_byte 0x00 /\ is_byte 0x19) as [B0 B19] by (unfold is_byte; lia).
  match type of S1 with
  | connected (fst (send_dji_command _ _ ?p _ _ _ ?l)) = _ =>
      pose proof (send_answered 0x00 0x19 p (request_env env) l f Hl B0 B19 Hans)
        as Hsend
  end.
  rewrite Hsend in Hrun. fold sent in S1, S2, S3, S5, Hrun.
  split; [exact S1|]. split; [exact S2|]. split; [exact S3|].
  split; [exact S5|].
  rewrite Hrun. unfold except_Exception.
  destruct Hans as (_ & _ & _ & _ & _ & _ & (_ & _ & _ & _ & _ & Ht & _)).
  rewrite Hset, Hid, Ht. cbn [Z.eqb Pos.eqb negb orb].
  replace (len (fr_data f) <? 5) with false by (symmetry; apply Z.ltb_ge; lia).
  unfold mbind at 1, M_bind at 1, modify at 1.
  unfold mbind at 1, M_bind at 1, lift at 1.
  rewrite Hd, index_at by (unfold len in Hlen; lia).
  rewrite Hret.
  destruct (code =? 0); reflexivity.
Qed.

(** The camera's request, approved: the acknowledgment is written and the
    stored device id returned. *)
Lemma await_approval_allowed (inbound : list (list (list Z))) (env : send_env)
    (self : Osmo360) (g : frame) (d : Z) :
  connected self = true -> device_id self = Some d ->
  notified inbound g -> approval_request g 0 ->
  exists after,
  await_approval inbound env self = (after, Ok (Allowed d)) /\
  issued self after [ack_frame] /\
  connected after = true /\ device_id after = Some d /\
  cameraStatusCallbacks after = cameraStatusCallbacks self /\
  disconnects after = disconnects self.
Proof.
  intros Hc Hd (pre & burst & post & -> & Hpre & Hlast) (Ha & Hlen & Hm & Hv).
  rewrite await_approval_unfold. cbv zeta.
  set (cleared := set_notification_received false self).
  destruct (wait_notification_woken pre post burst g cleared eq_refl Hpre Hlast)
    as (_ & Wok & Wlast).
  pose proof (wait_for_same_link notification_received (pre ++ burst :: post) cleared)
    as (K1 & K2 & K3 & K4 & _ & K6).
  rewrite Wok, Wlast, Ha.
  replace (29 <=? len (fr_data g)) with true by (symmetry; apply Z.leb_le; lia).
  set (waited := fst (wait_for notification_received (pre ++ burst :: post) cleared))
    in *.
  unfold mbind at 1, M_bind at 1, lift at 1.
  rewrite index_at by (unfold len in Hlen; lia).
  rewrite Hm, Hv. cbn [Z.eqb Pos.eqb].
  unfold mbind at 1, M_bind at 1, lift at 1.
  rewrite pack_IB4s_ok by (unfold is_byte; lia).
  assert (connected waited = true) as Hcw by (rewrite K1; exact Hc).
  assert (is_byte 0x00 /\ is_byte 0x19) as [B0 B19] by (unfold is_byte; lia).
  destruct (send_dji_command_returns 0x00 0x19
              (little_bytes 4 0x12345678 ++ [0; 0; 0; 0; 0]) true true env waited
              Hcw B0 B19) as [resp R1].
  pose proof (send_dji_command_link 0x00 0x19
                (little_bytes 4 0x12345678 ++ [0; 0; 0; 0; 0]) true true env waited
                Hcw B0 B19) as (S1 & S2 & S3 & S4 & S5).
  cbv zeta in S1, S2, S3, S4, S5.
  unfold mbind at 1, M_bind at 1.
  destruct (send_dji_command 0x00 0x19 (little_bytes 4 305419896 ++ [0; 0; 0; 0; 0])
              true true env waited) as [s r] eqn:Hsend.
  cbn [fst snd] in *. subst r.
  unfold mbind at 1, M_bind at 1, get_device_id at 1.
  assert (device_id s = Some d) as Hds by (rewrite S4, K4; exact Hd).
  rewrite Hds. exists s.
  split; [reflexivity|].
  split; [unfold issued, ack_frame; rewrite S2, K2; reflexivity|].
  split; [exact S1|]. split; [exact Hds|].
  split; [rewrite S3, K3; reflexivity | rewrite S5, K6; reflexivity].
Qed.

(** The camera's request, denied: the link is closed and nothing is
    written. *)
Lemma await_approval_denied (inbound : list (list (list Z))) (env : send_env)
    (self : Osmo360) (g : frame) (verdict : Z) :
  notified inbound g -> approval_request g verdict -> verdict <> 0 ->
  exists after,
  await_approval inbound env self = (after, Ok Denied) /\
  issued self after [] /\
  connected after = false /\ device_id after = device_id self /\
  cameraStatusCallbacks after = cameraStatusCallbacks self /\
  disconnects after = S (disconnects self).
Proof.
  intros (pre & burst & post & -> & Hpre & Hlast) (Ha & Hlen & Hm & Hv) Hne.
  rewrite await_approval_unfold. cbv zeta.
  set (cleared := set_notification_received false self).
  destruct (wait_notification_woken pre post burst g cleared eq_refl Hpre Hlast)
    as (_ & Wok & Wlast).
  pose proof (wait_for_same_link notification_received (pre ++ burst :: post) cleared)
    as (K1 & K2 & K3 & K4 & _ & K6).
  rewrite Wok, Wlast, Ha.
  replace (29 <=? len (fr_data g)) with true by (symmetry; apply Z.leb_le; lia).
  set (waited := fst (wait_for notification_received (pre ++ burst :: post) cleared))
    in *.
  unfold mbind at 1, M_bind at 1, lift at 1.
  rewrite index_at by (unfold len in Hlen; lia).
  rewrite Hm, Hv. cbn [Z.eqb Pos.eqb].
  apply Z.eqb_neq in Hne. rewrite Hne.
  eexists. split; [reflexivity|].
  unfold issued.
  cbn [written connected device_id cameraStatusCallbacks disconnects
       set_disconnects set_connected].
  rewrite K2, K3, K4, K6, app_nil_r. repeat split.
Qed.

(** No request of the camera before the wait expires. *)
Lemma await_approval_timeout (inbound : list (list (list Z))) (env : send_env)
    (self : Osmo360) :
  Forall (Forall passed_over) inbound ->
  exists after,
  await_approval inbound env self = (after, Ok TimedOut) /\
  same_link self after.
Proof.
  intros Hin. rewrite await_approval_unfold. cbv zeta.
  set (cleared := set_notification_received false self).
  rewrite (wait_notification_timeout inbound cleared eq_refl Hin).
  eexists. split; [reflexivity|].
  exact (wait_for_same_link notification_received inbound cleared).
Qed.

(** The object after each way in which [connect] can end once the camera
    has been reached. *)
Lemma connect_paired_state (env : connect_env) (self : Osmo360) (mac : list Z)
    (f g : frame) (d : Z) :
  reachable env self ->
  _parse_mac_address (local_mac self) = Ok mac ->
  0 <= verify_code env < 2 ^ 16 ->
  answered (request_env env) f -> handshake_response f d 0 ->
  notified (approval_inbound env) g -> approval_request g 0 ->
  exists after,
    connect env self = (after, Ok (Allowed d)) /\
    connected after = true /\ device_id after = Some d /\
    written after = written self ++ [request_frame mac (verify_code env); ack_frame] /\
    cameraStatusCallbacks after = cameraStatusCallbacks self /\
    disconnects after = disconnects self.
Proof.
  intros Hreach Hmac Hcode Hans Hresp Hfirst Happ.
  destruct (connect_answered env self mac f d 0 Hreach Hmac Hcode Hans Hresp)
    as (S1 & S2 & S3 & S4 & ->).
  cbn [Z.eqb]. unfold except_Exception.
  match goal with
  | |- context [await_approval _ _ (set_device_id _ ?sent)] =>
      destruct (await_approval_allowed (approval_inbound env) (ack_env env)
                  (set_device_id (Some d) sent) g d S1 eq_refl Hfirst Happ)
        as (after & -> & A1 & A2 & A3 & A4 & A5)
  end.
  cbn [cameraStatusCallbacks disconnects set_device_id] in A4, A5.
  exists after. split; [reflexivity|]. split; [exact A2|]. split; [exact A3|].
  split; [|split; congruence].
  unfold issued in *. rewrite A1. cbn [written set_device_id].
  rewrite S2, <- app_assoc. reflexivity.
Qed.

Lemma connect_timed_out_state (env : connect_env) (self : Osmo360) (mac : list Z)
    (f : frame) (d : Z) :
  reachable env self ->
  _parse_mac_address (local_mac self) = Ok mac ->
  0 <= verify_code env < 2 ^ 16 ->
  answered (request_env env) f -> handshake_response f d 0 ->
  Forall (Forall passed_over) (approval_inbound env) ->
  exists after,
    connect env self = (after, Ok TimedOut) /\
    connected after = true /\ device_id after = Some d /\
    written after = written self ++ [request_frame mac (verify_code env)] /\
    disconnects after = disconnects self.
Proof.
  intros Hreach Hmac Hcode Hans Hresp Hin.
  destruct (connect_answered env self mac f d 0 Hreach Hmac Hcode Hans Hresp)
    as (S1 & S2 & _ & S4 & ->).
  cbn [Z.eqb]. unfold except_Exception.
  match goal with
  | |- context [await_approval _ _ (set_device_id _ ?sent)] =>
      destruct (await_approval_timeout (approval_inbound env) (ack_env env)
                  (set_device_id (Some d) sent) Hin)
        as (after & -> & K1 & K2 & _ & K4 & _ & K6)
  end.
  cbn [connected written device_id disconnects set_device_id] in K1, K2, K4, K6.
  exists after. split; [reflexivity|].
  split; [congruence|]. split; [congruence|].
  unfold issued in *. split; congruence.
Qed.

Lemma connect_denied_state (env : connect_env) (self : Osmo360) (mac : list Z)
    (f g : frame) (d verdict : Z) :
  reachable env self ->
  _parse_mac_address (local_mac self) = Ok mac ->
  0 <= verify_code env < 2 ^ 16 ->
  answered (request_env env) f -> handshake_response f d 0 ->
  notified (approval_inbound env) g ->
  approval_request g verdict -> verdict <> 0 ->
  exists after,
    connect env self = (after, Ok Denied) /\
    connected after = false /\ device_id after = Some d /\
    written after = written self ++ [request_frame mac (verify_code env)] /\
    disconnects after = S (disconnects self).
Proof.
  intros Hreach Hmac Hcode Hans Hresp Hfirst Happ Hne.
  destruct (connect_answered env self mac f d 0 Hreach Hmac Hcode Hans Hresp)
    as (S1 & S2 & _ & S4 & ->).
  cbn [Z.eqb]. unfold except_Exception.
  match goal with
  | |- context [await_approval _ _ (set_device_id _ ?sent)] =>
      destruct (await_approval_denied (approval_inbound env) (ack_env env)
                  (set_device_id (Some d) sent) g verdict Hfirst Happ Hne)
        as (after & -> & A1 & A2 & A3 & _ & A5)
  end.
  cbn [device_id disconnects set_device_id] in A3, A5.
  exists after. split; [reflexivity|]. split; [exact A2|]. split; [exact A3|].
  split; [|congruence].
  unfold issued in *. rewrite A1. cbn [written set_device_id].
  rewrite S2, app_nil_r. reflexivity.
Qed.

Lemma connect_unanswered_state (env : connect_env) (self : Osmo360) (mac : list Z) :
  reachable env self ->
  _parse_mac_address (local_mac self) = Ok mac ->
  0 <= verify_code env < 2 ^ 16 ->
  Forall not_a_response (during_write (request_env env)) ->
  Forall (Forall not_a_response) (during_wait (request_env env)) ->
  exists after,
    connect env self = (after, Ok NoResponse) /\
    connected after = true /\ device_id after = device_id self /\
    written after = written self ++ [request_frame mac (verify_code env)] /\
    disconnects after = disconnects self.
Proof.
  intros Hreach Hmac Hcode Hw Hwait.
  destruct (connect_unfold env self mac Hreach Hmac Hcode)
    as (Hl & S1 & S2 & _ & S4 & S5 & Hrun).
  cbv zeta in *.
  assert (is_byte 0x00 /\ is_byte 0x19) as [B0 B19] by (unfold is_byte; lia).
  match type of S1 with
  | connected (fst (send_dji_command _ _ ?p _ _ _ ?l)) = _ =>
      pose proof (send_unanswered 0x00 0x19 p (request_env env) l Hl B0 B19 Hw Hwait)
        as Hsend
  end.
  rewrite Hsend in Hrun. rewrite Hrun.
  eexists. split; [reflexivity|].
  split; [exact S1|]. split; [exact S4|]. split; [exact S2 | exact S5].
Qed.

(** X21. A complete handshake. The link is up or the scan finds the camera,
    and the local address parses. The camera answers the connection request
    with a device id and the return code 0 (of the responses handled before
    [connect] resumes, the last one counts), and the notification handled
    last before [connect] resumes from its second wait is the camera's
    request with verification mode 2 and result 0. Then [connect] returns
    that device id and has stored it, the link is connected, and exactly two
    buffers have been written: the connection request and the
    acknowledgment. *)
Theorem connect_pairs (env : connect_env) (self : Osmo360) (mac : list Z)
    (f g : frame) (d : Z) :
  reachable env self ->
  _parse_mac_address (local_mac self) = Ok mac ->
  0 <= verify_code env < 2 ^ 16 ->
  answered (request_env env) f -> handshake_response f d 0 ->
  notified (approval_inbound env) g -> approval_request g 0 ->
  let after := fst (connect env self) in
  snd (connect env self) = Ok (Allowed d) /\
  returned (Allowed d) = ReturnDeviceId d /\
  device_id after = Some d /\
  connected after = true /\
  issued self after [request_frame mac (verify_code env); ack_frame] /\
  cameraStatusCallbacks after = cameraStatusCallbacks self /\
  disconnects after = disconnects self.
Proof.
  intros Hreach Hmac Hcode Hans Hresp Hfirst Happ after. subst after.
  destruct (connect_paired_state env self mac f g d
              Hreach Hmac Hcode Hans Hresp Hfirst Happ)
    as (after & -> & A1 & A2 & A3 & A4 & A5).
  cbn [fst snd]. unfold issued. auto 10.
Qed.

Lemma sample_mode2_parsed :
  parse_dji_frame sample_mode2_request = Ok sample_mode2_frame.
Proof. vm_compute. reflexivity. Qed.

Lemma sample_denied_parsed :
  parse_dji_frame sample_denied_request = Ok sample_denied_frame.
Proof. vm_compute. reflexivity. Qed.

Lemma sample_reject_parsed :
  parse_dji_frame sample_reject_response = Ok sample_reject_frame.
Proof. vm_compute. reflexivity. Qed.

Lemma sample_mode1_not_a_response : not_a_response sample_mode1_request.
Proof. unfold not_a_response. rewrite sample_mode1_parsed. discriminate. Qed.

Lemma sample_mode2_not_a_response : not_a_response sample_mode2_request.
Proof. unfold not_a_response. rewrite sample_mode2_parsed. discriminate. Qed.

(** The camera's accepting answer, handled after a rejecting one and before
    one of its notifications, in one burst. *)
Lemma sample_answered (pre : list (list (list Z))) :
  Forall (Forall not_a_response) pre ->
  answered
    {| during_write := [];
       during_wait :=
         pre ++ [[sample_reject_response; sample_accept_response;
                  sample_mode1_request]] |}
    sample_accept_frame.
Proof.
  intros Hpre. split; [constructor|].
  exists pre, [sample_reject_response; sample_accept_response; sample_mode1_request], [].
  split; [reflexivity|]. split; [exact Hpre|].
  exists [sample_reject_response], sample_accept_response, [sample_mode1_request].
  split; [reflexivity|]. split; [exact sample_accept_parsed|].
  split; [reflexivity|].
  constructor; [exact sample_mode1_not_a_response | constructor].
Qed.

Lemma sample_accept_is_response :
  handshake_response sample_accept_frame 0x12345678 0.
Proof.
  unfold handshake_response.
  split; [reflexivity|]. split; [reflexivity|].
  split; [vm_compute; discriminate|]. split; reflexivity.
Qed.

(** A burst in which the given request of the camera is the last
    notification, after a request with verification mode 1 and before a
    response. *)
Lemma sample_notified (request : list Z) (g : frame) :
  parse_dji_frame request = Ok g -> fr_frame_type g <> 1 ->
  notified [[sample_accept_response];
            [sample_mode1_request; request; sample_accept_response]] g.
Proof.
  intros Hp Ht.
  exists [[sample_accept_response]],
         [sample_mode1_request; request; sample_accept_response], [].
  split; [reflexivity|]. split.
  { constructor; [|constructor].
    constructor; [exact sample_accept_passed_over | constructor]. }
  exists [sample_mode1_request], request, [sample_accept_response].
  split; [reflexivity|]. split; [exact Hp|]. split; [exact Ht|].
  constructor; [exact sample_accept_passed_over | constructor].
Qed.

Lemma connect_pairs_witness :
  snd (connect
         {| bt_found := true; verify_code := 1234;
            request_env :=
              {| during_write := [];
                 during_wait :=
                   [] ++ [[sample_reject_response; sample_accept_response;
                           sample_mode1_request]] |};
            approval_inbound :=
              [[sample_accept_response];
               [sample_mode1_request; sample_mode2_request; sample_accept_response]];
            ack_env := silent_env |}
         (Osmo360_new default_local_mac)) = Ok (Allowed 0x12345678).
Proof.
  refine (proj1 (connect_pairs
                   {| bt_found := true; verify_code := 1234;
                      request_env :=
                        {| during_write := [];
                           during_wait :=
                             [] ++ [[sample_reject_response; sample_accept_response;
                                     sample_mode1_request]] |};
                      approval_inbound :=
                        [[sample_accept_response];
                         [sample_mode1_request; sample_mode2_request;
                          sample_accept_response]];
                      ack_env := silent_env |}
                   (Osmo360_new default_local_mac) [1; 2; 3; 4; 5; 6]
                   sample_accept_frame sample_mode2_frame 0x12345678
                   _ _ _ _ _ _ _)).
  - right. reflexivity.
  - exact default_local_mac_parsed.
  - cbn. lia.
  - apply (sample_answered []). constructor.
  - exact sample_accept_is_response.
  - apply sample_notified; [exact sample_mode2_parsed | discriminate].
  - unfold approval_request.
    split; [reflexivity|]. split; [vm_compute; discriminate|].
    split; reflexivity.
Defined.

(** X22. A denied handshake. When the notification handled last before
    [connect] resumes from its second wait is the camera's request with
    verification mode 2 and a result other than 0, [connect] returns False
    and closes the link: the object is no longer connected, the client has
    been disconnected once, only the connection request has been written
    (no acknowledgment), and the device id from the camera's answer stays
    stored. *)
Theorem connect_denied (env : connect_env) (self : Osmo360) (mac : list Z)
    (f g : frame) (d verdict : Z) :
  reachable env self ->
  _parse_mac_address (local_mac self) = Ok mac ->
  0 <= verify_code env < 2 ^ 16 ->
  answered (request_env env) f -> handshake_response f d 0 ->
  notified (approval_inbound env) g ->
  approval_request g verdict -> verdict <> 0 ->
  let after := fst (connect env self) in
  snd (connect env self) = Ok Denied /\
  returned Denied = ReturnFalse /\
  connected after = false /\
  disconnects after = S (disconnects self) /\
  issued self after [request_frame mac (verify_code env)] /\
  device_id after = Some d.
Proof.
  intros Hreach Hmac Hcode Hans Hresp Hfirst Happ Hne after. subst after.
  destruct (connect_denied_state env self mac f g d verdict
              Hreach Hmac Hcode Hans Hresp Hfirst Happ Hne)
    as (after & -> & A1 & A2 & A3 & A4).
  cbn [fst snd]. unfold issued. auto 10.
Qed.

Lemma connect_denied_witness :
  snd (connect
         {| bt_found := true; verify_code := 1234;
            request_env :=
              {| during_write := [];
                 during_wait :=
                   [] ++ [[sample_reject_response; sample_accept_response;
                           sample_mode1_request]] |};
            approval_inbound :=
              [[sample_accept_response];
               [sample_mode1_request; sample_denied_request; sample_accept_response]];
            ack_env := silent_env |}
         (Osmo360_new default_local_mac)) = Ok Denied.
Proof.
  refine (proj1 (connect_denied
                   {| bt_found := true; verify_code := 1234;
                      request_env :=
                        {| during_write := [];
                           during_wait :=
                             [] ++ [[sample_reject_response; sample_accept_response;
                                     sample_mode1_request]] |};
                      approval_inbound :=
                        [[sample_accept_response];
                         [sample_mode1_request; sample_denied_request;
                          sample_accept_response]];
                      ack_env := silent_env |}
                   (Osmo360_new default_local_mac) [1; 2; 3; 4; 5; 6]
                   sample_accept_frame sample_denied_frame 0x12345678 1
                   _ _ _ _ _ _ _ _)).
  - right. reflexivity.
  - exact default_local_mac_parsed.
  - cbn. lia.
  - apply (sample_answered []). constructor.
  - exact sample_accept_is_response.
  - apply sample_notified; [exact sample_denied_parsed | discriminate].
  - unfold approval_request.
    split; [reflexivity|]. split; [vm_compute; discriminate|].
    split; reflexivity.
  - discriminate.
Defined.

(** X23. A rejected connection request. When the response that [connect]
    gets for its request (the last one handled before it resumes) carries a
    return code other than 0, [connect] returns False at once: whatever
    arrives afterwards is not looked at, nothing more is written, and the
    link is left connected. The device id carried by the rejecting answer
    has been stored all the same. *)
Theorem connect_rejected (env : connect_env) (self : Osmo360) (mac : list Z)
    (f : frame) (d code : Z) :
  reachable env self ->
  _parse_mac_address (local_mac self) = Ok mac ->
  0 <= verify_code env < 2 ^ 16 ->
  answered (request_env env) f -> handshake_response f d code -> code <> 0 ->
  let after := fst (connect env self) in
  snd (connect env self) = Ok RequestRejected /\
  returned RequestRejected = ReturnFalse /\
  device_id after = Some d /\
  connected after = true /\
  disconnects after = disconnects self /\
  issued self after [request_frame mac (verify_code env)] /\
  forall inbound ack,
    connect {| bt_found := bt_found env; verify_code := verify_code env;
               request_env := request_env env;
               approval_inbound := inbound; ack_env := ack |} self
    = connect env self.
Proof.
  intros Hreach Hmac Hcode Hans Hresp Hne after. subst after.
  apply Z.eqb_neq in Hne.
  destruct (connect_answered env self mac f d code Hreach Hmac Hcode Hans Hresp)
    as (S1 & S2 & _ & S4 & E).
  rewrite Hne in E.
  split; [rewrite E; reflexivity|]. split; [reflexivity|].
  split; [rewrite E; reflexivity|]. split; [rewrite E; exact S1|].
  split; [rewrite E; exact S4|]. split; [rewrite E; exact S2|].
  intros inbound ack.
  destruct (connect_answered
              {| bt_found := bt_found env; verify_code := verify_code env;
                 request_env := request_env env;
                 approval_inbound := inbound; ack_env := ack |}
              self mac f d code Hreach Hmac Hcode Hans Hresp)
    as (_ & _ & _ & _ & E').
  cbn [bt_found verify_code request_env approval_inbound ack_env] in E'.
  rewrite Hne in E'. rewrite E, E'. reflexivity.
Qed.

Lemma connect_rejected_witness :
  snd (connect
         {| bt_found := true; verify_code := 1234;
            request_env :=
              {| during_write := [];
                 during_wait :=
                   [[sample_accept_response; sample_reject_response]] |};
            approval_inbound := [[sample_mode2_request]];
            ack_env := silent_env |}
         (Osmo360_new default_local_mac)) = Ok RequestRejected.
Proof.
  refine (proj1 (connect_rejected
                   {| bt_found := true; verify_code := 1234;
                      request_env :=
                        {| during_write := [];
                           during_wait :=
                             [[sample_accept_response; sample_reject_response]] |};
                      approval_inbound := [[sample_mode2_request]];
                      ack_env := silent_env |}
                   (Osmo360_new default_local_mac) [1; 2; 3; 4; 5; 6]
                   sample_reject_frame 0x12345678 1 _ _ _ _ _ _)).
  - right. reflexivity.
  - exact default_local_mac_parsed.
  - cbn. lia.
  - split; [constructor|].
    exists [], [sample_accept_response; sample_reject_response], [].
    split; [reflexivity|]. split; [constructor|].
    exists [sample_accept_response], sample_reject_response, [].
    split; [reflexivity|]. split; [exact sample_reject_parsed|].
    split; [reflexivity | constructor].
  - unfold handshake_response.
    split; [reflexivity|]. split; [reflexivity|].
    split; [vm_compute; discriminate|]. split; reflexivity.
  - discriminate.
Defined.

(** X24. Without a camera. When the object is not connected and the scan
    does not find the camera, [connect] raises "device not found" before
    anything else happens: the object is unchanged. When the link is up,
    the local address parses, and no response to the connection request
    arrives before the timeout, [connect] returns False; the request has
    been written, the link is left connected (also when [connect] itself
    opened it) and no device id is stored. *)
Theorem connect_without_camera (env : connect_env) (self : Osmo360) :
  (connected self = false -> bt_found env = false ->
     connect env self = (self, Raise DeviceNotFound)) /\
  (forall mac,
   reachable env self ->
   _parse_mac_address (local_mac self) = Ok mac ->
   0 <= verify_code env < 2 ^ 16 ->
   Forall not_a_response (during_write (request_env env)) ->
   Forall (Forall not_a_response) (during_wait (request_env env)) ->
   let after := fst (connect env self) in
   snd (connect env self) = Ok NoResponse /\
   returned NoResponse = ReturnFalse /\
   connected after = true /\
   device_id after = device_id self /\
   disconnects after = disconnects self /\
   issued self after [request_frame mac (verify_code env)]).
Proof.
  split.
  - intros Hc Hf. unfold connect.
    unfold mbind at 1, M_bind at 1, get at 1.
    unfold mbind at 1, M_bind at 1.
    rewrite Hc. cbn [negb]. unfold _connect_bt. rewrite Hf. reflexivity.
  - intros mac Hreach Hmac Hcode Hw Hwait after. subst after.
    destruct (connect_unanswered_state env self mac Hreach Hmac Hcode Hw Hwait)
      as (after & -> & A1 & A2 & A3 & A4).
    cbn [fst snd]. unfold issued. auto 10.
Qed.

Lemma connect_without_camera_witness :
  connect {| bt_found := false; verify_code := 1234;
             request_env := silent_env; approval_inbound := [];
             ack_env := silent_env |} (Osmo360_new default_local_mac)
    = (Osmo360_new default_local_mac, Raise DeviceNotFound) /\
  snd (connect {| bt_found := true; verify_code := 1234;
                  request_env := {| during_write := [sample_frame];
                                    during_wait := [[[]; sample_mode2_request]] |};
                  approval_inbound := []; ack_env := silent_env |}
         (Osmo360_new default_local_mac)) = Ok NoResponse.
Proof.
  split.
  - refine (proj1 (connect_without_camera _ _) _ _); reflexivity.
  - refine (proj1 (proj2 (connect_without_camera
                            {| bt_found := true; verify_code := 1234;
                               request_env :=
                                 {| during_write := [sample_frame];
                                    during_wait := [[[]; sample_mode2_request]] |};
                               approval_inbound := []; ack_env := silent_env |}
                            (Osmo360_new default_local_mac))
                     [1; 2; 3; 4; 5; 6] _ _ _ _ _)).
    + right. reflexivity.
    + exact default_local_mac_parsed.
    + cbn. lia.
    + constructor; [|constructor].
      unfold not_a_response. rewrite sample_frame_parsed. discriminate.
    + constructor; [|constructor].
      constructor; [exact empty_buffer_not_a_response|].
      constructor; [exact sample_mode2_not_a_response | constructor].
Defined.

(** X25. A handshake that times out. When the camera has accepted the
    connection request and nothing but undecodable buffers and frames of
    type Response arrives during the ten-second wait, [connect] returns
    False with the link left connected and the device id stored. The
    camera's own request counts only if it arrives during that wait:
    notifications that arrived earlier, while the connection request was
    being written, change nothing in the outcome. *)
Theorem connect_times_out (env : connect_env) (self : Osmo360) (mac : list Z)
    (f : frame) (d : Z) :
  reachable env self ->
  _parse_mac_address (local_mac self) = Ok mac ->
  0 <= verify_code env < 2 ^ 16 ->
  answered (request_env env) f -> handshake_response f d 0 ->
  Forall (Forall passed_over) (approval_inbound env) ->
  let after := fst (connect env self) in
  snd (connect env self) = Ok TimedOut /\
  returned TimedOut = ReturnFalse /\
  connected after = true /\
  device_id after = Some d /\
  disconnects after = disconnects self /\
  issued self after [request_frame mac (verify_code env)] /\
  forall early,
    Forall not_a_response early ->
    snd (connect
           {| bt_found := bt_found env; verify_code := verify_code env;
              request_env :=
                {| during_write := early ++ during_write (request_env env);
                   during_wait := during_wait (request_env env) |};
              approval_inbound := approval_inbound env;
              ack_env := ack_env env |} self) = Ok TimedOut.
Proof.
  intros Hreach Hmac Hcode Hans Hresp Hin after. subst after.
  destruct (connect_timed_out_state env self mac f d
              Hreach Hmac Hcode Hans Hresp Hin) as (after & -> & A1 & A2 & A3 & A4).
  cbn [fst snd].
  split; [reflexivity|]. split; [reflexivity|].
  split; [exact A1|]. split; [exact A2|]. split; [exact A4|]. split; [exact A3|].
  intros early Hearly.
  destruct (connect_timed_out_state
              {| bt_found := bt_found env; verify_code := verify_code env;
                 request_env :=
                   {| during_write := early ++ during_write (request_env env);
                      during_wait := during_wait (request_env env) |};
                 approval_inbound := approval_inbound env;
                 ack_env := ack_env env |} self mac f d)
    as (after' & -> & _); try assumption; [|reflexivity].
  destruct Hans as (Hw & Hrest). split; [|exact Hrest].
  cbn [request_env during_write]. apply Forall_app. split; assumption.
Qed.

Lemma connect_times_out_witness :
  snd (connect
         {| bt_found := true; verify_code := 1234;
            request_env :=
              {| during_write := [];
                 during_wait :=
                   [[sample_mode2_request]]
                     ++ [[sample_reject_response; sample_accept_response;
                          sample_mode1_request]] |};
            approval_inbound := [[sample_accept_response]];
            ack_env := silent_env |}
         (Osmo360_new default_local_mac)) = Ok TimedOut.
Proof.
  refine (proj1 (connect_times_out
                   {| bt_found := true; verify_code := 1234;
                      request_env :=
                        {| during_write := [];
                           during_wait :=
                             [[sample_mode2_request]]
                               ++ [[sample_reject_response; sample_accept_response;
                                    sample_mode1_request]] |};
                      approval_inbound := [[sample_accept_response]];
                      ack_env := silent_env |}
                   (Osmo360_new default_local_mac) [1; 2; 3; 4; 5; 6]
                   sample_accept_frame 0x12345678 _ _ _ _ _ _)).
  - right. reflexivity.
  - exact default_local_mac_parsed.
  - cbn. lia.
  - apply (sample_answered [[sample_mode2_request]]).
    constructor; [|constructor].
    constructor; [exact sample_mode2_not_a_response | constructor].
  - exact sample_accept_is_response.
  - constructor; [|constructor].
    constructor; [exact sample_accept_passed_over | constructor].
Defined.

(** What the wait for the camera's request can end in. *)
Lemma await_approval_exits (inbound : list (list (list Z))) (env : send_env)
    (self : Osmo360) (x : connect_exit) :
  snd (await_approval inbound env self) = Ok x ->
  x = TimedOut \/ x = FellThrough \/ x = Denied \/ exists d, x = Allowed d.
Proof.
  rewrite await_approval_unfold. cbv zeta.
  destruct (wait_for notification_received inbound
              (set_notification_received false self)) as [s [[|]|e]];
    cbn [fst snd]; [| intros [= <-]; auto | discriminate].
  destruct (last_notification_data s) as [g|]; [|intros [= <-]; auto].
  destruct (is_approval_request g); [|intros [= <-]; auto].
  destruct (29 <=? len (fr_data g)); [|intros [= <-]; auto].
  unfold mbind at 1, M_bind at 1, lift at 1.
  destruct (index (fr_data g) 26) as [m|e]; [|discriminate].
  destruct (m =? 2); [|intros [= <-]; auto].
  destruct (from_bytes_little (slice (fr_data g) 27 29) =? 0);
    [|intros [= <-]; auto].
  unfold mbind at 1, M_bind at 1, lift at 1.
  destruct (pack_IB4s 305419896 0 [0; 0; 0; 0]) as [p|e]; [|discriminate].
  unfold mbind at 1, M_bind at 1.
  destruct (send_dji_command 0 25 p true true env s) as [s' [r|e]]; [|discriminate].
  unfold mbind at 1, M_bind at 1, get_device_id at 1.
  destruct (device_id s') as [d|]; [|discriminate].
  intros [= <-]. right. right. right. exists d. reflexivity.
Qed.

(** X26. What [connect] raises once the link is up (the object is
    connected, or the scan finds the camera). The local address is parsed
    outside the [try] block: when [bytes.fromhex] refuses it, [connect]
    raises its [ValueError] with the link open and nothing written, and so
    does [__aenter__]. When the address parses, [connect] returns and does
    not raise: every run ends in one of its return statements or at the end
    of its body, never in the return for a response frame that is not of
    type Response, since the command channel hands back nothing else; and
    [__aenter__], which drops what [connect] returned, succeeds on every
    such run, paired or not. *)
Theorem connect_returns (env : connect_env) (self : Osmo360) :
  reachable env self ->
  0 <= verify_code env < 2 ^ 16 ->
  (forall mac,
     _parse_mac_address (local_mac self) = Ok mac ->
     exists x,
       snd (connect env self) = Ok x /\
       x <> NotAResponse /\
       __aenter__ env self = (fst (connect env self), Ok tt)) /\
  (forall e,
     _parse_mac_address (local_mac self) = Raise e ->
     e = ValueError NonHex /\
     snd (connect env self) = Raise e /\
     connected (fst (connect env self)) = true /\
     written (fst (connect env self)) = written self /\
     __aenter__ env self = (fst (connect env self), Raise e)).
Proof.
  intros Hreach Hcode. split.
  - intros mac Hmac.
    assert (exists x, snd (connect env self) = Ok x /\ x <> NotAResponse)
      as (x & Hx & Hn).
    { destruct (connect_unfold env self mac Hreach Hmac Hcode)
        as (Hl & _ & _ & _ & _ & _ & ->).
      cbv zeta.
      assert (is_byte 0x00 /\ is_byte 0x19) as [B0 B19] by (unfold is_byte; lia).
      match goal with
      | |- context [send_dji_command 0 25 ?p true false ?e ?l] =>
          destruct (send_dji_command_returns 0 25 p true false e l Hl B0 B19)
            as [resp Hret];
          pose proof (send_result_origin 0 25 p true false e l) as Horigin;
          destruct (send_dji_command 0 25 p true false e l) as [s r]
      end.
      cbn [fst snd] in *. subst r.
      destruct resp as [f|]; [|exists NoResponse; split; [reflexivity | discriminate]].
      destruct (Horigin f eq_refl) as (Ht & _).
      unfold except_Exception.
      destruct (negb (fr_cmd_set f =? 0) || negb (fr_cmd_id f =? 25));
        [exists WrongResponse; split; [reflexivity | discriminate]|].
      rewrite Ht. cbn [Z.eqb Pos.eqb negb].
      destruct (len (fr_data f) <? 5);
        [exists ResponseTooShort; split; [reflexivity | discriminate]|].
      unfold mbind at 1, M_bind at 1, modify at 1.
      unfold mbind at 1, M_bind at 1, lift at 1.
      destruct (index (fr_data f) 4) as [code|e];
        [|exists Failed; split; [reflexivity | discriminate]].
      destruct (negb (code =? 0));
        [exists RequestRejected; split; [reflexivity | discriminate]|].
      match goal with
      | |- context [await_approval ?i ?e ?s0] =>
          pose proof (await_approval_exits i e s0) as Hexit;
          destruct (await_approval i e s0) as [s' [y|e']]
      end.
      - exists y. split; [reflexivity|]. cbn [snd] in Hexit.
        destruct (Hexit y eq_refl) as [-> | [-> | [-> | [d ->]]]]; discriminate.
      - exists Failed. split; [reflexivity | discriminate]. }
    exists x. split; [exact Hx|]. split; [exact Hn|].
    unfold __aenter__, mbind, M_bind.
    destruct (connect env self) as [s r]. cbn [fst snd] in *. subst r. reflexivity.
  - intros e Hmac.
    split; [exact (bytes_fromhex_raises _ e Hmac)|].
    unfold __aenter__, mbind, M_bind.
    rewrite (connect_bad_mac env self e Hreach Hmac). cbn [fst snd].
    split; [reflexivity|].
    split; [destruct (connected self) eqn:Hc; [exact Hc | reflexivity]|].
    split; [destruct (connected self); reflexivity | reflexivity].
Qed.

Lemma connect_returns_witness :
  (exists x,
     snd (connect (sample_connect_env [[sample_mode1_request]])
            (Osmo360_new default_local_mac)) = Ok x /\
     x <> NotAResponse /\
     __aenter__ (sample_connect_env [[sample_mode1_request]])
       (Osmo360_new default_local_mac)
     = (fst (connect (sample_connect_env [[sample_mode1_request]])
               (Osmo360_new default_local_mac)), Ok tt)) /\
  snd (connect (sample_connect_env []) (Osmo360_new "01-02-03-04-05-6"))
    = Raise (ValueError NonHex).
Proof.
  split.
  - refine (proj1 (connect_returns (sample_connect_env [[sample_mode1_request]])
                     (Osmo360_new default_local_mac) _ _) [1; 2; 3; 4; 5; 6] _).
    + right. reflexivity.
    + cbn. lia.
    + exact default_local_mac_parsed.
  - refine (proj1 (proj2 (proj2 (connect_returns (sample_connect_env [])
                     (Osmo360_new "01-02-03-04-05-6") _ _)
                     (ValueError NonHex) _))).
    + right. reflexivity.
    + cbn. lia.
    + vm_compute. reflexivity.
Defined.

(** X27. [disconnect] (and with it [__aexit__]) never raises and leaves
    the object disconnected; it closes the client only if the link was up,
    so a second call does nothing. It keeps the device id, the subscribers
    and the write log. Afterwards every command raises "Bluetooth not
    connected", and a new [connect] starts with a scan, raising when the
    camera is not found. *)
Theorem disconnect_closes_once (self : Osmo360) :
  let after := fst (disconnect self) in
  snd (disconnect self) = Ok tt /\
  __aexit__ self = disconnect self /\
  connected after = false /\
  disconnects after =
    (if connected self then S (disconnects self) else disconnects self) /\
  disconnect after = (after, Ok tt) /\
  written after = written self /\
  device_id after = device_id self /\
  cameraStatusCallbacks after = cameraStatusCallbacks self /\
  (forall cmd_set cmd_id payload wait_for_response is_response env,
     send_dji_command cmd_set cmd_id payload wait_for_response is_response env after
       = (after, Raise NotConnected)) /\
  (forall env, bt_found env = false ->
     connect env after = (after, Raise DeviceNotFound)).
Proof.
  intros after.
  assert (connected after = false) as Hc.
  { unfold after, disconnect, mbind, M_bind, get, disconnect_client, modify.
    destruct (connected self) eqn:E; cbn; [reflexivity | exact E]. }
  split; [unfold disconnect, mbind, M_bind, get, disconnect_client, modify;
          destruct (connected self); reflexivity|].
  split; [reflexivity|]. split; [exact Hc|].
  split; [unfold after, disconnect, mbind, M_bind, get, disconnect_client, modify;
          destruct (connected self); reflexivity|].
  split; [unfold disconnect at 1, mbind, M_bind, get; rewrite Hc; reflexivity|].
  split; [unfold after, disconnect, mbind, M_bind, get, disconnect_client, modify;
          destruct (connected self); reflexivity|].
  split; [unfold after, disconnect, mbind, M_bind, get, disconnect_client, modify;
          destruct (connected self); reflexivity|].
  split; [unfold after, disconnect, mbind, M_bind, get, disconnect_client, modify;
          destruct (connected self); reflexivity|].
  split.
  - intros. apply send_dji_command_disconnected. exact Hc.
  - intros env Hf. unfold connect.
    unfold mbind at 1, M_bind at 1, get at 1.
    unfold mbind at 1, M_bind at 1.
    rewrite Hc. cbn [negb]. unfold _connect_bt. rewrite Hf. reflexivity.
Qed.

Lemma disconnect_closes_once_witness :
  connected (fst (disconnect sample_osmo)) = false /\
  connect {| bt_found := false; verify_code := 1234;
             request_env := silent_env; approval_inbound := [];
             ack_env := silent_env |} (fst (disconnect sample_osmo))
    = (fst (disconnect sample_osmo), Raise DeviceNotFound).
Proof.
  destruct (disconnect_closes_once sample_osmo)
    as (_ & _ & H1 & _ & _ & _ & _ & _ & _ & H2).
  split; [exact H1|]. apply H2. reflexivity.
Defined.

Lemma mac_field_length (mac : list Z) :
  length (take 16 ((mac ++ repeat 0 10) ++ repeat 0 16)) = 16%nat.
Proof. rewrite length_take, !length_app, !repeat_length. lia. Qed.

(** X28. The payload of the connection request. For every local address
    and every verification code that fits in two bytes it has exactly 33
    bytes: the controller's device id in the first four, the byte 6, a
    16-byte address field (a six-byte address followed by ten zero bytes;
    anything longer is cut), and the verification code at offsets 27 and
    28, little end first. The request therefore always fits a frame, and
    the frame decodes to a Command of set 0x00 and identifier 0x19 with
    that payload. A code outside two bytes raises [struct.error]. *)
Theorem connection_request_layout (mac : list Z) (code : Z) :
  is_bytes mac ->
  (0 <= code < 2 ^ 16 ->
   exists p,
     connection_request mac code = Ok p /\
     len p = 33 /\
     from_bytes_little (slice p 0 4) = CTR_DEVICE_ID /\
     at_ p 4 = 6 /\
     (length mac = 6%nat -> slice p 5 11 = mac /\ slice p 11 21 = repeat 0 10) /\
     from_bytes_little (slice p 27 29) = code /\
     exists f,
       parse_dji_frame (request_frame mac code) = Ok f /\
       fr_cmd_set f = 0x00 /\ fr_cmd_id f = 0x19 /\ fr_frame_type f = 0 /\
       fr_data f = p) /\
  (~ 0 <= code < 2 ^ 16 -> connection_request mac code = Raise StructError).
Proof.
  intros Hmac. split.
  - intros Hcode. eexists. split; [exact (connection_request_ok mac code Hcode)|].
    pose proof (mac_field_length mac) as HT.
    set (T := take 16 ((mac ++ repeat 0 10) ++ repeat 0 16)) in *.
    pose proof (little_bytes_length 4 CTR_DEVICE_ID) as HA.
    pose proof (little_bytes_length 4 0) as HZ.
    pose proof (little_bytes_length 2 code) as HC.
    set (A := little_bytes 4 CTR_DEVICE_ID) in *.
    set (Z4 := little_bytes 4 0) in *.
    set (C := little_bytes 2 code) in *.
    assert (len (A ++ [6] ++ T ++ Z4 ++ [0] ++ [0] ++ C ++ [0; 0; 0; 0]) = 33) as Hlen.
    { unfold len. rewrite !length_app, HA, HT, HZ, HC. reflexivity. }
    split; [exact Hlen|].
    split.
    { rewrite (slice_prefix A _ 4) by (symmetry; exact HA).
      apply from_little_bytes. unfold CTR_DEVICE_ID. cbn. lia. }
    split.
    { unfold at_. rewrite app_nth2 by lia. rewrite HA. reflexivity. }
    split.
    { intros Hm.
      assert (T = mac ++ repeat 0 10) as ->.
      { unfold T. apply take_app_length'. rewrite length_app, repeat_length. lia. }
      split.
      - replace (A ++ [6] ++ (mac ++ repeat 0 10) ++ Z4 ++ [0] ++ [0] ++ C ++ [0; 0; 0; 0])
          with ((A ++ [6]) ++ mac ++ (repeat 0 10 ++ Z4 ++ [0] ++ [0] ++ C ++ [0; 0; 0; 0]))
          by (rewrite <- !app_assoc; reflexivity).
        apply slice_middle; rewrite length_app, HA; cbn [length]; lia.
      - replace (A ++ [6] ++ (mac ++ repeat 0 10) ++ Z4 ++ [0] ++ [0] ++ C ++ [0; 0; 0; 0])
          with ((A ++ [6] ++ mac) ++ repeat 0 10 ++ (Z4 ++ [0] ++ [0] ++ C ++ [0; 0; 0; 0]))
          by (rewrite <- !app_assoc; reflexivity).
        apply slice_middle; rewrite !length_app, HA, ?repeat_length; cbn [length]; lia. }
    split.
    { replace (A ++ [6] ++ T ++ Z4 ++ [0] ++ [0] ++ C ++ [0; 0; 0; 0])
        with ((A ++ [6] ++ T ++ Z4 ++ [0] ++ [0]) ++ C ++ [0; 0; 0; 0])
        by (rewrite <- !app_assoc; reflexivity).
      rewrite (slice_middle _ C _ 27 29)
        by (rewrite !length_app, HA, HT, HZ, ?HC; cbn [length]; lia).
      apply from_little_bytes. exact Hcode. }
    assert (valid_args 0x00 0x19
              (A ++ [6] ++ T ++ Z4 ++ [0] ++ [0] ++ C ++ [0; 0; 0; 0])) as Hv.
    { split; [unfold is_byte; lia|]. split; [unfold is_byte; lia|]. split.
      - unfold is_bytes.
        repeat (apply Forall_app; split);
          try apply little_bytes_is_bytes;
          try (repeat (constructor; [unfold is_byte; lia|]); constructor).
        unfold T. apply Forall_take. repeat (apply Forall_app; split).
        + exact Hmac.
        + apply List.Forall_forall. intros x Hx. apply repeat_spec in Hx. subst x.
          unfold is_byte. lia.
        + apply List.Forall_forall. intros x Hx. apply repeat_spec in Hx. subst x.
          unfold is_byte. lia.
      - rewrite Hlen. lia. }
    eexists. split; [exact (parse_frame_of 0x00 0x19 _ false 1 Hv)|].
    repeat split.
  - intros Hcode. unfold connection_request.
    destruct (0 <=? code) eqn:E1; [|reflexivity].
    destruct (code <? 2 ^ 16) eqn:E2; [|reflexivity].
    apply Z.leb_le in E1. apply Z.ltb_lt in E2. exfalso. apply Hcode. lia.
Qed.

Lemma connection_request_layout_witness :
  exists p,
    connection_request [1; 2; 3; 4; 5; 6] 1234 = Ok p /\
    len p = 33 /\
    from_bytes_little (slice p 0 4) = CTR_DEVICE_ID /\
    at_ p 4 = 6 /\
    (length [1; 2; 3; 4; 5; 6] = 6%nat ->
     slice p 5 11 = [1; 2; 3; 4; 5; 6] /\ slice p 11 21 = repeat 0 10) /\
    from_bytes_little (slice p 27 29) = 1234 /\
    exists f,
      parse_dji_frame (request_frame [1; 2; 3; 4; 5; 6] 1234) = Ok f /\
      fr_cmd_set f = 0x00 /\ fr_cmd_id f = 0x19 /\ fr_frame_type f = 0 /\
      fr_data f = p.
Proof.
  refine (proj1 (connection_request_layout [1; 2; 3; 4; 5; 6] 1234 _) _).
  - unfold is_bytes, is_byte. repeat (constructor; [lia|]). constructor.
  - lia.
Defined.

(* ================================================================== *)
(** * Properties of the entry point *)

Lemma main_unfold (env : main_env) :
  main env =
    match connect (handshake_env env) (Osmo360_new default_local_mac) with
    | (self, Ok _) => then_exit (main_body env) self
    | (self, Raise e) => (self, Raise e)
    end.
Proof.
  unfold main, async_with, __aenter__, mbind, M_bind.
  destruct (connect (handshake_env env) (Osmo360_new default_local_mac))
    as [s [x|e]]; reflexivity.
Qed.

Lemma sleep_same_link (inbound : list (list Z)) (self : Osmo360) :
  sleep inbound self = (fst (sleep inbound self), Ok tt) /\
  same_link self (fst (sleep inbound self)).
Proof.
  unfold sleep. cbn [fst]. split; [reflexivity | apply deliver_same_link].
Qed.

(** A camera command on a connected object that holds a device id. *)
Lemma camera_command_link (cmd_id action : Z) (env : send_env) (self : Osmo360)
    (d : Z) :
  connected self = true -> device_id self = Some d -> 0 <= d < 2 ^ 32 ->
  is_byte cmd_id -> is_byte action ->
  exists after,
    (id ← get_device_id;
     ack_payload ← lift (pack_IB4s id action [0; 0; 0; 0]);
     resp ← send_dji_command 0x1D cmd_id ack_payload true false env;
     mret (command_succeeded resp)) self = (after, Ok false) /\
    connected after = true /\ device_id after = Some d /\
    written after = written self ++ [command_frame cmd_id d action] /\
    disconnects after = disconnects self.
Proof.
  intros Hc Hd Hr Hi Ha.
  rewrite (command_runs cmd_id action env self d Hc Hd Hr Hi Ha).
  assert (is_byte 0x1D) as Hs by (unfold is_byte; lia).
  destruct (send_dji_command_link 0x1D cmd_id
              (little_bytes 4 d ++ [action; 0; 0; 0; 0]) true false env self Hc Hs Hi)
    as (S1 & S2 & _ & S4 & S5).
  eexists. split; [reflexivity|].
  split; [exact S1|]. split; [congruence|]. split; [exact S2 | exact S5].
Qed.

(** The block of [main] on a connected object that holds a device id. *)
Lemma main_body_runs (env : main_env) (self : Osmo360) (d : Z) :
  connected self = true -> device_id self = Some d -> 0 <= d < 2 ^ 32 ->
  exists after,
    main_body env self = (after, Ok tt) /\
    connected after = true /\
    written after = written self
      ++ [command_frame 0x04 d 0x3F; command_frame 0x03 d 0x00] /\
    disconnects after = disconnects self.
Proof.
  intros Hc Hd Hr.
  assert (is_byte 0x04 /\ is_byte 0x03 /\ is_byte 0x00 /\ is_byte 0x3F)
    as (B4 & B3 & B0 & BM) by (unfold is_byte; lia).
  unfold main_body.
  destruct (sleep_same_link (first_sleep env) self) as (E1 & K1 & K2 & _ & K4 & _ & K6).
  unfold mbind at 1, M_bind at 1. rewrite E1.
  set (s1 := fst (sleep (first_sleep env) self)) in *.
  destruct (camera_command_link 0x04 0x3F (mode_env env) s1 d)
    as (s2 & E2 & C1 & C2 & C3 & C4); try assumption; try congruence.
  unfold mbind at 1, M_bind at 1. unfold setMode.
  change (value CameraMode.PANO_PHOTO) with 0x3F. rewrite E2.
  destruct (sleep_same_link (second_sleep env) s2) as (E3 & L1 & L2 & _ & L4 & _ & L6).
  unfold mbind at 1, M_bind at 1. rewrite E3.
  set (s3 := fst (sleep (second_sleep env) s2)) in *.
  destruct (camera_command_link 0x03 0x00 (image_env env) s3 d)
    as (s4 & E4 & D1 & D2 & D3 & D4); try assumption; try congruence.
  unfold mbind at 1, M_bind at 1. unfold grabImage. rewrite E4.
  exists s4. split; [reflexivity|]. split; [exact D1|].
  split; [|congruence].
  rewrite D3, L2, C3, K2, <- app_assoc. reflexivity.
Qed.

(** The block of [main] on an object that is not connected or holds no
    device id: the first command raises and nothing is written. *)
Lemma main_body_raises (env : main_env) (self : Osmo360) :
  (device_id self = None ->
   exists after, main_body env self = (after, Raise AttributeError) /\
                 same_link self after) /\
  (forall d, device_id self = Some d -> 0 <= d < 2 ^ 32 -> connected self = false ->
   exists after, main_body env self = (after, Raise NotConnected) /\
                 same_link self after).
Proof.
  destruct (sleep_same_link (first_sleep env) self) as (E1 & K).
  pose proof K as (K1 & _ & _ & K4 & _).
  split.
  - intros Hd. unfold main_body.
    unfold mbind at 1, M_bind at 1. rewrite E1.
    set (s1 := fst (sleep (first_sleep env) self)) in *.
    unfold mbind at 1, M_bind at 1.
    unfold setMode, mbind at 1, M_bind at 1, get_device_id at 1.
    rewrite K4, Hd. exists s1. split; [reflexivity | exact K].
  - intros d Hd Hr Hc. unfold main_body.
    unfold mbind at 1, M_bind at 1. rewrite E1.
    set (s1 := fst (sleep (first_sleep env) self)) in *.
    unfold mbind at 1, M_bind at 1.
    unfold setMode, mbind at 1, M_bind at 1, get_device_id at 1.
    rewrite K4, Hd.
    unfold mbind at 1, M_bind at 1, lift at 1.
    rewrite pack_IB4s_ok by (try assumption; unfold is_byte; cbn; lia).
    unfold mbind at 1, M_bind at 1.
    rewrite send_dji_command_disconnected by congruence.
    exists s1. split; [reflexivity | exact K].
Qed.

Lemma then_exit_ok {A} (body : M A) (self after : Osmo360) (a : A) :
  body self = (after, Ok a) ->
  then_exit body self = (fst (disconnect after), Ok a).
Proof.
  intros H. unfold then_exit. rewrite H.
  cbv [__aexit__ mbind M_bind mret M_ret disconnect get disconnect_client modify fst].
  destruct (connected after); reflexivity.
Qed.

Lemma then_exit_raise {A} (body : M A) (self after : Osmo360) (e : exn) :
  body self = (after, Raise e) ->
  then_exit body self = (fst (disconnect after), Raise e).
Proof.
  intros H. unfold then_exit. rewrite H.
  cbv [__aexit__ mbind M_bind mret M_ret disconnect get disconnect_client modify fst].
  destruct (connected after); reflexivity.
Qed.

Lemma disconnect_facts (self : Osmo360) :
  connected (fst (disconnect self)) = false /\
  written (fst (disconnect self)) = written self /\
  disconnects (fst (disconnect self)) =
    (if connected self then S (disconnects self) else disconnects self).
Proof.
  cbv [mbind M_bind mret M_ret disconnect get disconnect_client modify fst].
  destruct (connected self) eqn:E; cbn; auto.
Qed.

(** X29. [main] does not look at what [connect] returned. When the camera
    is found and answers the connection request with return code 0, the
    two commands of [main] are sent whether the handshake then completes
    or times out: [main] returns normally, the link is closed once on the
    way out, and the write log holds the connection request, the
    acknowledgment only if the camera approved, the mode command for
    PANO_PHOTO (0x3F) and the shutter command, in this order. *)
Theorem main_sends_commands (env : main_env) (f : frame) (d : Z) :
  bt_found (handshake_env env) = true ->
  0 <= verify_code (handshake_env env) < 2 ^ 16 ->
  answered (request_env (handshake_env env)) f ->
  handshake_response f d 0 -> 0 <= d < 2 ^ 32 ->
  (forall g,
     notified (approval_inbound (handshake_env env)) g ->
     approval_request g 0 ->
     snd (main env) = Ok tt /\
     written (fst (main env)) =
       [request_frame [1; 2; 3; 4; 5; 6] (verify_code (handshake_env env));
        ack_frame; command_frame 0x04 d 0x3F; command_frame 0x03 d 0x00] /\
     connected (fst (main env)) = false /\
     disconnects (fst (main env)) = 1%nat) /\
  (Forall (Forall passed_over) (approval_inbound (handshake_env env)) ->
     snd (main env) = Ok tt /\
     written (fst (main env)) =
       [request_frame [1; 2; 3; 4; 5; 6] (verify_code (handshake_env env));
        command_frame 0x04 d 0x3F; command_frame 0x03 d 0x00] /\
     connected (fst (main env)) = false /\
     disconnects (fst (main env)) = 1%nat).
Proof.
  intros Hfound Hcode Hans Hresp Hd.
  assert (reachable (handshake_env env) (Osmo360_new default_local_mac)) as Hreach
    by (right; exact Hfound).
  assert (forall s x frames,
            connect (handshake_env env) (Osmo360_new default_local_mac) = (s, Ok x) ->
            connected s = true -> device_id s = Some d ->
            written s = written (Osmo360_new default_local_mac) ++ frames ->
            disconnects s = disconnects (Osmo360_new default_local_mac) ->
            snd (main env) = Ok tt /\
            written (fst (main env)) =
              frames ++ [command_frame 0x04 d 0x3F; command_frame 0x03 d 0x00] /\
            connected (fst (main env)) = false /\
            disconnects (fst (main env)) = 1%nat) as Hrun.
  { intros s x frames Hconn Hc Hdev Hw Hdis.
    rewrite main_unfold, Hconn.
    destruct (main_body_runs env s d Hc Hdev Hd) as (s' & Hbody & B1 & B2 & B3).
    rewrite (then_exit_ok (main_body env) s s' tt Hbody).
    destruct (disconnect_facts s') as (F1 & F2 & F3).
    cbn [fst snd]. split; [reflexivity|].
    split; [rewrite F2, B2, Hw; reflexivity|].
    split; [exact F1|].
    rewrite F3, B1, B3, Hdis. reflexivity. }
  split.
  - intros g Hfirst Happ.
    destruct (connect_paired_state (handshake_env env) (Osmo360_new default_local_mac)
                [1; 2; 3; 4; 5; 6] f g d Hreach default_local_mac_parsed Hcode
                Hans Hresp Hfirst Happ)
      as (s & Hconn & C1 & C2 & C3 & _ & C4).
    exact (Hrun s (Allowed d) _ Hconn C1 C2 C3 C4).
  - intros Hin.
    destruct (connect_timed_out_state (handshake_env env)
                (Osmo360_new default_local_mac) [1; 2; 3; 4; 5; 6] f d
                Hreach default_local_mac_parsed Hcode Hans Hresp Hin)
      as (s & Hconn & C1 & C2 & C3 & C4).
    exact (Hrun s TimedOut _ Hconn C1 C2 C3 C4).
Qed.

Lemma main_sends_commands_witness :
  snd (main {| handshake_env :=
                 {| bt_found := true; verify_code := 1234;
                    request_env :=
                      {| during_write := [];
                         during_wait :=
                           [] ++ [[sample_reject_response; sample_accept_response;
                                   sample_mode1_request]] |};
                    approval_inbound :=
                      [[sample_accept_response];
                       [sample_mode1_request; sample_mode2_request;
                        sample_accept_response]];
                    ack_env := silent_env |};
               first_sleep := [sample_status_broadcast];
               mode_env := silent_env;
               second_sleep := [];
               image_env := silent_env |}) = Ok tt.
Proof.
  refine (proj1 (proj1 (main_sends_commands
                          {| handshake_env :=
                               {| bt_found := true; verify_code := 1234;
                                  request_env :=
                                    {| during_write := [];
                                       during_wait :=
                                         [] ++ [[sample_reject_response;
                                                 sample_accept_response;
                                                 sample_mode1_request]] |};
                                  approval_inbound :=
                                    [[sample_accept_response];
                                     [sample_mode1_request; sample_mode2_request;
                                      sample_accept_response]];
                                  ack_env := silent_env |};
                             first_sleep := [sample_status_broadcast];
                             mode_env := silent_env;
                             second_sleep := [];
                             image_env := silent_env |}
                          sample_accept_frame 0x12345678 _ _ _ _ _)
                   sample_mode2_frame _ _)).
  - reflexivity.
  - cbn. lia.
  - apply (sample_answered []). constructor.
  - exact sample_accept_is_response.
  - lia.
  - apply sample_notified; [exact sample_mode2_parsed | discriminate].
  - unfold approval_request.
    split; [reflexivity|]. split; [vm_compute; discriminate|].
    split; reflexivity.
Defined.

(** X30. The runs of [main] that end in an exception. When the scan does
    not find the camera, [main] raises "device not found" and nothing is
    written. When the camera is found but does not answer the connection
    request, [connect] returns False, [main] goes on, and its first command
    raises [AttributeError] for want of a device id. When the camera denies
    the connection, [connect] has closed the link, and the first command
    raises "Bluetooth not connected". In the last two cases only the
    connection request has been written and the client has been
    disconnected exactly once. *)
Theorem main_raises (env : main_env) :
  (bt_found (handshake_env env) = false ->
     main env = (Osmo360_new default_local_mac, Raise DeviceNotFound)) /\
  (bt_found (handshake_env env) = true ->
   0 <= verify_code (handshake_env env) < 2 ^ 16 ->
   (Forall not_a_response (during_write (request_env (handshake_env env))) ->
    Forall (Forall not_a_response) (during_wait (request_env (handshake_env env))) ->
    snd (main env) = Raise AttributeError /\
    written (fst (main env)) =
      [request_frame [1; 2; 3; 4; 5; 6] (verify_code (handshake_env env))] /\
    connected (fst (main env)) = false /\
    disconnects (fst (main env)) = 1%nat) /\
   (forall f g d verdict,
      answered (request_env (handshake_env env)) f ->
      handshake_response f d 0 -> 0 <= d < 2 ^ 32 ->
      notified (approval_inbound (handshake_env env)) g ->
      approval_request g verdict -> verdict <> 0 ->
      snd (main env) = Raise NotConnected /\
      written (fst (main env)) =
        [request_frame [1; 2; 3; 4; 5; 6] (verify_code (handshake_env env))] /\
      connected (fst (main env)) = false /\
      disconnects (fst (main env)) = 1%nat)).
Proof.
  split.
  - intros Hf. rewrite main_unfold. unfold connect.
    unfold mbind at 1, M_bind at 1, get at 1.
    unfold mbind at 1, M_bind at 1.
    cbn [connected Osmo360_new negb]. unfold _connect_bt. rewrite Hf. reflexivity.
  - intros Hfound Hcode.
    assert (reachable (handshake_env env) (Osmo360_new default_local_mac)) as Hreach
      by (right; exact Hfound).
    split.
    + intros Hw Hwait.
      destruct (connect_unanswered_state (handshake_env env)
                  (Osmo360_new default_local_mac) [1; 2; 3; 4; 5; 6]
                  Hreach default_local_mac_parsed Hcode Hw Hwait)
        as (s & Hconn & C1 & C2 & C3 & C4).
      rewrite main_unfold, Hconn.
      destruct (proj1 (main_body_raises env s) C2)
        as (s' & Hbody & K1 & K2 & _ & _ & _ & K6).
      rewrite (then_exit_raise (main_body env) s s' _ Hbody).
      destruct (disconnect_facts s') as (F1 & F2 & F3).
      cbn [fst snd]. split; [reflexivity|].
      split; [rewrite F2, K2, C3; reflexivity|].
      split; [exact F1|].
      rewrite F3, K1, C1, K6, C4. reflexivity.
    + intros f g d verdict Hans Hresp Hd Hfirst Happ Hne.
      destruct (connect_denied_state (handshake_env env)
                  (Osmo360_new default_local_mac) [1; 2; 3; 4; 5; 6] f g d verdict
                  Hreach default_local_mac_parsed Hcode Hans Hresp Hfirst Happ Hne)
        as (s & Hconn & C1 & C2 & C3 & C4).
      rewrite main_unfold, Hconn.
      destruct (proj2 (main_body_raises env s) d C2 Hd C1)
        as (s' & Hbody & K1 & K2 & _ & _ & _ & K6).
      rewrite (then_exit_raise (main_body env) s s' _ Hbody).
      destruct (disconnect_facts s') as (F1 & F2 & F3).
      cbn [fst snd]. split; [reflexivity|].
      split; [rewrite F2, K2, C3; reflexivity|].
      split; [exact F1|].
      rewrite F3, K1, C1, K6, C4. reflexivity.
Qed.

Lemma main_raises_witness :
  main {| handshake_env :=
            {| bt_found := false; verify_code := 1234;
               request_env := silent_env; approval_inbound := [];
               ack_env := silent_env |};
          first_sleep := []; mode_env := silent_env;
          second_sleep := []; image_env := silent_env |}
    = (Osmo360_new default_local_mac, Raise DeviceNotFound) /\
  snd (main {| handshake_env :=
                 {| bt_found := true; verify_code := 1234;
                    request_env :=
                      {| during_write := [];
                         during_wait :=
                           [] ++ [[sample_reject_response; sample_accept_response;
                                   sample_mode1_request]] |};
                    approval_inbound :=
                      [[sample_accept_response];
                       [sample_mode1_request; sample_denied_request;
                        sample_accept_response]];
                    ack_env := silent_env |};
               first_sleep := []; mode_env := silent_env;
               second_sleep := []; image_env := silent_env |})
    = Raise NotConnected.
Proof.
  split.
  - refine (proj1 (main_raises _) _). reflexivity.
  - refine (proj1 (proj2 (proj2 (main_raises
              {| handshake_env :=
                   {| bt_found := true; verify_code := 1234;
                      request_env :=
                        {| during_write := [];
                           during_wait :=
                             [] ++ [[sample_reject_response; sample_accept_response;
                                     sample_mode1_request]] |};
                      approval_inbound :=
                        [[sample_accept_response];
                         [sample_mode1_request; sample_denied_request;
                          sample_accept_response]];
                      ack_env := silent_env |};
                 first_sleep := []; mode_env := silent_env;
                 second_sleep := []; image_env := silent_env |}) _ _)
              sample_accept_frame sample_denied_frame 0x12345678 1 _ _ _ _ _ _)).
    + reflexivity.
    + cbn. lia.
    + apply (sample_answered []). constructor.
    + exact sample_accept_is_response.
    + lia.
    + apply sample_notified; [exact sample_denied_parsed | discriminate].
    + unfold approval_request.
      split; [reflexivity|]. split; [vm_compute; discriminate|].
      split; reflexivity.
    + discriminate.
Defined.
